(** * JOB-SEARCH: the scraping, scoring and aggregation core

    A shallow embedding of the three variants of the job scraper
    ([fn.py]: [SimpleJobScraper] over HTTP, [branch.py]:
    [EnhancedJobScraper] over a browser driver, [JOB.py]: the aggregator
    that drives the latter) and the properties of their recency
    classifier, relevance scorer, adapters and aggregator.

    Conventions of the embedding:
    - Python [str] is [string]; texts are ASCII, so [str.lower] and
      [str.strip] act on ASCII letters and ASCII white space only.
    - A job posting (a Python [dict] with a fixed set of keys) is the
      record [job]; a key that is added after the dict is created is an
      [option] field, [None] while the key is absent.
    - Network, browser and clock are a [World] of oracles; the code that
      uses them lives in the monad [M], which threads the event trace and
      the number of clock readings and carries raised exceptions.
    - Relevance scores are exact rationals.  The quotients that occur
      (k/16 and k/23) and the two thresholds are never within a rounding
      error of a decision point of [round] or [>=], so the double
      precision results of the source denote the rationals computed here. *)

From Stdlib Require Import Ascii String DecimalString QArith Lia.
From stdpp Require Import gmap strings list.

Local Open Scope string_scope.
Local Open Scope list_scope.

(** ** Python string primitives *)

Module Py.

Definition is_upper (c : ascii) : bool :=
  (65 <=? nat_of_ascii c)%nat && (nat_of_ascii c <=? 90)%nat.

Definition is_alpha (c : ascii) : bool :=
  is_upper c || ((97 <=? nat_of_ascii c)%nat && (nat_of_ascii c <=? 122)%nat).

(** [str.isspace] on ASCII: tab, line feed, vertical tab, form feed,
    carriage return, the four separators 28..31 and the space. *)
Definition is_space (c : ascii) : bool :=
  let n := nat_of_ascii c in
  ((9 <=? n)%nat && (n <=? 13)%nat) || ((28 <=? n)%nat && (n <=? 32)%nat).

Definition lower_char (c : ascii) : ascii :=
  if is_upper c then ascii_of_nat (nat_of_ascii c + 32) else c.

(** [s.lower()] *)
Fixpoint lower (s : string) : string :=
  match s with
  | EmptyString => EmptyString
  | String c s' => String (lower_char c) (lower s')
  end.

(** [s.startswith(p)] *)
Fixpoint startswith (p s : string) : bool :=
  match p, s with
  | EmptyString, _ => true
  | String _ _, EmptyString => false
  | String a p', String b s' => Ascii.eqb a b && startswith p' s'
  end.

(** [needle in hay] *)
Fixpoint str_in (needle hay : string) : bool :=
  startswith needle hay ||
  match hay with
  | EmptyString => false
  | String _ hay' => str_in needle hay'
  end.

(** [s.replace(c, by)] for a one-character pattern *)
Fixpoint replace_char (c : ascii) (by_ : string) (s : string) : string :=
  match s with
  | EmptyString => EmptyString
  | String a s' =>
      if Ascii.eqb a c then by_ +:+ replace_char c by_ s'
      else String a (replace_char c by_ s')
  end.

(** [sep.join(parts)] *)
Fixpoint join (sep : string) (parts : list string) : string :=
  match parts with
  | [] => EmptyString
  | [p] => p
  | p :: rest => p +:+ sep +:+ join sep rest
  end.

Fixpoint lstrip (s : string) : string :=
  match s with
  | EmptyString => EmptyString
  | String c s' => if is_space c then lstrip s' else s
  end.

Fixpoint rstrip (s : string) : string :=
  match s with
  | EmptyString => EmptyString
  | String c s' =>
      match rstrip s' with
      | EmptyString => if is_space c then EmptyString else String c EmptyString
      | r => String c r
      end
  end.

(** [s.strip()] *)
Definition strip (s : string) : string := rstrip (lstrip s).

(** [str(n)] for a natural number *)
Definition str_of_nat (n : nat) : string :=
  NilEmpty.string_of_uint (Nat.to_uint n).

(** [x or d] on strings: the empty string is falsy *)
Definition str_or (x d : string) : string :=
  if String.eqb x EmptyString then d else x.

End Py.

(** ** Clock values: [datetime], [strftime('%d %b %Y')], [timedelta(days=1)] *)

Inductive month := Jan | Feb | Mar | Apr | May | Jun | Jul | Aug | Sep | Oct | Nov | Dec.

Record datetime := mk_datetime {
  year : nat; mon : month; day : nat;
  hour : nat; minute : nat; second : nat; microsecond : nat }.

Module Clock.

(** [%b] in the C locale *)
Definition abbr (m : month) : string :=
  match m with
  | Jan => "Jan" | Feb => "Feb" | Mar => "Mar" | Apr => "Apr"
  | May => "May" | Jun => "Jun" | Jul => "Jul" | Aug => "Aug"
  | Sep => "Sep" | Oct => "Oct" | Nov => "Nov" | Dec => "Dec"
  end.

Definition number (m : month) : nat :=
  match m with
  | Jan => 1 | Feb => 2 | Mar => 3 | Apr => 4 | May => 5 | Jun => 6
  | Jul => 7 | Aug => 8 | Sep => 9 | Oct => 10 | Nov => 11 | Dec => 12
  end.

Definition pred_month (m : month) : month :=
  match m with
  | Jan => Dec | Feb => Jan | Mar => Feb | Apr => Mar | May => Apr
  | Jun => May | Jul => Jun | Aug => Jul | Sep => Aug | Oct => Sep
  | Nov => Oct | Dec => Nov
  end.

Definition is_leap (y : nat) : bool :=
  ((y mod 4 =? 0) && negb (y mod 100 =? 0) || (y mod 400 =? 0))%nat.

Definition days_in (y : nat) (m : month) : nat :=
  match m with
  | Feb => if is_leap y then 29 else 28
  | Apr | Jun | Sep | Nov => 30
  | _ => 31
  end.

(** Two digits, zero padded: [%d], [%m], [%H], [%M], [%S] *)
Definition pad2 (n : nat) : string :=
  if (n <? 10)%nat then "0" +:+ Py.str_of_nat n else Py.str_of_nat n.

Fixpoint zeros (n : nat) : string :=
  match n with O => EmptyString | S n' => String "0" (zeros n') end.

Definition pad (width n : nat) : string :=
  let s := Py.str_of_nat n in zeros (width - String.length s) +:+ s.

(** [d.strftime('%d %b %Y')] *)
Definition strftime_d_b_Y (d : datetime) : string :=
  pad2 (day d) +:+ " " +:+ abbr (mon d) +:+ " " +:+ Py.str_of_nat (year d).

(** [d - timedelta(days=1)]; the clock never reads 1 January of year 1,
    where Python would raise [OverflowError]. *)
Definition minus_one_day (d : datetime) : datetime :=
  if (1 <? day d)%nat then
    mk_datetime (year d) (mon d) (day d - 1) (hour d) (minute d) (second d) (microsecond d)
  else
    let y := match mon d with Jan => (year d - 1)%nat | _ => year d end in
    let m := pred_month (mon d) in
    mk_datetime y m (days_in y m) (hour d) (minute d) (second d) (microsecond d).

(** [d.isoformat()] *)
Definition isoformat (d : datetime) : string :=
  pad 4 (year d) +:+ "-" +:+ pad2 (number (mon d)) +:+ "-" +:+ pad2 (day d) +:+ "T" +:+
  pad2 (hour d) +:+ ":" +:+ pad2 (minute d) +:+ ":" +:+ pad2 (second d) +:+
  (if (microsecond d =? 0)%nat then EmptyString else "." +:+ pad 6 (microsecond d)).

End Clock.

(** ** Effects: exceptions, the event trace and clock readings *)

Inductive exn :=
  | ConnectionError | Timeout | HTTPError | JSONDecodeError
  | AttributeError | KeyError | TypeError
  | WebDriverException | TimeoutException | NoSuchElementException.

(** What a run does to the outside: requests and politeness delays.
    Calls to [logging] and to the progress widgets change no control
    flow and are left out. *)
Inductive event :=
  | Request (url : string)
  | Sleep (secs : nat).

Record state := mk_state { trace : list event; ticks : nat }.

Definition M (A : Type) : Type := state -> (exn + A) * state.

Definition ret {A} (a : A) : M A := fun st => (inr a, st).

Definition raise {A} (e : exn) : M A := fun st => (inl e, st).

Definition bind {A B} (m : M A) (k : A -> M B) : M B :=
  fun st =>
    match m st with
    | (inr a, st') => k a st'
    | (inl e, st') => (inl e, st')
    end.

(** [try: m  except Exception as e: h e] *)
Definition try_except {A} (m : M A) (h : exn -> M A) : M A :=
  fun st =>
    match m st with
    | (inr a, st') => (inr a, st')
    | (inl e, st') => h e st'
    end.

(** [try: m  finally: f] *)
Definition try_finally {A} (m : M A) (f : M unit) : M A :=
  fun st =>
    match m st with
    | (r, st') =>
        match f st' with
        | (inr _, st'') => (r, st'')
        | (inl e, st'') => (inl e, st'')
        end
    end.

Definition emit (ev : event) : M unit :=
  fun st => (inr tt, mk_state (trace st ++ [ev]) (ticks st)).

(** [time.sleep(secs)] *)
Definition sleep (secs : nat) : M unit := emit (Sleep secs).

(** An outcome decided by the outside world *)
Definition lift {A} (r : exn + A) : M A := fun st => (r, st).

Declare Scope M_scope.
Delimit Scope M_scope with M.
Notation "x <- m ;; k" := (bind m (fun x => k))
  (at level 100, m at next level, right associativity) : M_scope.
Local Open Scope M_scope.

(** [for x in l: acc = body x acc]: the loop variable [acc] stands for the
    list the loop appends to. *)
Fixpoint for_each {A B} (l : list A) (body : A -> B -> M B) (acc : B) : M B :=
  match l with
  | [] => ret acc
  | x :: l' => acc' <- body x acc ;; for_each l' body acc'
  end.

(** [datetime.now()]: the n-th reading of the clock *)
Definition now (clock : nat -> datetime) : M datetime :=
  fun st => (inr (clock (ticks st)), mk_state (trace st) (S (ticks st))).

(** The state a run starts from *)
Definition initial : state := mk_state [] 0.

(** ** The posting record *)

Record job := mk_job {
  title : string;
  organization : string;
  location : string;
  url : option string;          (* [None]: an anchor without [href] *)
  date_posted : string;
  source : string;
  scraped_at : string;
  description : option string;  (* read by the scorer of branch.py, set by no adapter *)
  search_term : option string;
  is_recent : option bool;
  relevance_score : option Q;
  is_public_health : option bool }.

Definition set_search_term (v : string) (j : job) : job :=
  mk_job (title j) (organization j) (location j) (url j) (date_posted j) (source j)
    (scraped_at j) (description j) (Some v) (is_recent j) (relevance_score j)
    (is_public_health j).

Definition set_is_recent (v : bool) (j : job) : job :=
  mk_job (title j) (organization j) (location j) (url j) (date_posted j) (source j)
    (scraped_at j) (description j) (search_term j) (Some v) (relevance_score j)
    (is_public_health j).

Definition set_relevance (score : Q) (flag : bool) (j : job) : job :=
  mk_job (title j) (organization j) (location j) (url j) (date_posted j) (source j)
    (scraped_at j) (description j) (search_term j) (is_recent j) (Some score)
    (Some flag).

(** ** Recency classifier (fn.py 25-42, branch.py 61-78: the same text) *)

Definition recent_phrases : list string :=
  ["hours ago"; "hour ago"; "today"; "just now"; "1 day ago"; "yesterday"].

(** [date_text] is [None] for Python's [None]. *)
Definition is_recent_job (clock : nat -> datetime) (date_text : option string) : M bool :=
  match date_text with
  | None => ret false
  | Some text =>
      if String.eqb text EmptyString then ret false
      else
        let date_text_lower := Py.lower text in
        today <- now clock ;;
        today' <- now clock ;;
        let recent_indicators :=
          recent_phrases ++
          [Clock.strftime_d_b_Y today;
           Clock.strftime_d_b_Y (Clock.minus_one_day today')] in
        ret (existsb (fun indicator => Py.str_in indicator date_text_lower)
               recent_indicators)
  end.

(** ** Relevance scoring arithmetic *)

(** [round(x, 2)]: the nearest multiple of 1/100, ties to the even one.
    The result keeps the denominator 100. *)
Definition round2 (x : Q) : Q :=
  let n := (100 * Qnum x)%Z in
  let d := Zpos (Qden x) in
  let q := (n / d)%Z in
  let r := (n mod d)%Z in
  let up :=
    match (2 * r ?= d)%Z with
    | Lt => false
    | Gt => true
    | Eq => Z.odd q
    end in
  ((if up then q + 1 else q)%Z # 100).

(** [sum(1 for keyword in keywords if keyword in job_text)] *)
Definition count_matches (keywords : list string) (job_text : string) : nat :=
  length (List.filter (fun keyword => Py.str_in keyword job_text) keywords).

(** [matches / len(keywords)] *)
Definition ratio (matches len : nat) : Q :=
  Z.of_nat matches # Pos.of_nat len.

(** One turn of the scoring loop.  The state is the list [jobs] as the
    in-place updates leave it (first component) and [filtered_jobs]
    (second component). *)
Definition score_step (keywords : list string) (threshold : Q)
    (text_of : job -> string) (acc : list job * list job) (j : job)
    : list job * list job :=
  let job_text := Py.lower (text_of j) in
  let matches := count_matches keywords job_text in
  let relevance_score := ratio matches (length keywords) in
  if Qle_bool threshold relevance_score then
    let j' := set_relevance (round2 relevance_score) true j in
    (fst acc ++ [j'], snd acc ++ [j'])
  else
    let j' := set_relevance (round2 relevance_score) false j in
    (fst acc ++ [j'], snd acc).

(** ** Removing duplicates (fn.py 363-369, branch.py 482-488, JOB.py 238-244) *)

Definition dedup_step (acc : list job * gset (option string)) (j : job)
    : list job * gset (option string) :=
  let '(unique_jobs, seen_urls) := acc in
  if decide (url j ∈ seen_urls) then (unique_jobs, seen_urls)
  else (unique_jobs ++ [j], {[url j]} ∪ seen_urls).

Definition remove_duplicates (all_jobs : list job) : list job :=
  fst (fold_left dedup_step all_jobs ([], ∅)).

(** [display_results]: the view the presentation works on *)
Definition working_view (show_only_recent : bool) (jobs : list job) : list job :=
  if show_only_recent
  then List.filter (fun j => default false (is_recent j)) jobs
  else jobs.

(** ** fn.py: [SimpleJobScraper] and its driver [main] *)

Module Simple.

(** *** What the network returns *)

(** The decoded ReliefWeb payload, at the shape the adapter reads:
    [{data: [{id, fields: {title, source: [{name}], country: [{name}],
    date: {created}}}]}].  The payload is whatever the server sent: every
    member may be absent or of another JSON type, and the model keeps what
    the control flow of the adapter can tell apart. *)

(** A text of the payload.  A value that is not a JSON string, where the
    adapter takes it into a posting, is held as it is printed, with its
    truth value. *)
Inductive rw_text :=
  | Str (s : string)
  | NotStr (printed : string) (truthy : bool).

Definition printed_text (t : rw_text) : string :=
  match t with Str s => s | NotStr printed _ => printed end.

(** An entry of [source] or of [country] *)
Inductive rw_named :=
  | Named (name : option rw_text)   (* an object, and its [name] when it has one *)
  | NotNamed.                       (* not an object: it has no [get] *)

(** A member that is to hold an object or an array *)
Inductive member (A : Type) :=
  | Absent
  | Holds (a : A)
  | Mistyped.   (* a value of another type, on which the access of the adapter raises *)
Arguments Absent {A}.
Arguments Holds {A} a.
Arguments Mistyped {A}.

Record rw_fields := mk_fields {
  f_title : option string;    (* as it is printed *)
  f_source : member (list rw_named);
    (* [Absent] also for null, false, 0, "" and {}: the adapter tests its truth first *)
  f_country : member (list rw_named);
    (* [Absent] also for "" and {}: there is nothing to iterate over *)
  f_date : member (option rw_text) }.
    (* the [date] object, then its [created] *)

Inductive rw_item :=
  | ItemObject (id : option string) (fields : member rw_fields)
      (* an object; its [id] as it is printed *)
  | ItemOther.   (* not an object: it has no [get] *)

Inductive rw_data :=
  | DataArray (items : list rw_item)
      (* an array; a string is sliced too and acts as an array of non-objects *)
  | DataOther.   (* a number, boolean, null or object: it has no slice *)

Inductive rw_body :=
  | BodyObject (data : option rw_data)
  | BodyOther.   (* an array, string, number, boolean or null: it has no [get] *)

(** The answers of the parsed page to the queries the adapters make. *)
Record anchor := mk_anchor {
  a_text : string;             (* [get_text(strip=True)] *)
  a_href : option string }.    (* the [href] attribute *)

Record rw_article := mk_rw_article {
  rw_h3 : option (option anchor);  (* [find('h3')], then its [find('a')] *)
  rw_dd : option string;           (* [find('dd')], its stripped text *)
  rw_country : option string;      (* [find('span', class_='rw-river-article__country')] *)
  rw_time : option string }.       (* [find('time')] *)

Record dx_element := mk_dx_element {
  dx_h3 : option string;           (* [find('h3')], its stripped text *)
  dx_h2 : option string;           (* [find('h2')] *)
  dx_a : option (option string) }. (* [find('a')], then its [href] *)

Record document := mk_document {
  find_all_rw_job : list rw_article;   (* [find_all('article', class_='rw-river-article--job')] *)
  find_all_job_div : list dx_element;  (* [find_all('div', class_=re.compile(r'job-item|job-card'))] *)
  find_all_article : list dx_element }. (* [find_all('article')] *)

Record response := mk_response {
  status_code : nat;
  json : exn + rw_body;   (* [response.json()] *)
  soup : document }.      (* [BeautifulSoup(response.content, 'html.parser')] *)

Record World := mk_World {
  session_get : string -> exn + response;   (* [session.get(url, timeout=10)] *)
  clock : nat -> datetime }.

Definition get (w : World) (url : string) : M response :=
  _ <- emit (Request url) ;; lift (session_get w url).

(** [response.raise_for_status()] *)
Definition raise_for_status (r : response) : M unit :=
  if (400 <=? status_code r)%nat && (status_code r <? 600)%nat
  then raise HTTPError else ret tt.

Definition reliefweb_api_url (search_term : string) (max_jobs : nat) : string :=
  "https://api.reliefweb.int/v1/jobs?appname=publichealth&query[value]=" +:+
  Py.replace_char " " "+" search_term +:+ "&limit=" +:+ Py.str_of_nat max_jobs.

Definition reliefweb_html_url (search_term : string) : string :=
  "https://reliefweb.int/jobs?search=" +:+ Py.replace_char " " "+" search_term.

Definition devex_url (search_term : string) : string :=
  "https://www.devex.com/jobs/search?filter[keywords]=" +:+
  Py.replace_char " " "%20" search_term.

(** *** ReliefWeb, HTML fallback (fn.py 85-138) *)

Definition scrape_reliefweb_html_item (w : World) (search_term : string)
    (job_element : rw_article) (jobs : list job) : M (list job) :=
  try_except
    (let title_elem := match rw_h3 job_element with Some h3 => h3 | None => None end in
     match title_elem with
     | None => ret jobs
     | Some title_elem =>
         let title := a_text title_elem in
         let url := "https://reliefweb.int" +:+ default "" (a_href title_elem) in
         let organization := default "Unknown Organization" (rw_dd job_element) in
         let location := default "Multiple Locations" (rw_country job_element) in
         let date_posted := default "Unknown" (rw_time job_element) in
         t <- now (clock w) ;;
         let job_data :=
           mk_job title organization location (Some url) date_posted "reliefweb"
             (Clock.isoformat t) None (Some search_term) None None None in
         recent <- is_recent_job (clock w) (Some date_posted) ;;
         ret (jobs ++ [set_is_recent recent job_data])
     end)
    (fun _ => ret jobs).

Definition scrape_reliefweb_html (w : World) (search_term : string) (max_jobs : nat)
    : M (list job) :=
  try_except
    (response <- get w (reliefweb_html_url search_term) ;;
     let job_elements := take max_jobs (find_all_rw_job (soup response)) in
     for_each job_elements (scrape_reliefweb_html_item w search_term) [])
    (fun _ => ret []).

(** *** ReliefWeb, API first (fn.py 44-83) *)

Definition empty_fields : rw_fields := mk_fields None Absent Absent Absent.

(** [fields.get('source', [{}])[0].get('name', 'Unknown Organization') if
    fields.get('source') else 'Unknown Organization'] *)
Definition first_source (source : member (list rw_named)) : exn + string :=
  match source with
  | Absent | Holds [] => inr "Unknown Organization"
  | Holds (Named name :: _) =>
      inr (default "Unknown Organization" (printed_text <$> name))
  | Holds (NotNamed :: _) => inl AttributeError
  | Mistyped => inl TypeError
  end.

(** [[loc.get('name', '') for loc in fields.get('country', [])]] *)
Fixpoint country_names (entries : list rw_named) : exn + list rw_text :=
  match entries with
  | [] => inr []
  | NotNamed :: _ => inl AttributeError
  | Named name :: rest =>
      match country_names rest with
      | inr names => inr (default (Str "") name :: names)
      | inl e => inl e
      end
  end.

(** [', '.join(names)]: every name has to be a string. *)
Fixpoint joined (names : list rw_text) : exn + list string :=
  match names with
  | [] => inr []
  | NotStr _ _ :: _ => inl TypeError
  | Str s :: rest =>
      match joined rest with
      | inr texts => inr (s :: texts)
      | inl e => inl e
      end
  end.

(** [self.is_recent_job(date_text)] on a text of the payload: a value
    that is not a string is answered [False] when it is falsy, and has no
    [lower] otherwise. *)
Definition is_recent_text (clock : nat -> datetime) (date_text : rw_text) : M bool :=
  match date_text with
  | Str s => is_recent_job clock (Some s)
  | NotStr _ false => is_recent_job clock None
  | NotStr _ true => raise AttributeError
  end.

Definition scrape_reliefweb_item (w : World) (search_term : string)
    (item : rw_item) (jobs : list job) : M (list job) :=
  try_except
    (match item with
     | ItemOther => raise AttributeError
     | ItemObject id fields =>
         fields <- match fields with
                   | Absent => ret empty_fields
                   | Holds fields => ret fields
                   | Mistyped => raise AttributeError
                   end ;;
         let title := default "No title" (f_title fields) in
         organization <- lift (first_source (f_source fields)) ;;
         entries <- match f_country fields with
                    | Absent => ret []
                    | Holds entries => ret entries
                    | Mistyped => raise TypeError
                    end ;;
         names <- lift (country_names entries) ;;
         texts <- lift (joined names) ;;
         let location := Py.str_or (Py.join ", " texts) "Multiple Locations" in
         id <- match id with
               | None => raise KeyError
               | Some id => ret id
               end ;;
         let url := "https://reliefweb.int/job/" +:+ id in
         date_posted <- match f_date fields with
                        | Absent | Holds None => ret (Str "Unknown")
                        | Holds (Some created) => ret created
                        | Mistyped => raise AttributeError
                        end ;;
         t <- now (clock w) ;;
         let job_data :=
           mk_job title organization location (Some url) (printed_text date_posted)
             "reliefweb" (Clock.isoformat t) None (Some search_term) None None None in
         recent <- is_recent_text (clock w) date_posted ;;
         ret (jobs ++ [set_is_recent recent job_data])
     end)
    (fun _ => ret jobs).

(** [data.get('data', [])], as far as the slice [[:max_jobs]] takes it *)
Definition data_items (data : rw_body) : M (list rw_item) :=
  match data with
  | BodyOther => raise AttributeError
  | BodyObject None => ret []
  | BodyObject (Some (DataArray items)) => ret items
  | BodyObject (Some DataOther) => raise TypeError
  end.

Definition scrape_reliefweb (w : World) (search_term : string) (max_jobs : nat)
    : M (list job) :=
  let url := reliefweb_api_url search_term max_jobs in
  try_except
    (response <- get w url ;;
     _ <- raise_for_status response ;;
     data <- lift (json response) ;;
     items <- data_items data ;;
     for_each (take max_jobs items) (scrape_reliefweb_item w search_term) [])
    (fun _ => scrape_reliefweb_html w search_term max_jobs).

(** *** Devex (fn.py 140-205) *)

(** The character class [[a-zA-Z\s&]] *)
Definition org_char (c : ascii) : bool :=
  Py.is_alpha c || Py.is_space c || Ascii.eqb c "&".

(** The longest prefix of characters satisfying [p], and the rest *)
Fixpoint span (p : ascii -> bool) (s : string) : string * string :=
  match s with
  | EmptyString => (EmptyString, EmptyString)
  | String c s' =>
      if p c then let '(run, rest) := span p s' in (String c run, rest)
      else (EmptyString, s)
  end.

(** The group [([A-Z][a-zA-Z\s&]+)] matched greedily at the head of [s],
    with what follows it *)
Definition org_group (s : string) : option (string * string) :=
  match s with
  | String c s' =>
      if Py.is_upper c then
        match span org_char s' with
        | (EmptyString, _) => None
        | (run, rest) => Some (String c run, rest)
        end
      else None
  | EmptyString => None
  end.

(** [at\s+([A-Z][a-zA-Z\s&]+)] anchored at the head of [s] *)
Definition match_at_pattern (s : string) : option string :=
  match s with
  | String "a" (String "t" s') =>
      match span Py.is_space s' with
      | (EmptyString, _) => None
      | (_, rest) => fst <$> org_group rest
      end
  | _ => None
  end.

(** [-\s*([A-Z][a-zA-Z\s&]+)$] anchored at the head of [s]; the class
    contains the line feed, so the greedy group has to reach the end. *)
Definition match_dash_pattern (s : string) : option string :=
  match s with
  | String "-" s' =>
      match org_group (snd (span Py.is_space s')) with
      | Some (group, EmptyString) => Some group
      | _ => None
      end
  | _ => None
  end.

(** [re.search]: the leftmost position where the anchored match succeeds *)
Fixpoint re_search (anchored : string -> option string) (s : string) : option string :=
  match anchored s with
  | Some group => Some group
  | None =>
      match s with
      | EmptyString => None
      | String _ s' => re_search anchored s'
      end
  end.

Definition org_patterns : list (string -> option string) :=
  [match_at_pattern; match_dash_pattern].

(** The loop over [org_patterns] with its [break] *)
Fixpoint find_organization (patterns : list (string -> option string))
    (title organization : string) : string :=
  match patterns with
  | [] => organization
  | pattern :: rest =>
      match re_search pattern title with
      | Some group => Py.strip group
      | None => find_organization rest title organization
      end
  end.

Definition scrape_devex_item (w : World) (search_term : string)
    (job_element : dx_element) (jobs : list job) : M (list job) :=
  try_except
    (let title_elem :=
       match dx_h3 job_element with
       | Some h3 => Some h3
       | None => dx_h2 job_element
       end in
     match title_elem with
     | None => ret jobs
     | Some title =>
         let url :=
           match dx_a job_element with
           | Some link_elem => default "" link_elem
           | None => ""
           end in
         let url :=
           if negb (String.eqb url "") && negb (Py.startswith "http" url)
           then "https://www.devex.com" +:+ url else url in
         let organization :=
           find_organization org_patterns title "Development Organization" in
         t <- now (clock w) ;;
         let job_data :=
           mk_job title organization "Global" (Some url) "Recent" "devex"
             (Clock.isoformat t) None (Some search_term) None None None in
         ret (jobs ++ [set_is_recent true job_data])
     end)
    (fun _ => ret jobs).

Definition scrape_devex (w : World) (search_term : string) (max_jobs : nat)
    : M (list job) :=
  try_except
    (response <- get w (devex_url search_term) ;;
     let job_elements := take max_jobs (find_all_job_div (soup response)) in
     let job_elements :=
       match job_elements with
       | [] => take max_jobs (find_all_article (soup response))
       | _ => job_elements
       end in
     for_each job_elements (scrape_devex_item w search_term) [])
    (fun _ => ret []).

(** *** All selected sites for one term (fn.py 207-230) *)

(** The defaults of the [max_jobs] parameters *)
Definition reliefweb_max_jobs : nat := 20.
Definition devex_max_jobs : nat := 15.

Definition scrape_site (w : World) (search_term site : string)
    (all_jobs : list job) : M (list job) :=
  try_except
    (if String.eqb site "reliefweb" then
       jobs <- scrape_reliefweb w search_term reliefweb_max_jobs ;;
       let all_jobs := all_jobs ++ jobs in
       _ <- sleep 1 ;;
       ret all_jobs
     else if String.eqb site "devex" then
       jobs <- scrape_devex w search_term devex_max_jobs ;;
       let all_jobs := all_jobs ++ jobs in
       _ <- sleep 1 ;;
       ret all_jobs
     else ret all_jobs)
    (fun _ => ret all_jobs).

Definition scrape_development_sites (w : World) (search_term : string)
    (sites : option (list string)) : M (list job) :=
  let sites := default ["reliefweb"; "devex"] sites in
  for_each sites (scrape_site w search_term) [].

(** *** Scoring (fn.py 232-259) *)

Definition public_health_keywords : list string :=
  ["public health"; "monitoring"; "evaluation"; "m&e"; "data";
   "health"; "strategic information"; "commcare"; "dhis2";
   "survey"; "research"; "impact assessment"; "health program";
   "global health"; "health systems"; "epidemiology"; "health";
   "maternal"; "child health"; "hiv"; "tb"; "malaria"; "nutrition"].

Definition threshold : Q := 0.2.

(** [f"{job['title']} {job.get('organization', '')}"] *)
Definition job_text (j : job) : string := title j +:+ " " +:+ organization j.

(** The pair of [jobs] after the loop and the returned [filtered_jobs] *)
Definition score_jobs (jobs : list job) : list job * list job :=
  fold_left (score_step public_health_keywords threshold job_text) jobs ([], []).

Definition filter_public_health_jobs (jobs : list job) : list job :=
  snd (score_jobs jobs).

(** *** The run started by the button (fn.py 325-375) *)

Definition search_one_term (w : World) (sites : list string)
    (search_term : string) (all_jobs : list job) : M (list job) :=
  try_finally
    (try_except
       (jobs <- scrape_development_sites w search_term (Some sites) ;;
        let filtered_jobs := filter_public_health_jobs jobs in
        ret (all_jobs ++ filtered_jobs))
       (fun _ => ret all_jobs))
    (sleep 1).

(** [max_jobs_per_search] is the value of the slider; [None] is the
    return after a configuration error, before anything is fetched. *)
Definition main (w : World) (search_terms sites : list string)
    (max_jobs_per_search : nat) : M (option (list job)) :=
  match search_terms, sites with
  | [], _ => ret None
  | _, [] => ret None
  | _, _ =>
      all_jobs <- for_each search_terms (search_one_term w sites) [] ;;
      ret (Some (remove_duplicates all_jobs))
  end.

End Simple.

(** ** branch.py: [EnhancedJobScraper]; JOB.py: its driver *)

Module Enhanced.

(** *** What the browser returns *)

(** The answers of one listed element to [find_element]; [None] is
    [NoSuchElementException]. *)
Record rw_element := mk_rw_element {
  rw_title : option (string * option string);
    (* [h3.rw-river-article__title a]: its text and its [href] *)
  rw_dd : option string;
  rw_country : option string;
  rw_time : option string }.

Record un_element := mk_un_element {
  un_heading : option string;          (* [h2, h3]: its text *)
  un_link : option (option string);    (* [a]: its [href] *)
  un_org : option string;              (* [.org, .organization] *)
  un_duty : option string }.           (* [.duty, .location] *)

Record page := mk_page {
  article_present : bool;
    (* whether an [article] shows up within the 10 s of [WebDriverWait] *)
  find_rw_jobs : list rw_element;   (* [article.rw-river-article--job] *)
  find_un_jobs : list un_element }. (* [div.job, .job-item] *)

Record World := mk_World {
  chrome : exn + unit;
    (* [EnhancedJobScraper(headless=True)]: the start of the browser *)
  driver_get : string -> exn + page;     (* [driver.get(url)] *)
  clock : nat -> datetime }.

Definition get (w : World) (url : string) : M page :=
  _ <- emit (Request url) ;; lift (driver_get w url).

(** [element.find_element(...)] *)
Definition find_element {A} (found : option A) : M A :=
  match found with
  | Some a => ret a
  | None => raise NoSuchElementException
  end.

(** [try: x = find_element(...).text.strip()  except: x = fallback] *)
Definition text_or (found : option string) (fallback : string) : M string :=
  try_except (text <- find_element found ;; ret (Py.strip text))
    (fun _ => ret fallback).

Definition reliefweb_url (search_term : string) : string :=
  "https://reliefweb.int/jobs?search=" +:+ Py.replace_char " " "+" search_term.

Definition unjobs_url (search_term : string) : string :=
  "https://unjobs.org/search/" +:+ Py.replace_char " " "%20" search_term.

(** *** ReliefWeb (branch.py 80-154) *)

Definition extract_reliefweb_job_data (w : World) (job_element : rw_element)
    : M (option job) :=
  try_except
    (title_element <- find_element (rw_title job_element) ;;
     let title := Py.strip (fst title_element) in
     let url := snd title_element in
     organization <- text_or (rw_dd job_element) "Unknown Organization" ;;
     location <- text_or (rw_country job_element) "Multiple Locations" ;;
     date_posted <- text_or (rw_time job_element) "Unknown" ;;
     t <- now (clock w) ;;
     ret (Some (mk_job title organization location url date_posted "reliefweb"
                  (Clock.isoformat t) None None None None None)))
    (fun _ => ret None).

(** The body shared by the loops of both adapters: tag what the
    extraction returned and append it. *)
Definition tag_and_append (w : World) (search_term : string)
    (extracted : M (option job)) (jobs : list job) : M (list job) :=
  try_except
    (job_data <- extracted ;;
     match job_data with
     | Some job_data =>
         let job_data := set_search_term search_term job_data in
         recent <- is_recent_job (clock w) (Some (date_posted job_data)) ;;
         ret (jobs ++ [set_is_recent recent job_data])
     | None => ret jobs
     end)
    (fun _ => ret jobs).

Definition wait_for_article (p : page) : M unit :=
  if article_present p then ret tt else raise TimeoutException.

Definition scrape_reliefweb (w : World) (search_term : string) (max_jobs : nat)
    : M (list job) :=
  try_except
    (p <- get w (reliefweb_url search_term) ;;
     _ <- wait_for_article p ;;
     let job_elements := take max_jobs (find_rw_jobs p) in
     for_each job_elements
       (fun job_element =>
          tag_and_append w search_term (extract_reliefweb_job_data w job_element))
       [])
    (fun _ => ret []).

(** *** UNjobs (branch.py 156-224) *)

Definition extract_unjobs_job_data (w : World) (job_element : un_element)
    : M (option job) :=
  try_except
    (title_text <- find_element (un_heading job_element) ;;
     let title := Py.strip title_text in
     url <- find_element (un_link job_element) ;;
     organization <- text_or (un_org job_element) "UN Agency" ;;
     location <- text_or (un_duty job_element) "Multiple Duty Stations" ;;
     t <- now (clock w) ;;
     ret (Some (mk_job title organization location url "Recent" "unjobs"
                  (Clock.isoformat t) None None None None None)))
    (fun _ => ret None).

Definition scrape_unjobs (w : World) (search_term : string) (max_jobs : nat)
    : M (list job) :=
  try_except
    (p <- get w (unjobs_url search_term) ;;
     _ <- sleep 3 ;;
     let job_elements := take max_jobs (find_un_jobs p) in
     for_each job_elements
       (fun job_element =>
          tag_and_append w search_term (extract_unjobs_job_data w job_element))
       [])
    (fun _ => ret []).

(** *** All selected sites for one term (branch.py 226-249) *)

Definition reliefweb_max_jobs : nat := 20.
Definition unjobs_max_jobs : nat := 15.

Definition scrape_site (w : World) (search_term site : string)
    (all_jobs : list job) : M (list job) :=
  try_except
    (if String.eqb site "reliefweb" then
       jobs <- scrape_reliefweb w search_term reliefweb_max_jobs ;;
       let all_jobs := all_jobs ++ jobs in
       _ <- sleep 2 ;;
       ret all_jobs
     else if String.eqb site "unjobs" then
       jobs <- scrape_unjobs w search_term unjobs_max_jobs ;;
       let all_jobs := all_jobs ++ jobs in
       _ <- sleep 2 ;;
       ret all_jobs
     else ret all_jobs)
    (fun _ => ret all_jobs).

Definition scrape_development_sites (w : World) (search_term : string)
    (sites : option (list string)) : M (list job) :=
  let sites := default ["reliefweb"; "unjobs"] sites in
  for_each sites (scrape_site w search_term) [].

(** *** Scoring (branch.py 251-277) *)

Definition public_health_keywords : list string :=
  ["public health"; "monitoring"; "evaluation"; "m&e"; "data";
   "health"; "strategic information"; "commcare"; "dhis2";
   "survey"; "research"; "impact assessment"; "health program";
   "global health"; "health systems"; "epidemiology"].

Definition threshold : Q := 0.3.

(** [f"{job['title']} {job.get('description', '')}"] *)
Definition job_text (j : job) : string :=
  title j +:+ " " +:+ default "" (description j).

Definition score_jobs (jobs : list job) : list job * list job :=
  fold_left (score_step public_health_keywords threshold job_text) jobs ([], []).

Definition filter_public_health_jobs (jobs : list job) : list job :=
  snd (score_jobs jobs).

(** *** The run (JOB.py 190-249; branch.py 433-496 adds the final
    [scraper.close()]) *)

Definition search_one_term (w : World) (sites : list string)
    (search_term : string) (all_jobs : list job) : M (list job) :=
  try_finally
    (try_except
       (jobs <- scrape_development_sites w search_term (Some sites) ;;
        let filtered_jobs := filter_public_health_jobs jobs in
        ret (all_jobs ++ filtered_jobs))
       (fun _ => ret all_jobs))
    (sleep 2).

Definition run_scraper_with_progress (w : World) (search_terms sites : list string)
    (max_jobs : nat) : M (list job) :=
  match search_terms, sites with
  | [], _ => ret []
  | _, [] => ret []
  | _, _ =>
      _ <- lift (chrome w) ;;
      all_jobs <- for_each search_terms (search_one_term w sites) [] ;;
      ret (remove_duplicates all_jobs)
  end.

End Enhanced.

(** ** Definitions used by the statements *)

(** The state after the two clock readings of the classifier *)
Definition tick2 (st : state) : state := mk_state (trace st) (S (S (ticks st))).

(** A clock on the morning of 5 January 2025 *)
Definition clock_5_jan_2025 (n : nat) : datetime := mk_datetime 2025 Jan 5 9 30 n 0.

(** [m] returns from [st], and its value and final state satisfy [P]. *)
Definition yields {A} (m : M A) (st : state) (P : A -> state -> Prop) : Prop :=
  exists a st', m st = (inr a, st') /\ P a st'.

(** Nothing was emitted between [st] and [st']. *)
Definition quiet (st st' : state) : Prop := trace st' = trace st.

(** The posting was produced by the adapter of site [s]. *)
Definition from_source (s : string) (j : job) : Prop := source j = s.

(** [r] is [acc] followed by at most [n] more postings, all satisfying [Q]. *)
Definition grows_by (Q : job -> Prop) (n : nat) (acc r : list job) : Prop :=
  exists new, r = acc ++ new /\ Forall Q new /\ length new <= n.

(** What the UNjobs adapter leaves in every posting *)
Definition unjobs_posting (j : job) : Prop :=
  date_posted j = "Recent" /\ is_recent j = Some false /\ source j = "unjobs".

(** The postings of [l] whose url is not in [seen] and is carried by no
    earlier posting of [l] *)
Fixpoint first_occurrences (seen : gset (option string)) (l : list job) : list job :=
  match l with
  | [] => []
  | j :: l' =>
      if decide (url j ∈ seen) then first_occurrences seen l'
      else j :: first_occurrences ({[url j]} ∪ seen) l'
  end.

(** No constraint between two states *)
Definition any_state (st st' : state) : Prop := True.

(** The state after a request went out *)
Definition requested (url : string) (st : state) : state :=
  mk_state (trace st ++ [Request url]) (ticks st).

(** Exactly the events [evs] were emitted between [st] and [st']. *)
Definition emitted (evs : list event) (st st' : state) : Prop :=
  trace st' = trace st ++ evs.

(** Whether the structured path of the ReliefWeb adapter raises outside
    its per-item handler: in the request, the status check, the decoding
    or the reading of the [data] array. *)
Definition api_path_raises (w : Simple.World) (search_term : string) (max_jobs : nat)
    : bool :=
  match Simple.session_get w (Simple.reliefweb_api_url search_term max_jobs) with
  | inl _ => true
  | inr response =>
      ((400 <=? Simple.status_code response)%nat &&
       (Simple.status_code response <? 600)%nat) ||
      match Simple.json response with
      | inl _ => true
      | inr Simple.BodyOther => true
      | inr (Simple.BodyObject (Some Simple.DataOther)) => true
      | inr (Simple.BodyObject _) => false
      end
  end.

(** The unrounded score of a posting: [matches / len(keywords)] *)
Definition raw_score (keywords : list string) (text_of : job -> string) (j : job) : Q :=
  ratio (count_matches keywords (Py.lower (text_of j))) (length keywords).

(** What one turn of the scoring loop leaves in a posting *)
Definition scored (keywords : list string) (threshold : Q) (text_of : job -> string)
    (j : job) : job :=
  set_relevance (round2 (raw_score keywords text_of j))
    (Qle_bool threshold (raw_score keywords text_of j)) j.

(** The posting carries a score in [0,1] that is rounded to two decimals. *)
Definition score_ok (j : job) : Prop :=
  exists s, relevance_score j = Some s /\ (0 <= s)%Q /\ (s <= 1)%Q /\ round2 s = s.

(** [r] is [acc] followed by postings that all satisfy [Q]. *)
Definition extends_with (Q : job -> Prop) (acc r : list job) : Prop :=
  exists new, r = acc ++ new /\ Forall Q new.

(** A posting as an adapter leaves it, before scoring *)
Definition posting (title organization url source : string) : job :=
  mk_job title organization "Global" (Some url) "Recent" source
    "2025-01-05T09:30:00" None (Some "health") (Some false) None None.

(** The distinct keywords of a vocabulary that occur in a text *)
Definition distinct_matches (keywords : list string) (text : string) : nat :=
  length (List.filter (fun keyword => Py.str_in keyword text) (remove_dups keywords)).

(** A posting whose text holds the keyword "health" and no other *)
Definition health_advisor : job :=
  posting "Health Advisor" "WHO" "https://reliefweb.int/job/1" "reliefweb".

(** The value a computation returns, [d] if it raises *)
Definition result_of {A} (d : A) (r : (exn + A) * state) : A :=
  match fst r with inr a => a | inl _ => d end.

(** An item of the ReliefWeb payload with all its members *)
Definition rw_item_titled (id title : string) : Simple.rw_item :=
  Simple.ItemObject (Some id)
    (Simple.Holds
       (Simple.mk_fields (Some title)
          (Simple.Holds [Simple.Named (Some (Simple.Str "WHO"))])
          (Simple.Holds [Simple.Named (Some (Simple.Str "Kenya"))])
          (Simple.Holds (Some (Simple.Str "2025-01-03T00:00:00+00:00"))))).

(** A page on which no selector matches *)
Definition no_elements : Simple.document := Simple.mk_document [] [] [].

(** A network where the ReliefWeb API answers the default query for
    "monitoring and evaluation" with [items] and nothing else answers *)
Definition api_world (items : list Simple.rw_item) : Simple.World :=
  Simple.mk_World
    (fun url =>
       if String.eqb url (Simple.reliefweb_api_url "monitoring and evaluation" 20)
       then inr (Simple.mk_response 200
                   (inr (Simple.BodyObject (Some (Simple.DataArray items))))
                   no_elements)
       else inl ConnectionError)
    clock_5_jan_2025.

(** Six relevant items with distinct ids *)
Definition six_items : list Simple.rw_item :=
  map (fun id => rw_item_titled id "Public health monitoring and evaluation officer")
    ["1"; "2"; "3"; "4"; "5"; "6"].

(** An item whose text holds no keyword *)
Definition driver_item : Simple.rw_item := rw_item_titled "7" "Driver".

(** A browser that starts and finds one UNjobs element on every page *)
Definition unjobs_world : Enhanced.World :=
  Enhanced.mk_World (inr tt)
    (fun url =>
       inr (Enhanced.mk_page false []
              [Enhanced.mk_un_element
                 (Some "Public Health Monitoring and Evaluation Data Research Officer")
                 (Some (Some "https://unjobs.org/vacancies/1"))
                 (Some "WHO") None]))
    clock_5_jan_2025.

(** The HTML path of the ReliefWeb adapter brings nothing: the request
    raises or the selector matches no article. *)
Definition html_path_empty (w : Simple.World) (search_term : string) : bool :=
  match Simple.session_get w (Simple.reliefweb_html_url search_term) with
  | inl _ => true
  | inr response =>
      match Simple.find_all_rw_job (Simple.soup response) with
      | [] => true
      | _ => false
      end
  end.

(** The Devex page brings nothing: the request raises or neither
    selector matches. *)
Definition devex_path_empty (w : Simple.World) (search_term : string) : bool :=
  match Simple.session_get w (Simple.devex_url search_term) with
  | inl _ => true
  | inr response =>
      match Simple.find_all_job_div (Simple.soup response),
            Simple.find_all_article (Simple.soup response) with
      | [], [] => true
      | _, _ => false
      end
  end.

(** The fetch of fn.py for the pair of [search_term] and [site] fails:
    every path the adapter of the site tries raises or matches nothing. *)
Definition pair_fails (w : Simple.World) (search_term site : string) : bool :=
  if String.eqb site "reliefweb" then
    api_path_raises w search_term Simple.reliefweb_max_jobs &&
    html_path_empty w search_term
  else if String.eqb site "devex" then devex_path_empty w search_term
  else false.

(** The same for branch.py: the page load raises, the wait for an
    article times out, or the selector matches nothing. *)
Definition enhanced_pair_fails (w : Enhanced.World) (search_term site : string) : bool :=
  if String.eqb site "reliefweb" then
    match Enhanced.driver_get w (Enhanced.reliefweb_url search_term) with
    | inl _ => true
    | inr p =>
        negb (Enhanced.article_present p) ||
        match Enhanced.find_rw_jobs p with [] => true | _ => false end
    end
  else if String.eqb site "unjobs" then
    match Enhanced.driver_get w (Enhanced.unjobs_url search_term) with
    | inl _ => true
    | inr p => match Enhanced.find_un_jobs p with [] => true | _ => false end
    end
  else false.

(** A network where every request times out *)
Definition dead_network : Simple.World :=
  Simple.mk_World (fun _ => inl Timeout) clock_5_jan_2025.

(** A browser that starts and then fails to load any page *)
Definition dead_browser : Enhanced.World :=
  Enhanced.mk_World (inr tt) (fun _ => inl WebDriverException) clock_5_jan_2025.

(** A network where Devex answers with a page holding one job card and
    with a payload that decodes *)
Definition devex_world : Simple.World :=
  Simple.mk_World
    (fun url =>
       inr (Simple.mk_response 200 (inr (Simple.BodyObject (Some (Simple.DataArray []))))
              (Simple.mk_document []
                 [Simple.mk_dx_element (Some "Health Data Analyst at World Bank") None
                    (Some (Some "/jobs/1"))]
                 [])))
    clock_5_jan_2025.

(** A network where the ReliefWeb API answers 200 with a payload that
    decodes to an array, and the result page holds one job article *)
Definition array_payload_world : Simple.World :=
  Simple.mk_World
    (fun url =>
       inr (Simple.mk_response 200 (inr Simple.BodyOther)
              (Simple.mk_document
                 [Simple.mk_rw_article
                    (Some (Some (Simple.mk_anchor "Health Officer" (Some "/job/9"))))
                    None None None]
                 [] [])))
    clock_5_jan_2025.

(** A server in trouble: every request is answered with status 500.
    The body decodes to a payload with one item, and the page sent along
    holds one ReliefWeb job article and one Devex job card. *)
Definition error_status_world : Simple.World :=
  Simple.mk_World
    (fun url =>
       inr (Simple.mk_response 500
              (inr (Simple.BodyObject
                      (Some (Simple.DataArray
                               [rw_item_titled "9" "Public health data officer"]))))
              (Simple.mk_document
                 [Simple.mk_rw_article
                    (Some (Some (Simple.mk_anchor
                                   "Public Health Monitoring and Evaluation Data Research Officer"
                                   (Some "/job/1"))))
                    (Some "WHO") None None]
                 [Simple.mk_dx_element
                    (Some "Public Health Monitoring and Evaluation Data Research Officer")
                    None (Some (Some "/jobs/1"))]
                 [])))
    clock_5_jan_2025.

(** A posting without the two keys the scorer sets *)
Definition unscored (j : job) : job :=
  mk_job (title j) (organization j) (location j) (url j) (date_posted j) (source j)
    (scraped_at j) (description j) (search_term j) (is_recent j) None None.

(** [body] left [acc] as it was when [expected] is [None], and appended
    one posting with the projection [v] that satisfies [Q] when it is
    [Some v]. *)
Definition appended {B} (proj : job -> B) (Q : job -> Prop) (expected : option B)
    (acc r : list job) : Prop :=
  match expected with
  | None => r = acc
  | Some v => exists j, r = acc ++ [j] /\ proj j = v /\ Q j
  end.

(** [r] is [acc] followed by postings that satisfy [Q] and whose
    projections are [vs]. *)
Definition collected {B} (proj : job -> B) (Q : job -> Prop) (vs : list B)
    (acc r : list job) : Prop :=
  exists new, r = acc ++ new /\ map proj new = vs /\ Forall Q new.

(** A posting as the adapter of [site] hands it over for the term
    [term]: tagged with the site, the term and a recency flag, without a
    description and not scored yet *)
Definition fresh_posting (site term : string) (j : job) : Prop :=
  source j = site /\ search_term j = Some term /\
  (exists recent, is_recent j = Some recent) /\
  description j = None /\ relevance_score j = None /\ is_public_health j = None.

(** The url is a text that starts with [prefix]. *)
Definition url_starts_with (prefix : string) (j : job) : Prop :=
  exists u, url j = Some u /\ Py.startswith prefix u = true.

(** What the Devex adapter leaves in every posting *)
Definition devex_posting (j : job) : Prop :=
  is_recent j = Some true /\ date_posted j = "Recent" /\ location j = "Global" /\
  exists u, url j = Some u /\ (u = "" \/ Py.startswith "http" u = true).

(** The types the adapter of fn.py can work with: [source] is a list
    that is empty or starts with an object (or it is falsy), [country] a
    list of objects whose names are strings, [date] an object whose
    [created] is a string or falsy; each of them may be absent. *)
Definition source_typed (source : Simple.member (list Simple.rw_named)) : bool :=
  match source with
  | Simple.Mistyped | Simple.Holds (Simple.NotNamed :: _) => false
  | Simple.Absent | Simple.Holds _ => true
  end.

Definition entry_typed (entry : Simple.rw_named) : bool :=
  match entry with
  | Simple.NotNamed | Simple.Named (Some (Simple.NotStr _ _)) => false
  | Simple.Named _ => true
  end.

Definition country_typed (country : Simple.member (list Simple.rw_named)) : bool :=
  match country with
  | Simple.Mistyped => false
  | Simple.Absent => true
  | Simple.Holds entries => forallb entry_typed entries
  end.

Definition date_typed (date : Simple.member (option Simple.rw_text)) : bool :=
  match date with
  | Simple.Mistyped | Simple.Holds (Some (Simple.NotStr _ true)) => false
  | Simple.Absent | Simple.Holds _ => true
  end.

Definition fields_typed (fields : Simple.member Simple.rw_fields) : bool :=
  match fields with
  | Simple.Mistyped => false
  | Simple.Absent => true
  | Simple.Holds fields =>
      source_typed (Simple.f_source fields) &&
      country_typed (Simple.f_country fields) &&
      date_typed (Simple.f_date fields)
  end.

(** The [id] of an item of the payload that becomes a posting: an
    object that has an [id] and whose [fields] have these types *)
Definition item_id (item : Simple.rw_item) : option string :=
  match item with
  | Simple.ItemObject (Some id) fields => if fields_typed fields then Some id else None
  | Simple.ItemObject None _ | Simple.ItemOther => None
  end.

(** The array the structured path of the ReliefWeb adapter loops over *)
Definition api_items (w : Simple.World) (term : string) (max_jobs : nat)
    : list Simple.rw_item :=
  match Simple.session_get w (Simple.reliefweb_api_url term max_jobs) with
  | inr response =>
      match Simple.json response with
      | inr (Simple.BodyObject (Some (Simple.DataArray items))) => items
      | _ => []
      end
  | inl _ => []
  end.

(** The job articles of the ReliefWeb result page, none if the request raises *)
Definition html_articles (w : Simple.World) (term : string) : list Simple.rw_article :=
  match Simple.session_get w (Simple.reliefweb_html_url term) with
  | inr response => Simple.find_all_rw_job (Simple.soup response)
  | inl _ => []
  end.

(** The title and the url the HTML fallback reads off an article that has
    a link in its heading *)
Definition article_title_url (a : Simple.rw_article) : option (string * option string) :=
  match Simple.rw_h3 a with
  | Some (Some anchor) =>
      Some (Simple.a_text anchor,
            Some ("https://reliefweb.int" +:+ default "" (Simple.a_href anchor)))
  | _ => None
  end.

(** The elements the Devex adapter loops over: the job cards, or the
    articles when there is no card; none if the request raises *)
Definition devex_elements (w : Simple.World) (term : string) (max_jobs : nat)
    : list Simple.dx_element :=
  match Simple.session_get w (Simple.devex_url term) with
  | inr response =>
      match take max_jobs (Simple.find_all_job_div (Simple.soup response)) with
      | [] => take max_jobs (Simple.find_all_article (Simple.soup response))
      | cards => cards
      end
  | inl _ => []
  end.

(** The heading the Devex adapter takes the title from *)
Definition devex_title (e : Simple.dx_element) : option string :=
  match Simple.dx_h3 e with
  | Some h3 => Some h3
  | None => Simple.dx_h2 e
  end.

(** The elements the browser adapters loop over, none if the page load
    raises or, for ReliefWeb, no article shows up in time *)
Definition browser_rw_elements (w : Enhanced.World) (term : string)
    : list Enhanced.rw_element :=
  match Enhanced.driver_get w (Enhanced.reliefweb_url term) with
  | inr p => if Enhanced.article_present p then Enhanced.find_rw_jobs p else []
  | inl _ => []
  end.

Definition browser_un_elements (w : Enhanced.World) (term : string)
    : list Enhanced.un_element :=
  match Enhanced.driver_get w (Enhanced.unjobs_url term) with
  | inr p => Enhanced.find_un_jobs p
  | inl _ => []
  end.

(** The title and the url the browser adapters read off an element *)
Definition rw_element_title_url (e : Enhanced.rw_element)
    : option (string * option string) :=
  match Enhanced.rw_title e with
  | Some (text, href) => Some (Py.strip text, href)
  | None => None
  end.

Definition un_element_title_url (e : Enhanced.un_element)
    : option (string * option string) :=
  match Enhanced.un_heading e, Enhanced.un_link e with
  | Some text, Some href => Some (Py.strip text, href)
  | _, _ => None
  end.

Definition title_url (j : job) : string * option string := (title j, url j).

(** What the extraction of branch.py returns for an element: nothing
    when [expected] is [None], else a posting with the title and the url
    [v], tagged with [site] alone *)
Definition extracted_as (site : string) (expected : option (string * option string))
    (r : option job) : Prop :=
  match expected with
  | None => r = None
  | Some v =>
      exists j, r = Some j /\ title_url j = v /\ source j = site /\
        description j = None /\ relevance_score j = None /\ is_public_health j = None
  end.

(** The most postings a site can add for one term in fn.py: the default
    of [max_jobs] of its adapter, nothing for a site without adapter *)
Definition simple_site_cap (site : string) : nat :=
  if String.eqb site "reliefweb" then Simple.reliefweb_max_jobs
  else if String.eqb site "devex" then Simple.devex_max_jobs
  else 0.

(** The same for branch.py *)
Definition enhanced_site_cap (site : string) : nat :=
  if String.eqb site "reliefweb" then Enhanced.reliefweb_max_jobs
  else if String.eqb site "unjobs" then Enhanced.unjobs_max_jobs
  else 0.

(** [r] is [acc] followed by at most [n] postings that satisfy [Q]. *)
Definition adds_up_to (Q : job -> Prop) (n : nat) (acc r : list job) : Prop :=
  exists new, r = acc ++ new /\ Forall Q new /\ length new <= n.

(** A posting as a run over [terms] and [sites] returns it: found under
    one of the terms on one of the sites, flagged recent or not, flagged
    relevant and scored at least [min_score] *)
Definition returned_posting (min_score : Q) (terms sites : list string) (j : job) : Prop :=
  (exists term, In term terms /\ search_term j = Some term) /\
  In (source j) sites /\
  (exists recent, is_recent j = Some recent) /\
  is_public_health j = Some true /\
  exists s, relevance_score j = Some s /\ (min_score <= s)%Q.

(** The seconds a trace spends in [time.sleep] *)
Fixpoint seconds_slept (evs : list event) : nat :=
  match evs with
  | [] => 0
  | Sleep secs :: evs' => secs + seconds_slept evs'
  | Request _ :: evs' => seconds_slept evs'
  end.

(** The requests of a trace *)
Fixpoint requests_made (evs : list event) : nat :=
  match evs with
  | [] => 0
  | Request _ :: evs' => S (requests_made evs')
  | Sleep _ :: evs' => requests_made evs'
  end.

(** The requests one call of the adapter of a site makes in fn.py, at
    least and at most *)
Definition simple_site_requests_min (site : string) : nat :=
  if String.eqb site "reliefweb" then 1 else if String.eqb site "devex" then 1 else 0.

Definition simple_site_requests_max (site : string) : nat :=
  if String.eqb site "reliefweb" then 2 else if String.eqb site "devex" then 1 else 0.

(** Between [st] and [st'] the run slept [secs] seconds and made between
    [lo] and [hi] requests. *)
Definition spent (secs lo hi : nat) (st st' : state) : Prop :=
  seconds_slept (trace st') = seconds_slept (trace st) + secs /\
  requests_made (trace st) + lo <= requests_made (trace st') /\
  requests_made (trace st') <= requests_made (trace st) + hi.

(** A posting that holds six entries of the keyword list of fn.py *)
Definition data_officer : job :=
  posting "Public Health Monitoring and Evaluation Data Research Officer" "WHO"
    "https://reliefweb.int/job/2" "reliefweb".

(** A posting with a description, the key the scorer of branch.py reads *)
Definition described (title organization : string) (description : option string) : job :=
  mk_job title organization "Global" (Some "https://reliefweb.int/job/3") "Recent"
    "reliefweb" "2025-01-05T09:30:00" description (Some "health") (Some false) None None.

(** ** The sidebar and the display (fn.py 277-322 and 377-451, JOB.py
    36-89 and 91-172, branch.py 354-431)

    The widgets are the inputs of the model; the table, the download
    buttons and the cards are rendered by the UI framework from the
    values computed here. *)

Module UI.

(** What the user left in the sidebar *)
Record sidebar := mk_sidebar {
  term_checked : nat -> bool;   (* the checkbox of the i-th default term *)
  custom_term : string;         (* "Add custom search term:" *)
  first_site_checked : bool;    (* "ReliefWeb" *)
  second_site_checked : bool;   (* "Devex" in fn.py, "UNjobs" in JOB.py *)
  max_jobs_per_search : nat;    (* the slider *)
  show_only_recent : bool;
  run_scraper : bool }.         (* the button *)

Definition default_terms : list string :=
  ["monitoring and evaluation"; "M&E officer"; "strategic information";
   "public health data"; "health information systems"].

(** The loop over [enumerate(default_terms)], from index [i] on *)
Fixpoint checked_terms (checked : nat -> bool) (i : nat) (terms : list string)
    : list string :=
  match terms with
  | [] => []
  | term :: rest =>
      if checked i then term :: checked_terms checked (S i) rest
      else checked_terms checked (S i) rest
  end.

Definition search_terms (ui : sidebar) : list string :=
  let search_terms := checked_terms (term_checked ui) 0 default_terms in
  if negb (String.eqb (custom_term ui) "") &&
     negb (bool_decide (custom_term ui ∈ search_terms))
  then search_terms ++ [custom_term ui]
  else search_terms.

(** [second] is the name of the second site of the variant. *)
Definition sites (second : string) (ui : sidebar) : list string :=
  (if first_site_checked ui then ["reliefweb"] else []) ++
  (if second_site_checked ui then [second] else []).

(** The figures above the table, and the postings shown *)
Record summary := mk_summary {
  rows : list job;           (* the rows of the table and of the downloads *)
  total_jobs : nat;          (* "Total Jobs" *)
  recent_jobs : nat;         (* "Recent Jobs" *)
  high_matches : nat;        (* "High Matches" *)
  sources : gset string;     (* "Sources", a set: its order is not fixed *)
  cards : list job }.        (* "Recent Jobs (Last 24 Hours)", JOB.py only *)

Inductive display :=
  | Warning (message : string)
  | Results (s : summary).

(** [job.get('is_recent', False)] *)
Definition recent (j : job) : bool := default false (is_recent j).

(** [job.get('relevance_score', 0) > 0.7] *)
Definition high_match (j : job) : bool :=
  negb (Qle_bool (default 0%Q (relevance_score j)) 0.7).

(** The three copies of [display_results] differ in the second warning
    and in the cards. *)
Inductive variant := FnPy | BranchPy | JobPy.

Definition recent_warning (v : variant) : string :=
  match v with
  | FnPy => "No recent jobs found."
  | BranchPy | JobPy => "No recent jobs found in the last 24 hours."
  end.

(** Only JOB.py goes on to the cards of the recent postings. *)
Definition with_cards (v : variant) : bool :=
  match v with JobPy => true | FnPy | BranchPy => false end.

(** [pd.DataFrame(jobs)] has a column for every key that some row
    carries; the other keys of the table are set by every adapter. *)
Definition has_score_column (jobs : list job) : bool :=
  existsb (fun j => match relevance_score j with Some _ => true | None => false end) jobs.

(** The figures are computed and shown first; the selection of the
    columns of the table then raises [KeyError] when no row carries a
    score, and the table, the downloads and the cards are not reached. *)
Definition display_results (v : variant) (jobs : list job) (only_recent : bool)
    : exn + display :=
  match jobs with
  | [] =>
      inr (Warning "No jobs found matching your criteria. Try adjusting your search terms.")
  | _ =>
      let jobs := working_view only_recent jobs in
      match only_recent, jobs with
      | true, [] => inr (Warning (recent_warning v))
      | _, _ =>
          let recent_count := length (List.filter recent jobs) in
          let high_match_count := length (List.filter high_match jobs) in
          if has_score_column jobs then
            let recent_jobs := List.filter recent jobs in
            inr (Results
                   (mk_summary jobs (length jobs) recent_count high_match_count
                      (list_to_set (map source jobs))
                      (if with_cards v && negb only_recent then recent_jobs else [])))
          else inl KeyError
      end
  end.

Inductive page :=
  | Idle                        (* the button was not pressed *)
  | ConfigurationError          (* [st.error] and return, fn.py *)
  | Displayed (d : display).

(** [main] of fn.py *)
Definition fn_main (w : Simple.World) (ui : sidebar) : M page :=
  let search_terms := search_terms ui in
  let sites := sites "devex" ui in
  if run_scraper ui then
    unique_jobs <- Simple.main w search_terms sites (max_jobs_per_search ui) ;;
    match unique_jobs with
    | None => ret ConfigurationError
    | Some unique_jobs =>
        d <- lift (display_results FnPy unique_jobs (show_only_recent ui)) ;;
        ret (Displayed d)
    end
  else ret Idle.

(** [main] of JOB.py: a configuration error returns the empty list,
    which [display_results] answers with its warning. *)
Definition job_main (w : Enhanced.World) (ui : sidebar) : M page :=
  let search_terms := search_terms ui in
  let sites := sites "unjobs" ui in
  if run_scraper ui then
    jobs <- Enhanced.run_scraper_with_progress w search_terms sites
              (max_jobs_per_search ui) ;;
    d <- lift (display_results JobPy jobs (show_only_recent ui)) ;;
    ret (Displayed d)
  else ret Idle.

End UI.

(** The recency flag goes by the site in fn.py: only ReliefWeb asks the
    classifier, Devex postings are always flagged recent. *)
Definition simple_by_site (j : job) : Prop :=
  source j = "reliefweb" \/ (source j = "devex" /\ is_recent j = Some true).

(** In branch.py UNjobs postings are never flagged recent. *)
Definition enhanced_by_site (j : job) : Prop :=
  source j = "reliefweb" \/ (source j = "unjobs" /\ is_recent j = Some false).

(** * Properties *)

(** ** Strings *)

Section StringFacts.

Implicit Types (s p needle hay : string) (c : ascii).

Lemma chars_append s1 s2 :
  list_ascii_of_string (s1 +:+ s2) = list_ascii_of_string s1 ++ list_ascii_of_string s2.
Proof. induction s1 as [|a s1 IH]; simpl; [reflexivity | now rewrite IH]. Qed.

Lemma lower_char_not_upper c : Py.is_upper (Py.lower_char c) = false.
Proof. destruct c as [[] [] [] [] [] [] [] []]; reflexivity. Qed.

Lemma lower_no_upper s c :
  In c (list_ascii_of_string (Py.lower s)) -> Py.is_upper c = false.
Proof.
  induction s as [|a s IH]; simpl; [tauto |].
  intros [<- | Hin]; [apply lower_char_not_upper | auto].
Qed.

Lemma startswith_chars p s c :
  Py.startswith p s = true ->
  In c (list_ascii_of_string p) -> In c (list_ascii_of_string s).
Proof.
  revert s; induction p as [|a p IH]; intros [|b s]; simpl; try easy.
  intros [Hab Hps]%andb_prop [<- | Hin].
  - left. symmetry. now apply Ascii.eqb_eq.
  - right. now apply IH.
Qed.

Lemma str_in_chars needle hay c :
  Py.str_in needle hay = true ->
  In c (list_ascii_of_string needle) -> In c (list_ascii_of_string hay).
Proof.
  induction hay as [|b hay IH]; simpl.
  - rewrite orb_false_r. apply startswith_chars.
  - intros [Hs | Hin]%orb_prop Hc.
    + now apply (startswith_chars needle (String b hay)).
    + right. now apply IH.
Qed.

(** A needle with a capital letter is never found in lowercased text. *)
Lemma capital_not_in_lower needle text c :
  In c (list_ascii_of_string needle) -> Py.is_upper c = true ->
  Py.str_in needle (Py.lower text) = false.
Proof.
  intros Hc Hup. destruct (Py.str_in needle (Py.lower text)) eqn:E; [|reflexivity].
  pose proof (lower_no_upper _ _ (str_in_chars _ _ _ E Hc)). congruence.
Qed.

End StringFacts.

(** ** The recency classifier *)

Lemma strftime_has_capital (d : datetime) :
  exists c, In c (list_ascii_of_string (Clock.strftime_d_b_Y d)) /\ Py.is_upper c = true.
Proof.
  unfold Clock.strftime_d_b_Y.
  assert (exists c, In c (list_ascii_of_string (Clock.abbr (mon d))) /\ Py.is_upper c = true)
    as (c & Hin & Hup).
  { destruct (mon d); simpl; eexists; (split; [left; reflexivity | reflexivity]). }
  exists c. split; [|exact Hup].
  rewrite !chars_append, !in_app_iff. tauto.
Qed.

(** The two date indicators keep the capital of the month name, the text
    they are looked up in is lowercased: they never match. *)
Lemma date_indicator_never_matches (d : datetime) (text : string) :
  Py.str_in (Clock.strftime_d_b_Y d) (Py.lower text) = false.
Proof.
  destruct (strftime_has_capital d) as (c & Hin & Hup).
  exact (capital_not_in_lower _ _ _ Hin Hup).
Qed.

(** On a non-empty text the classifier reads the clock twice and answers
    by the six phrases alone. *)
Lemma is_recent_job_phrases clock (text : string) (st : state) :
  text <> EmptyString ->
  is_recent_job clock (Some text) st =
  (inr (existsb (fun phrase => Py.str_in phrase (Py.lower text)) recent_phrases),
   tick2 st).
Proof.
  intros Hne. unfold is_recent_job.
  destruct (String.eqb_spec text EmptyString) as [->|_]; [congruence|].
  unfold bind, now, ret; simpl.
  rewrite !date_indicator_never_matches, !orb_false_r. reflexivity.
Qed.

(** C8. The classifier answers true on "2 hours ago" and false on the
    empty text, on an absent text and on "three weeks ago", whatever the
    clock reads. *)
Theorem recency_examples (clock : nat -> datetime) (st : state) :
  fst (is_recent_job clock (Some "2 hours ago") st) = inr true /\
  fst (is_recent_job clock (Some "") st) = inr false /\
  fst (is_recent_job clock None st) = inr false /\
  fst (is_recent_job clock (Some "three weeks ago") st) = inr false.
Proof.
  split; [|split; [|split]].
  - rewrite is_recent_job_phrases by discriminate. reflexivity.
  - reflexivity.
  - reflexivity.
  - rewrite is_recent_job_phrases by discriminate. reflexivity.
Qed.

(** C4. On 5 January 2025 the date of the day is formatted "05 Jan 2025"
    and the date of the day before "04 Jan 2025"; the classifier answers
    false on both texts. *)
Theorem date_text_of_today_not_recent :
  Clock.strftime_d_b_Y (clock_5_jan_2025 0) = "05 Jan 2025" /\
  Clock.strftime_d_b_Y (Clock.minus_one_day (clock_5_jan_2025 1)) = "04 Jan 2025" /\
  fst (is_recent_job clock_5_jan_2025 (Some "05 Jan 2025") initial) = inr false /\
  fst (is_recent_job clock_5_jan_2025 (Some "04 Jan 2025") initial) = inr false.
Proof. repeat split; vm_compute; reflexivity. Qed.

(** ** Removing duplicates *)

Section Dedup.

Implicit Types (l unique_jobs : list job) (seen : gset (option string))
  (u : option string).

Lemma dedup_fold l unique_jobs seen :
  fst (fold_left dedup_step l (unique_jobs, seen)) =
  unique_jobs ++ first_occurrences seen l.
Proof.
  revert unique_jobs seen. induction l as [|j l IH]; intros unique_jobs seen; simpl.
  - now rewrite app_nil_r.
  - destruct (decide (url j ∈ seen)); rewrite IH; [reflexivity|].
    now rewrite <- app_assoc.
Qed.

Lemma remove_duplicates_first_occurrences l :
  remove_duplicates l = first_occurrences ∅ l.
Proof. unfold remove_duplicates. now rewrite dedup_fold. Qed.

Lemma first_occurrences_sublist seen l : sublist (first_occurrences seen l) l.
Proof.
  revert seen. induction l as [|j l IH]; intros seen; simpl; [constructor|].
  destruct (decide (url j ∈ seen)); [apply sublist_cons | apply sublist_skip]; apply IH.
Qed.

Lemma first_occurrences_fresh seen l j :
  j ∈ first_occurrences seen l -> url j ∉ seen.
Proof.
  revert seen. induction l as [|k l IH]; intros seen; simpl; [set_solver|].
  destruct (decide (url k ∈ seen)); [apply IH|].
  intros [-> | Hin]%elem_of_cons; [assumption|].
  apply IH in Hin. set_solver.
Qed.

Lemma first_occurrences_NoDup seen l : NoDup (url <$> first_occurrences seen l).
Proof.
  revert seen. induction l as [|j l IH]; intros seen; simpl; [constructor|].
  destruct (decide (url j ∈ seen)); [apply IH|].
  rewrite fmap_cons. constructor; [|apply IH].
  intros (k & Hk & Hin)%list_elem_of_fmap.
  apply first_occurrences_fresh in Hin. set_solver.
Qed.


End Dedup.


(** Two postings with the url of [health_advisor], found under different
    search terms, around a posting with another url: the first one stays. *)
Example duplicate_from_other_term_discarded :
  let first := set_search_term "m&e officer" health_advisor in
  let other := posting "Data Manager" "UNICEF" "https://reliefweb.int/job/2" "reliefweb" in
  let second := set_search_term "public health data" health_advisor in
  remove_duplicates [first; other; second] = [first; other].
Proof. vm_compute. reflexivity. Qed.

(** ** Loops in the monad *)

Lemma grows_by_nil Q n acc : grows_by Q n acc acc.
Proof. exists []. rewrite app_nil_r. repeat split; [constructor | simpl; lia]. Qed.

Lemma grows_by_one (Q : job -> Prop) n acc j :
  Q j -> grows_by Q (S n) acc (acc ++ [j]).
Proof. intros H. exists [j]. repeat split; [repeat constructor; exact H | simpl; lia]. Qed.

Lemma grows_by_trans Q n m acc r r' :
  grows_by Q n acc r -> grows_by Q m r r' -> grows_by Q (n + m) acc r'.
Proof.
  intros (new & -> & HQ & Hn) (new' & -> & HQ' & Hm).
  exists (new ++ new'). rewrite app_assoc, Forall_app, length_app.
  repeat split; auto. lia.
Qed.

Lemma grows_by_weaken Q n m acc r : n <= m -> grows_by Q n acc r -> grows_by Q m acc r.
Proof. intros Hle (new & -> & HQ & Hn). exists new. repeat split; auto. lia. Qed.

Section Loops.

Context {A : Type} (Q : job -> Prop) (R : relation state) (k : nat).
Context `{!Reflexive R, !Transitive R}.
Context (body : A -> list job -> M (list job)).

Hypothesis body_appends :
  forall x acc st,
    yields (body x acc) st (fun r st' => grows_by Q k acc r /\ R st st').

Lemma for_each_appends (l : list A) (acc : list job) (st : state) :
  yields (for_each l body acc) st
    (fun r st' => grows_by Q (length l * k) acc r /\ R st st').
Proof.
  revert acc st. induction l as [|x l IH]; intros acc st; simpl.
  - exists acc, st. split; [reflexivity|]. split; [apply grows_by_nil | reflexivity].
  - destruct (body_appends x acc st) as (r & st1 & Hr & Hg & HR).
    destruct (IH r st1) as (r' & st2 & Hr' & Hg' & HR').
    exists r', st2. split; [unfold bind; now rewrite Hr|].
    split; [eapply grows_by_trans; eassumption | etransitivity; eassumption].
Qed.

End Loops.

#[local] Instance quiet_refl : Reflexive quiet.
Proof. intros st. reflexivity. Qed.

#[local] Instance quiet_trans : Transitive quiet.
Proof. intros a b c H1 H2. unfold quiet in *. congruence. Qed.

#[local] Instance any_state_refl : Reflexive any_state.
Proof. intros st. exact I. Qed.

#[local] Instance any_state_trans : Transitive any_state.
Proof. intros a b c _ _. exact I. Qed.

Lemma is_recent_job_quiet clock date_text st :
  yields (is_recent_job clock date_text) st (fun _ st' => quiet st st').
Proof.
  destruct date_text as [text|]; [|eexists _, _; split; reflexivity].
  unfold is_recent_job. destruct (String.eqb text EmptyString);
    eexists _, _; split; reflexivity.
Qed.

(** ** The adapters of fn.py *)

Lemma is_recent_text_quiet clock date_text st :
  exists st', quiet st st' /\
    ((exists e, Simple.is_recent_text clock date_text st = (inl e, st')) \/
     (exists b, Simple.is_recent_text clock date_text st = (inr b, st'))).
Proof.
  destruct date_text as [s|printed []]; cbn [Simple.is_recent_text].
  - destruct (is_recent_job_quiet clock (Some s) st) as (b & st' & H & Hq). eauto 6.
  - exists st. split; [reflexivity|]. left. eexists. reflexivity.
  - destruct (is_recent_job_quiet clock None st) as (b & st' & H & Hq). eauto 6.
Qed.

Lemma scrape_reliefweb_item_spec w search_term item jobs st :
  yields (Simple.scrape_reliefweb_item w search_term item jobs) st
    (fun r st' => grows_by (from_source "reliefweb") 1 jobs r /\ quiet st st').
Proof.
  assert (forall st1, quiet st st1 ->
            exists r st', (inr jobs : exn + list job, st1) = (inr r, st') /\
              grows_by (from_source "reliefweb") 1 jobs r /\ quiet st st') as Hskip.
  { intros st1 Hq. exists jobs, st1. split; [reflexivity|].
    split; [apply grows_by_nil | exact Hq]. }
  unfold yields, Simple.scrape_reliefweb_item, try_except.
  destruct item as [id fields|]; [|apply Hskip; reflexivity].
  cbv [bind lift ret raise now].
  destruct fields as [|fields|]; [| |apply Hskip; reflexivity].
  all: destruct (Simple.first_source _); [apply Hskip; reflexivity|].
  all: destruct (Simple.f_country _); [| |apply Hskip; reflexivity].
  all: destruct (Simple.country_names _); [apply Hskip; reflexivity|].
  all: destruct (Simple.joined _); [apply Hskip; reflexivity|].
  all: destruct id as [id|]; [|apply Hskip; reflexivity].
  all: destruct (Simple.f_date _) as [|[created|]|]; [| | |apply Hskip; reflexivity].
  all: match goal with |- context [Simple.is_recent_text ?c ?d ?s] =>
         destruct (is_recent_text_quiet c d s) as (st' & Hq & [[e ->] | [b ->]]) end;
       [apply Hskip; exact Hq|].
  all: eexists _, _; (split; [reflexivity|]); split; [now apply grows_by_one | exact Hq].
Qed.

Lemma scrape_reliefweb_html_item_spec w search_term job_element jobs st :
  yields (Simple.scrape_reliefweb_html_item w search_term job_element jobs) st
    (fun r st' => grows_by (from_source "reliefweb") 1 jobs r /\ quiet st st').
Proof.
  unfold yields, Simple.scrape_reliefweb_html_item, try_except.
  destruct (Simple.rw_h3 job_element) as [[title_elem|]|]; unfold ret;
    try (exists jobs, st; split; [reflexivity|]; split; [apply grows_by_nil | reflexivity]).
  unfold bind, now.
  match goal with |- context [is_recent_job ?c ?d ?s] =>
    destruct (is_recent_job_quiet c d s) as (b & st' & -> & Hq) end.
  eexists _, _. split; [reflexivity|]. split; [now apply grows_by_one | exact Hq].
Qed.

Lemma scrape_devex_item_spec w search_term job_element jobs st :
  yields (Simple.scrape_devex_item w search_term job_element jobs) st
    (fun r st' => grows_by (from_source "devex") 1 jobs r /\ quiet st st').
Proof.
  unfold yields, Simple.scrape_devex_item, try_except.
  destruct (Simple.dx_h3 job_element) as [h3|]; [|destruct (Simple.dx_h2 job_element) as [h2|]];
    unfold ret, bind, now;
    try (exists jobs, st; split; [reflexivity|]; split; [apply grows_by_nil | reflexivity]).
  all: eexists _, _; (split; [reflexivity|]); split; [now apply grows_by_one | reflexivity].
Qed.

Lemma item_loop_spec {A} (Q : job -> Prop) (body : A -> list job -> M (list job))
    (l : list A) (n : nat) (st : state) :
  (forall x acc st0,
     yields (body x acc) st0 (fun r st' => grows_by Q 1 acc r /\ quiet st0 st')) ->
  yields (for_each (take n l) body []) st
    (fun r st' => Forall Q r /\ length r <= n /\ quiet st st').
Proof.
  intros Hbody.
  destruct (for_each_appends Q quiet 1 body Hbody (take n l) [] st)
    as (r & st' & Hr & (new & -> & HQ & Hlen) & Hq).
  exists ([] ++ new), st'. split; [exact Hr|]. simpl. repeat split; auto.
  rewrite length_take in Hlen. lia.
Qed.

Lemma scrape_reliefweb_html_spec w search_term max_jobs st :
  yields (Simple.scrape_reliefweb_html w search_term max_jobs) st
    (fun r st' =>
       Forall (from_source "reliefweb") r /\ length r <= max_jobs /\
       emitted [Request (Simple.reliefweb_html_url search_term)] st st').
Proof.
  cbv [yields Simple.scrape_reliefweb_html try_except bind Simple.get emit lift].
  destruct (Simple.session_get w _) as [e|response].
  - eexists _, _. split; [reflexivity|]. repeat split; [constructor | simpl; lia].
  - match goal with |- context [for_each (take ?n ?l) ?b [] ?s] =>
      destruct (item_loop_spec (from_source "reliefweb") b l n s
                  (scrape_reliefweb_html_item_spec w search_term))
        as (r & st' & -> & HQ & Hlen & Hq)
    end.
    exists r, st'. split; [reflexivity|]. repeat split; auto.
Qed.

Lemma scrape_reliefweb_paths w search_term max_jobs st :
  if api_path_raises w search_term max_jobs then
    Simple.scrape_reliefweb w search_term max_jobs st =
    Simple.scrape_reliefweb_html w search_term max_jobs
      (requested (Simple.reliefweb_api_url search_term max_jobs) st)
  else
    yields (Simple.scrape_reliefweb w search_term max_jobs) st
      (fun r st' =>
         Forall (from_source "reliefweb") r /\ length r <= max_jobs /\
         emitted [Request (Simple.reliefweb_api_url search_term max_jobs)] st st').
Proof.
  cbv [api_path_raises yields Simple.scrape_reliefweb try_except bind Simple.get emit lift
       Simple.raise_for_status Simple.data_items].
  destruct (Simple.session_get w _) as [e|response]; [reflexivity|].
  destruct ((400 <=? Simple.status_code response)%nat &&
            (Simple.status_code response <? 600)%nat); [reflexivity|].
  cbv [ret raise orb].
  destruct (Simple.json response) as [e|[[[items|]|]|]]; try reflexivity.
  - match goal with |- context [for_each (take ?n ?l) ?b [] ?s] =>
      destruct (item_loop_spec (from_source "reliefweb") b l n s
                  (scrape_reliefweb_item_spec w search_term))
        as (r & st' & -> & HQ & Hlen & Hq)
    end.
    exists r, st'. split; [reflexivity|]. repeat split; auto.
  - rewrite take_nil. eexists _, _. split; [reflexivity|].
    repeat split; [constructor | simpl; lia].
Qed.

Lemma scrape_reliefweb_spec w search_term max_jobs st :
  yields (Simple.scrape_reliefweb w search_term max_jobs) st
    (fun r st' => Forall (from_source "reliefweb") r /\ length r <= max_jobs).
Proof.
  pose proof (scrape_reliefweb_paths w search_term max_jobs st) as H.
  destruct (api_path_raises w search_term max_jobs).
  - unfold yields. rewrite H.
    destruct (scrape_reliefweb_html_spec w search_term max_jobs
                (requested (Simple.reliefweb_api_url search_term max_jobs) st))
      as (r & st' & -> & ? & ? & _).
    eauto.
  - destruct H as (r & st' & Hr & ? & ? & _). exists r, st'. eauto.
Qed.

Lemma scrape_devex_spec w search_term max_jobs st :
  yields (Simple.scrape_devex w search_term max_jobs) st
    (fun r st' =>
       Forall (from_source "devex") r /\ length r <= max_jobs /\
       emitted [Request (Simple.devex_url search_term)] st st').
Proof.
  cbv [yields Simple.scrape_devex try_except bind Simple.get emit lift].
  destruct (Simple.session_get w _) as [e|response].
  - eexists _, _. split; [reflexivity|]. repeat split; [constructor | simpl; lia].
  - destruct (take max_jobs (Simple.find_all_job_div (Simple.soup response))) eqn:E.
    + match goal with |- context [for_each (take ?n ?l) ?b [] ?s] =>
        destruct (item_loop_spec (from_source "devex") b l n s (scrape_devex_item_spec w search_term))
          as (r & st' & -> & HQ & Hlen & Hq)
      end.
      exists r, st'. split; [reflexivity|]. repeat split; auto.
    + rewrite <- E.
      match goal with |- context [for_each (take ?n ?l) ?b [] ?s] =>
        destruct (item_loop_spec (from_source "devex") b l n s (scrape_devex_item_spec w search_term))
          as (r & st' & -> & HQ & Hlen & Hq)
      end.
      exists r, st'. split; [reflexivity|]. repeat split; auto.
Qed.

(** ** Scoring *)

Section Scoring.

Context (keywords : list string) (threshold : Q) (text_of : job -> string).

Lemma score_step_scored (j : job) (seen filtered : list job) :
  score_step keywords threshold text_of (seen, filtered) j =
  (seen ++ [scored keywords threshold text_of j],
   if Qle_bool threshold (raw_score keywords text_of j)
   then filtered ++ [scored keywords threshold text_of j] else filtered).
Proof.
  unfold score_step, scored, raw_score. cbn [fst snd].
  destruct (Qle_bool _ _); reflexivity.
Qed.

Lemma score_fold (jobs seen filtered : list job) :
  fold_left (score_step keywords threshold text_of) jobs (seen, filtered) =
  (seen ++ map (scored keywords threshold text_of) jobs,
   filtered ++
   map (scored keywords threshold text_of)
     (List.filter (fun j => Qle_bool threshold (raw_score keywords text_of j)) jobs)).
Proof.
  revert seen filtered. induction jobs as [|j jobs IH]; intros seen filtered.
  - simpl. now rewrite !app_nil_r.
  - cbn [fold_left List.filter map]. rewrite score_step_scored.
    destruct (Qle_bool threshold (raw_score keywords text_of j)); rewrite IH;
      cbn [map]; now rewrite <- !app_assoc.
Qed.

End Scoring.

Lemma round2_fixed (n : Z) : round2 (n # 100) = (n # 100).
Proof.
  unfold round2. simpl Qnum. simpl Qden.
  replace (100 * n)%Z with (n * 100)%Z by lia.
  rewrite Z.div_mul by discriminate.
  rewrite Z.mod_mul by discriminate. reflexivity.
Qed.

Lemma round2_idem (x : Q) : round2 (round2 x) = round2 x.
Proof. unfold round2 at 2 3. apply round2_fixed. Qed.

Lemma round2_bounds (x : Q) :
  (0 <= x)%Q -> (x <= 1)%Q -> (0 <= round2 x)%Q /\ (round2 x <= 1)%Q.
Proof.
  destruct x as [a b]. unfold Qle, round2. simpl. intros Ha Hb.
  assert (0 <= a)%Z by lia. assert (a <= Z.pos b)%Z by lia.
  pose proof (Z.div_mod (100 * a) (Z.pos b) ltac:(lia)) as Hdm.
  pose proof (Z.mod_pos_bound (100 * a) (Z.pos b) ltac:(lia)) as Hr.
  set (q := (100 * a / Z.pos b)%Z) in *. set (r := ((100 * a) mod Z.pos b)%Z) in *.
  assert (0 <= q)%Z by (subst q; apply Z.div_pos; lia).
  assert (q <= 100)%Z by nia.
  destruct (2 * r ?= Z.pos b)%Z eqn:E.
  - apply Z.compare_eq in E. destruct (Z.odd q); simpl; nia.
  - simpl. lia.
  - apply Z.compare_gt_iff in E. simpl. nia.
Qed.

Lemma count_matches_le keywords text : count_matches keywords text <= length keywords.
Proof. unfold count_matches. apply List.filter_length_le. Qed.

Lemma ratio_bounds (m n : nat) : m <= n -> (0 <= ratio m n)%Q /\ (ratio m n <= 1)%Q.
Proof.
  intros Hle. unfold ratio, Qle; simpl. split; [lia|].
  destruct n as [|n]; [assert (m = 0) by lia; subst; simpl; lia|].
  rewrite Z.mul_1_r, Z.mul_1_l.
  rewrite <- Pos.of_nat_succ, Zpos_P_of_succ_nat. lia.
Qed.

Lemma scored_score_ok keywords threshold text_of j :
  score_ok (scored keywords threshold text_of j).
Proof.
  exists (round2 (raw_score keywords text_of j)). split; [reflexivity|].
  destruct (ratio_bounds _ _ (count_matches_le keywords (Py.lower (text_of j)))) as [H0 H1].
  destruct (round2_bounds _ H0 H1) as [? ?].
  repeat split; auto using round2_idem.
Qed.

(** ** The aggregator of fn.py *)

Lemma grows_by_impl (Q Q' : job -> Prop) n acc r :
  (forall j, Q j -> Q' j) -> grows_by Q n acc r -> grows_by Q' n acc r.
Proof.
  intros HQ (new & -> & Hnew & Hn). exists new. repeat split; auto.
  eapply List.Forall_impl; eauto.
Qed.

Lemma grows_by_app (Q : job -> Prop) acc new :
  Forall Q new -> grows_by Q (length new) acc (acc ++ new).
Proof. intros H. exists new. auto. Qed.

Lemma scrape_site_spec w search_term site all_jobs st :
  yields (Simple.scrape_site w search_term site all_jobs) st
    (fun r _ => grows_by (from_source site) 20 all_jobs r).
Proof.
  cbv [yields Simple.scrape_site try_except bind sleep emit ret].
  destruct (String.eqb_spec site "reliefweb") as [->|_].
  - destruct (scrape_reliefweb_spec w search_term Simple.reliefweb_max_jobs st)
      as (r & st' & -> & HQ & Hlen).
    eexists _, _. split; [reflexivity|]. exists r. auto.
  - destruct (String.eqb_spec site "devex") as [->|_].
    + destruct (scrape_devex_spec w search_term Simple.devex_max_jobs st)
        as (r & st' & -> & HQ & Hlen & _).
      eexists _, _. split; [reflexivity|]. exists r. repeat split; auto.
      unfold Simple.devex_max_jobs in Hlen. lia.
    + eexists _, _. split; [reflexivity|]. apply grows_by_nil.
Qed.

Lemma scrape_development_sites_total w search_term sites st :
  yields (Simple.scrape_development_sites w search_term sites) st (fun _ _ => True).
Proof.
  unfold Simple.scrape_development_sites.
  destruct (for_each_appends (fun _ => True) any_state 20
              (Simple.scrape_site w search_term)) with
    (l := default ["reliefweb"; "devex"] sites) (acc := @nil job) (st := st)
    as (r & st' & Hr & _).
  - intros site acc st0.
    destruct (scrape_site_spec w search_term site acc st0) as (r & st' & Hr & Hg).
    exists r, st'. split; [exact Hr|]. split; [|exact I].
    eapply grows_by_impl; [|exact Hg]. auto.
  - exists r, st'. auto.
Qed.

(** One turn of the loop over the search terms: the sites are scraped,
    the postings that pass the scorer are accumulated, the delay follows. *)
Lemma search_one_term_spec w sites search_term all_jobs st :
  exists jobs st1,
    Simple.scrape_development_sites w search_term (Some sites) st = (inr jobs, st1) /\
    Simple.search_one_term w sites search_term all_jobs st =
    (inr (all_jobs ++ Simple.filter_public_health_jobs jobs),
     mk_state (trace st1 ++ [Sleep 1]) (ticks st1)).
Proof.
  destruct (scrape_development_sites_total w search_term (Some sites) st)
    as (jobs & st1 & Hr & _).
  exists jobs, st1. split; [exact Hr|].
  cbv [Simple.search_one_term try_finally try_except bind sleep emit ret].
  now rewrite Hr.
Qed.

Lemma simple_filter_eq jobs :
  Simple.filter_public_health_jobs jobs =
  map (scored Simple.public_health_keywords Simple.threshold Simple.job_text)
    (List.filter
       (fun j => Qle_bool Simple.threshold
                   (raw_score Simple.public_health_keywords Simple.job_text j)) jobs).
Proof.
  unfold Simple.filter_public_health_jobs, Simple.score_jobs. now rewrite score_fold.
Qed.

Lemma Forall_map_scored keywords threshold text_of (jobs : list job) :
  Forall score_ok (map (scored keywords threshold text_of) jobs).
Proof. apply Forall_map, Forall_forall. intros j _. apply scored_score_ok. Qed.

Lemma main_spec w search_terms sites max_jobs_per_search st :
  yields (Simple.main w search_terms sites max_jobs_per_search) st
    (fun r _ => Forall score_ok (default [] r)).
Proof.
  unfold Simple.main.
  destruct search_terms as [|t terms]; [eexists _, _; split; [reflexivity | constructor]|].
  destruct sites as [|s sites]; [eexists _, _; split; [reflexivity | constructor]|].
  set (ts := t :: terms). set (ss := s :: sites).
  destruct (for_each_appends score_ok any_state (length ss * 20)
              (Simple.search_one_term w ss)) with
    (l := ts) (acc := @nil job) (st := st) as (r & st' & Hr & (new & -> & HQ & _) & _).
  - intros term acc st0. unfold yields.
    destruct (search_one_term_spec w ss term acc st0) as (jobs & st1 & Hj & ->).
    eexists _, _. split; [reflexivity|]. split; [|exact I].
    rewrite simple_filter_eq.
    eapply grows_by_weaken; [|apply grows_by_app, Forall_map_scored].
    rewrite length_map.
    etransitivity; [apply List.filter_length_le|].
    destruct (for_each_appends (fun _ => True) any_state 20
                (Simple.scrape_site w term)) with
      (l := ss) (acc := @nil job) (st := st0) as (r & st' & Hr & (new & -> & _ & Hlen) & _).
    + intros site acc0 st2.
      destruct (scrape_site_spec w term site acc0 st2) as (r & st' & Hr & Hg).
      exists r, st'. split; [exact Hr|]. split; [|exact I].
      eapply grows_by_impl; [|exact Hg]. auto.
    + unfold Simple.scrape_development_sites in Hj. simpl default in Hj.
      rewrite Hr in Hj. injection Hj as <- _. exact Hlen.
  - unfold yields, bind. rewrite Hr. eexists _, _. split; [reflexivity|].
    simpl. apply Forall_forall. intros j Hj.
    rewrite Forall_forall in HQ. apply HQ.
    eapply sublist_subseteq; [|exact Hj].
    rewrite remove_duplicates_first_occurrences. apply first_occurrences_sublist.
Qed.

(** ** The adapters of branch.py *)

Lemma text_or_total found fallback st :
  exists s, Enhanced.text_or found fallback st = (inr s, st).
Proof. destruct found; eexists; reflexivity. Qed.

Lemma extract_reliefweb_job_data_spec w job_element st :
  yields (Enhanced.extract_reliefweb_job_data w job_element) st
    (fun r st' => (forall j, r = Some j -> source j = "reliefweb") /\ quiet st st').
Proof.
  destruct (text_or_total (Enhanced.rw_dd job_element) "Unknown Organization" st) as [o Ho].
  destruct (text_or_total (Enhanced.rw_country job_element) "Multiple Locations" st)
    as [d Hd].
  destruct (text_or_total (Enhanced.rw_time job_element) "Unknown" st) as [t Ht].
  cbv [yields Enhanced.extract_reliefweb_job_data try_except bind Enhanced.find_element].
  destruct (Enhanced.rw_title job_element) as [h|];
    [|eexists _, _; split; [reflexivity | split; [discriminate | reflexivity]]].
  cbv [ret]. rewrite Ho, Hd, Ht.
  eexists _, _. split; [reflexivity|]. split; [|reflexivity].
  intros j [= <-]. reflexivity.
Qed.

Lemma extract_unjobs_job_data_spec w job_element st :
  yields (Enhanced.extract_unjobs_job_data w job_element) st
    (fun r st' =>
       (forall j, r = Some j -> date_posted j = "Recent" /\ source j = "unjobs") /\
       quiet st st').
Proof.
  destruct (text_or_total (Enhanced.un_org job_element) "UN Agency" st) as [o Ho].
  destruct (text_or_total (Enhanced.un_duty job_element) "Multiple Duty Stations" st)
    as [d Hd].
  cbv [yields Enhanced.extract_unjobs_job_data try_except bind Enhanced.find_element].
  destruct (Enhanced.un_heading job_element) as [h|];
    [|eexists _, _; split; [reflexivity | split; [discriminate | reflexivity]]].
  destruct (Enhanced.un_link job_element) as [l|];
    [|eexists _, _; split; [reflexivity | split; [discriminate | reflexivity]]].
  cbv [ret]. rewrite Ho, Hd.
  eexists _, _. split; [reflexivity|]. split; [|reflexivity].
  intros j [= <-]. split; reflexivity.
Qed.

(** Tagging keeps what the extraction put into the posting. *)
Lemma tag_and_append_spec (Q : job -> Prop) w search_term extracted jobs st :
  (forall j b, Q j -> Q (set_is_recent b (set_search_term search_term j))) ->
  yields extracted st (fun r st' => (forall j, r = Some j -> Q j) /\ quiet st st') ->
  yields (Enhanced.tag_and_append w search_term extracted jobs) st
    (fun r st' => grows_by Q 1 jobs r /\ quiet st st').
Proof.
  intros Hset (r & st1 & Hr & Hj & Hq).
  cbv [yields Enhanced.tag_and_append try_except bind]. rewrite Hr.
  destruct r as [j|].
  - match goal with |- context [is_recent_job ?c ?d ?s] =>
      destruct (is_recent_job_quiet c d s) as (b & st' & -> & Hq') end.
    eexists _, _. split; [reflexivity|].
    split; [apply grows_by_one, Hset, Hj; reflexivity | etransitivity; eassumption].
  - eexists _, _. split; [reflexivity|]. split; [apply grows_by_nil | exact Hq].
Qed.

Lemma tag_and_append_unjobs w search_term job_element jobs st :
  yields (Enhanced.tag_and_append w search_term
            (Enhanced.extract_unjobs_job_data w job_element) jobs) st
    (fun r st' => grows_by unjobs_posting 1 jobs r /\ quiet st st').
Proof.
  destruct (extract_unjobs_job_data_spec w job_element st) as (r & st1 & Hr & Hj & Hq).
  cbv [yields Enhanced.tag_and_append try_except bind]. rewrite Hr.
  destruct r as [j|].
  - destruct (Hj j eq_refl) as [Hd Hs].
    change (date_posted (set_search_term search_term j)) with (date_posted j).
    rewrite Hd, is_recent_job_phrases by discriminate.
    eexists _, _. split; [reflexivity|].
    split; [apply grows_by_one; repeat split; assumption | exact Hq].
  - eexists _, _. split; [reflexivity|]. split; [apply grows_by_nil | exact Hq].
Qed.

Lemma enhanced_scrape_reliefweb_spec w search_term max_jobs st :
  yields (Enhanced.scrape_reliefweb w search_term max_jobs) st
    (fun r st' =>
       Forall (from_source "reliefweb") r /\ length r <= max_jobs /\
       emitted [Request (Enhanced.reliefweb_url search_term)] st st').
Proof.
  cbv [yields Enhanced.scrape_reliefweb try_except bind Enhanced.get emit lift
       Enhanced.wait_for_article].
  destruct (Enhanced.driver_get w _) as [e|p].
  - eexists _, _. split; [reflexivity|]. repeat split; [constructor | simpl; lia].
  - destruct (Enhanced.article_present p); cbv [ret raise].
    + match goal with |- context [for_each (take ?n ?l) ?b [] ?s] =>
        destruct (item_loop_spec (from_source "reliefweb") b l n s) as (r & st' & -> & HQ & Hlen & Hq)
      end.
      { intros x acc st0. apply tag_and_append_spec; [auto|].
        apply extract_reliefweb_job_data_spec. }
      exists r, st'. split; [reflexivity|]. repeat split; auto.
    + eexists _, _. split; [reflexivity|]. repeat split; [constructor | simpl; lia].
Qed.

Lemma scrape_unjobs_spec w search_term max_jobs st :
  yields (Enhanced.scrape_unjobs w search_term max_jobs) st
    (fun r st' =>
       Forall unjobs_posting r /\ length r <= max_jobs /\
       emitted (Request (Enhanced.unjobs_url search_term) ::
                match Enhanced.driver_get w (Enhanced.unjobs_url search_term) with
                | inl _ => []
                | inr _ => [Sleep 3]
                end) st st').
Proof.
  cbv [yields Enhanced.scrape_unjobs try_except bind Enhanced.get emit lift sleep].
  destruct (Enhanced.driver_get w _) as [e|p].
  - eexists _, _. split; [reflexivity|]. repeat split; [constructor | simpl; lia].
  - match goal with |- context [for_each (take ?n ?l) ?b [] ?s] =>
      destruct (item_loop_spec unjobs_posting b l n s) as (r & st' & -> & HQ & Hlen & Hq)
    end.
    { intros x acc st0. apply tag_and_append_unjobs. }
    exists r, st'. split; [reflexivity|]. repeat split; auto.
    unfold emitted. rewrite Hq. simpl. now rewrite <- app_assoc.
Qed.

(** C10. The UNjobs adapter always returns, and every posting it returns
    has [date_posted] "Recent" and [is_recent] false, whatever the page
    holds and whatever the clock reads. *)
Theorem unjobs_never_recent (w : Enhanced.World) (search_term : string)
    (max_jobs : nat) (st : state) :
  exists jobs st',
    Enhanced.scrape_unjobs w search_term max_jobs st = (inr jobs, st') /\
    Forall (fun j => date_posted j = "Recent" /\ is_recent j = Some false) jobs.
Proof.
  destruct (scrape_unjobs_spec w search_term max_jobs st) as (r & st' & Hr & HQ & _).
  exists r, st'. split; [exact Hr|].
  eapply List.Forall_impl; [|exact HQ]. intros j (? & ? & _); auto.
Qed.

(** The adapter on a page with one element *)
Example unjobs_posting_not_recent :
  map (fun j => (title j, date_posted j, is_recent j))
    (result_of [] (Enhanced.scrape_unjobs unjobs_world "health" 15 initial)) =
  [("Public Health Monitoring and Evaluation Data Research Officer", "Recent",
    Some false)].
Proof. vm_compute. reflexivity. Qed.

Lemma enhanced_scrape_site_spec w search_term site all_jobs st :
  yields (Enhanced.scrape_site w search_term site all_jobs) st
    (fun r _ => grows_by (from_source site) 20 all_jobs r).
Proof.
  cbv [yields Enhanced.scrape_site try_except bind sleep emit ret].
  destruct (String.eqb_spec site "reliefweb") as [->|_].
  - destruct (enhanced_scrape_reliefweb_spec w search_term Enhanced.reliefweb_max_jobs st)
      as (r & st' & -> & HQ & Hlen & _).
    eexists _, _. split; [reflexivity|]. exists r. auto.
  - destruct (String.eqb_spec site "unjobs") as [->|_].
    + destruct (scrape_unjobs_spec w search_term Enhanced.unjobs_max_jobs st)
        as (r & st' & -> & HQ & Hlen & _).
      eexists _, _. split; [reflexivity|]. exists r. repeat split.
      * eapply List.Forall_impl; [|exact HQ]. intros j (_ & _ & ?); assumption.
      * unfold Enhanced.unjobs_max_jobs in Hlen. lia.
    + eexists _, _. split; [reflexivity|]. apply grows_by_nil.
Qed.

Lemma enhanced_scrape_development_sites_total w search_term sites st :
  yields (Enhanced.scrape_development_sites w search_term sites) st (fun _ _ => True).
Proof.
  unfold Enhanced.scrape_development_sites.
  destruct (for_each_appends (fun _ => True) any_state 20
              (Enhanced.scrape_site w search_term)) with
    (l := default ["reliefweb"; "unjobs"] sites) (acc := @nil job) (st := st)
    as (r & st' & Hr & _).
  - intros site acc st0.
    destruct (enhanced_scrape_site_spec w search_term site acc st0) as (r & st' & Hr & Hg).
    exists r, st'. split; [exact Hr|]. split; [|exact I].
    eapply grows_by_impl; [|exact Hg]. auto.
  - exists r, st'. auto.
Qed.

Lemma enhanced_search_one_term_spec w sites search_term all_jobs st :
  exists jobs st1,
    Enhanced.scrape_development_sites w search_term (Some sites) st = (inr jobs, st1) /\
    Enhanced.search_one_term w sites search_term all_jobs st =
    (inr (all_jobs ++ Enhanced.filter_public_health_jobs jobs),
     mk_state (trace st1 ++ [Sleep 2]) (ticks st1)).
Proof.
  destruct (enhanced_scrape_development_sites_total w search_term (Some sites) st)
    as (jobs & st1 & Hr & _).
  exists jobs, st1. split; [exact Hr|].
  cbv [Enhanced.search_one_term try_finally try_except bind sleep emit ret].
  now rewrite Hr.
Qed.

Lemma enhanced_filter_eq jobs :
  Enhanced.filter_public_health_jobs jobs =
  map (scored Enhanced.public_health_keywords Enhanced.threshold Enhanced.job_text)
    (List.filter
       (fun j => Qle_bool Enhanced.threshold
                   (raw_score Enhanced.public_health_keywords Enhanced.job_text j)) jobs).
Proof.
  unfold Enhanced.filter_public_health_jobs, Enhanced.score_jobs. now rewrite score_fold.
Qed.

Lemma for_each_extends {A} (Q : job -> Prop) (body : A -> list job -> M (list job)) :
  (forall x acc st, yields (body x acc) st (fun r _ => extends_with Q acc r)) ->
  forall l acc st, yields (for_each l body acc) st (fun r _ => extends_with Q acc r).
Proof.
  intros Hbody l. induction l as [|x l IH]; intros acc st; simpl.
  - exists acc, st. split; [reflexivity|]. exists []. now rewrite app_nil_r.
  - destruct (Hbody x acc st) as (r & st1 & Hr & new & -> & HQ).
    destruct (IH (acc ++ new) st1) as (r' & st2 & Hr' & new' & -> & HQ').
    exists ((acc ++ new) ++ new'), st2. split; [unfold bind; now rewrite Hr|].
    exists (new ++ new'). rewrite app_assoc, Forall_app. auto.
Qed.

Lemma Forall_remove_duplicates (Q : job -> Prop) (l : list job) :
  Forall Q l -> Forall Q (remove_duplicates l).
Proof.
  rewrite !Forall_forall. intros H j Hj. apply H.
  eapply sublist_subseteq; [|exact Hj].
  rewrite remove_duplicates_first_occurrences. apply first_occurrences_sublist.
Qed.

Lemma run_scraper_with_progress_spec w search_terms sites max_jobs st :
  Enhanced.chrome w = inr tt ->
  yields (Enhanced.run_scraper_with_progress w search_terms sites max_jobs) st
    (fun r _ => Forall score_ok r).
Proof.
  intros Hchrome. unfold Enhanced.run_scraper_with_progress.
  destruct search_terms as [|t terms]; [eexists _, _; split; [reflexivity | constructor]|].
  destruct sites as [|s sites]; [eexists _, _; split; [reflexivity | constructor]|].
  set (ts := t :: terms). set (ss := s :: sites).
  destruct (for_each_extends score_ok (Enhanced.search_one_term w ss)) with
    (l := ts) (acc := @nil job) (st := st) as (r & st' & Hr & new & -> & HQ).
  - intros term acc st0. unfold yields.
    destruct (enhanced_search_one_term_spec w ss term acc st0) as (jobs & st1 & Hj & ->).
    eexists _, _. split; [reflexivity|].
    eexists. split; [reflexivity|].
    rewrite enhanced_filter_eq. apply Forall_map_scored.
  - cbv [yields bind lift]. rewrite Hchrome, Hr.
    eexists _, _. split; [reflexivity|]. now apply Forall_remove_duplicates.
Qed.

(** ** The scorer *)

(** The vocabulary of branch.py has no repeated keyword, so its scorer
    counts distinct keywords: the score is [round(k/16, 2)]. *)
Lemma enhanced_score_counts_distinct (j : job) :
  relevance_score
    (scored Enhanced.public_health_keywords Enhanced.threshold Enhanced.job_text j) =
  Some (round2 (ratio
                  (distinct_matches Enhanced.public_health_keywords
                     (Py.lower (Enhanced.job_text j)))
                  16)).
Proof. reflexivity. Qed.

(** C2. The vocabulary of fn.py lists "health" twice.  The text of the
    posting "Health Advisor" of "WHO" holds one distinct keyword of the 22
    distinct ones (23 entries); the scorer counts two matches and assigns
    0.09, where [round(1/23, 2)] is 0.04 and [round(1/22, 2)] is 0.05. *)
Theorem duplicate_keyword_counted_twice :
  distinct_matches Simple.public_health_keywords
    (Py.lower (Simple.job_text health_advisor)) = 1 /\
  length Simple.public_health_keywords = 23 /\
  length (remove_dups Simple.public_health_keywords) = 22 /\
  count_matches Simple.public_health_keywords
    (Py.lower (Simple.job_text health_advisor)) = 2 /\
  map relevance_score (fst (Simple.score_jobs [health_advisor])) = [Some (9 # 100)] /\
  round2 (ratio 1 23) = (4 # 100) /\
  round2 (ratio 1 22) = (5 # 100).
Proof. repeat split; vm_compute; reflexivity. Qed.

(** ** The run of fn.py over ReliefWeb alone *)

(** With one search term and ReliefWeb as the only site, the run returns
    at most 20 postings (the default of [max_jobs]), all from ReliefWeb and
    all scored; the value of the slider plays no part. *)
Lemma reliefweb_run_bounds w search_term max_jobs_per_search st :
  yields (Simple.main w [search_term] ["reliefweb"] max_jobs_per_search) st
    (fun r _ =>
       exists jobs, r = Some jobs /\ length jobs <= 20 /\
         Forall (fun j => source j = "reliefweb" /\ score_ok j) jobs).
Proof.
  destruct (search_one_term_spec w ["reliefweb"] search_term [] st)
    as (jobs & st1 & Hjobs & Hterm).
  assert (Forall (from_source "reliefweb") jobs /\ length jobs <= 20) as [HQ Hlen].
  { destruct (scrape_site_spec w search_term "reliefweb" [] st)
      as (r & st' & Hr & new & -> & HQ & Hlen).
    unfold Simple.scrape_development_sites in Hjobs. simpl default in Hjobs.
    cbn [for_each] in Hjobs.
    unfold bind in Hjobs. rewrite Hr in Hjobs. injection Hjobs as <- _. auto. }
  unfold yields, Simple.main. cbn [for_each]. unfold bind. rewrite Hterm.
  eexists _, _. split; [reflexivity|]. eexists. split; [reflexivity|].
  rewrite app_nil_l, simple_filter_eq.
  split.
  - etransitivity; [apply sublist_length; rewrite remove_duplicates_first_occurrences;
                    apply first_occurrences_sublist|].
    rewrite length_map. etransitivity; [apply List.filter_length_le|]. exact Hlen.
  - apply Forall_remove_duplicates. apply Forall_map, Forall_forall.
    intros j Hj. split; [|apply scored_score_ok].
    apply list_elem_of_In, List.filter_In in Hj as [Hj _].
    rewrite List.Forall_forall in HQ. exact (HQ _ Hj).
Qed.

(** C3. The API answers the query for "monitoring and evaluation" with
    six relevant postings; the run with ReliefWeb as the only site and the
    limit 5 returns all six, and the one request it makes asks for 20. *)
Theorem limit_five_returns_six :
  exists jobs st',
    Simple.main (api_world six_items) ["monitoring and evaluation"] ["reliefweb"] 5
      initial = (inr (Some jobs), st') /\
    length jobs = 6 /\
    Forall (fun j => source j = "reliefweb") jobs /\
    trace st' =
      [Request (Simple.reliefweb_api_url "monitoring and evaluation" 20);
       Sleep 1; Sleep 1].
Proof.
  eexists _, _. split; [vm_compute; reflexivity|].
  split; [reflexivity|]. split; [repeat constructor | reflexivity].
Qed.

(** ** Scores and the threshold *)

(** C9. Every posting a run returns carries a relevance score between 0
    and 1 that is its own rounding to two decimals, in the run of fn.py and,
    once the browser has started, in the run of JOB.py; the postings the
    scorer drops carry such a score as well. *)
Theorem relevance_score_in_range
    (w : Simple.World) (w' : Enhanced.World) (search_terms sites : list string)
    (limit : nat) (jobs : list job) (st : state)
    (Hchrome : Enhanced.chrome w' = inr tt) :
  yields (Simple.main w search_terms sites limit) st
    (fun r _ => Forall score_ok (default [] r)) /\
  yields (Enhanced.run_scraper_with_progress w' search_terms sites limit) st
    (fun r _ => Forall score_ok r) /\
  Forall score_ok (fst (Simple.score_jobs jobs)) /\
  Forall score_ok (fst (Enhanced.score_jobs jobs)).
Proof.
  split; [apply main_spec|].
  split; [now apply run_scraper_with_progress_spec|].
  unfold Simple.score_jobs, Enhanced.score_jobs. rewrite !score_fold.
  split; apply Forall_map_scored.
Qed.

Lemma relevance_score_in_range_witness :
  Enhanced.chrome unjobs_world = inr tt /\
  yields (Enhanced.run_scraper_with_progress unjobs_world ["health"] ["unjobs"] 20)
    initial (fun r _ => Forall score_ok r).
Proof.
  split; [reflexivity|].
  apply (relevance_score_in_range (api_world six_items) unjobs_world
           ["health"] ["unjobs"] 20 [health_advisor] initial).
  reflexivity.
Defined.

(** C5, as the code has it.  The scorer tags every posting it is given
    with its rounded score and its flag, and returns, in order, exactly
    those whose unrounded score reaches the threshold (0.2 in fn.py, 0.3 in
    branch.py); the aggregator accumulates what the scorer returns, so a
    posting below the threshold is dropped inside the pipeline. *)
Theorem below_threshold_dropped
    (w : Simple.World) (w' : Enhanced.World) (sites : list string)
    (search_term : string) (all_jobs : list job) (st : state) :
  (exists jobs st1 st2,
     Simple.scrape_development_sites w search_term (Some sites) st = (inr jobs, st1) /\
     Simple.score_jobs jobs =
       (map (scored Simple.public_health_keywords Simple.threshold Simple.job_text) jobs,
        map (scored Simple.public_health_keywords Simple.threshold Simple.job_text)
          (List.filter
             (fun j => Qle_bool Simple.threshold
                         (raw_score Simple.public_health_keywords Simple.job_text j))
             jobs)) /\
     Simple.search_one_term w sites search_term all_jobs st =
       (inr (all_jobs ++ snd (Simple.score_jobs jobs)), st2)) /\
  (exists jobs st1 st2,
     Enhanced.scrape_development_sites w' search_term (Some sites) st = (inr jobs, st1) /\
     Enhanced.score_jobs jobs =
       (map (scored Enhanced.public_health_keywords Enhanced.threshold Enhanced.job_text)
          jobs,
        map (scored Enhanced.public_health_keywords Enhanced.threshold Enhanced.job_text)
          (List.filter
             (fun j => Qle_bool Enhanced.threshold
                         (raw_score Enhanced.public_health_keywords Enhanced.job_text j))
             jobs)) /\
     Enhanced.search_one_term w' sites search_term all_jobs st =
       (inr (all_jobs ++ snd (Enhanced.score_jobs jobs)), st2)).
Proof.
  split.
  - destruct (search_one_term_spec w sites search_term all_jobs st)
      as (jobs & st1 & Hjobs & Hterm).
    exists jobs, st1. eexists. split; [exact Hjobs|].
    split; [|exact Hterm].
    unfold Simple.score_jobs. now rewrite score_fold.
  - destruct (enhanced_search_one_term_spec w' sites search_term all_jobs st)
      as (jobs & st1 & Hjobs & Hterm).
    exists jobs, st1. eexists. split; [exact Hjobs|].
    split; [|exact Hterm].
    unfold Enhanced.score_jobs. now rewrite score_fold.
Qed.

(** C5, as stated, fails: the API answers with the posting "Driver", the
    adapters produce it, its score is 0, and the run retains nothing. *)
Lemma below_threshold_posting_lost :
  let produced :=
    result_of []
      (Simple.scrape_development_sites (api_world [driver_item])
         "monitoring and evaluation" (Some ["reliefweb"]) initial) in
  let retained :=
    result_of None
      (Simple.main (api_world [driver_item]) ["monitoring and evaluation"]
         ["reliefweb"] 5 initial) in
  map title produced = ["Driver"] /\
  map relevance_score (fst (Simple.score_jobs produced)) = [Some (0 # 100)] /\
  retained = Some [] /\
  ~ (forall j, In j produced -> exists j', In j' (default [] retained) /\ url j' = url j).
Proof.
  vm_compute. repeat split.
  intros H. destruct (H _ (or_introl eq_refl)) as (j' & [] & _).
Qed.

(** Without the recency filter the presentation shows the whole result. *)
Lemma working_view_all (jobs : list job) : working_view false jobs = jobs.
Proof. reflexivity. Qed.

Lemma working_view_sublist (show_only_recent : bool) (jobs : list job) :
  sublist (working_view show_only_recent jobs) jobs.
Proof.
  destruct show_only_recent; [|reflexivity]. unfold working_view.
  induction jobs as [|j jobs IH]; simpl; [constructor|].
  destruct (default false (is_recent j)); [apply sublist_skip | apply sublist_cons]; exact IH.
Qed.

(** ** Failures of single fetches *)

Lemma failing_pair_adds_nothing w search_term site all_jobs st :
  pair_fails w search_term site = true ->
  exists st1, Simple.scrape_site w search_term site all_jobs st = (inr all_jobs, st1).
Proof.
  unfold pair_fails, Simple.scrape_site.
  destruct (String.eqb site "reliefweb").
  - intros [Hapi Hhtml]%andb_prop.
    pose proof (scrape_reliefweb_paths w search_term Simple.reliefweb_max_jobs st) as H.
    rewrite Hapi in H.
    cbv [try_except bind sleep emit ret]. rewrite H.
    unfold html_path_empty in Hhtml.
    cbv [Simple.scrape_reliefweb_html try_except bind Simple.get emit lift requested].
    destruct (Simple.session_get w (Simple.reliefweb_html_url search_term))
      as [e|response]; cbv [ret].
    + rewrite app_nil_r. eexists. reflexivity.
    + destruct (Simple.find_all_rw_job (Simple.soup response)); [|discriminate].
      rewrite take_nil. cbn [for_each]. cbv [ret].
      rewrite app_nil_r. eexists. reflexivity.
  - destruct (String.eqb site "devex"); [|discriminate].
    unfold devex_path_empty. intros Hdevex.
    cbv [try_except bind sleep emit ret Simple.scrape_devex Simple.get lift].
    destruct (Simple.session_get w (Simple.devex_url search_term)) as [e|response].
    + rewrite app_nil_r. eexists. reflexivity.
    + destruct (Simple.find_all_job_div (Simple.soup response)); [|discriminate].
      destruct (Simple.find_all_article (Simple.soup response)); [|discriminate].
      rewrite !take_nil. cbn [for_each]. cbv [ret].
      rewrite app_nil_r. eexists. reflexivity.
Qed.

Lemma enhanced_failing_pair_adds_nothing w search_term site all_jobs st :
  enhanced_pair_fails w search_term site = true ->
  exists st1, Enhanced.scrape_site w search_term site all_jobs st = (inr all_jobs, st1).
Proof.
  unfold enhanced_pair_fails, Enhanced.scrape_site.
  destruct (String.eqb site "reliefweb").
  - cbv [try_except bind sleep emit ret Enhanced.scrape_reliefweb Enhanced.get lift
         Enhanced.wait_for_article raise].
    destruct (Enhanced.driver_get w (Enhanced.reliefweb_url search_term)) as [e|p].
    + intros _. rewrite app_nil_r. eexists. reflexivity.
    + destruct (Enhanced.article_present p); simpl negb; simpl orb.
      * destruct (Enhanced.find_rw_jobs p); [|discriminate]. intros _.
        rewrite take_nil. cbn [for_each]. cbv [ret].
        rewrite app_nil_r. eexists. reflexivity.
      * intros _. rewrite app_nil_r. eexists. reflexivity.
  - destruct (String.eqb site "unjobs"); [|discriminate].
    cbv [try_except bind sleep emit ret Enhanced.scrape_unjobs Enhanced.get lift].
    destruct (Enhanced.driver_get w (Enhanced.unjobs_url search_term)) as [e|p].
    + intros _. rewrite app_nil_r. eexists. reflexivity.
    + destruct (Enhanced.find_un_jobs p); [|discriminate]. intros _.
      rewrite take_nil. cbn [for_each]. cbv [ret].
      rewrite app_nil_r. eexists. reflexivity.
Qed.

(** A run of fn.py that has a term and a site to work on returns a
    collection; without one it returns after the configuration error. *)
Lemma main_returns_collection w search_terms sites limit st :
  exists r st',
    Simple.main w search_terms sites limit st = (inr r, st') /\
    (r = None <-> search_terms = [] \/ sites = []).
Proof.
  destruct (main_spec w search_terms sites limit st) as (r & st' & H & _).
  exists r, st'. split; [exact H|].
  unfold Simple.main in H.
  destruct search_terms as [|t terms];
    [injection H as <- _; split; [left; reflexivity | reflexivity]|].
  destruct sites as [|s sites];
    [injection H as <- _; split; [right; reflexivity | reflexivity]|].
  unfold bind in H.
  destruct (for_each _ _ _ _) as [[e|all_jobs] st1]; [discriminate|].
  injection H as <- _. split; [discriminate | intros [|]; discriminate].
Qed.

(** The isolation of failures, as far as the code has it.  When every
    path the adapter of a site tries raises or matches nothing, the pair
    adds nothing to the postings collected so far and the loop goes on with
    the remaining sites; the loops over the sites never raise, the run of
    fn.py returns a collection whenever a term and a site are selected, and
    so does the run of JOB.py once the browser has started. *)
Lemma failure_isolated
    (w : Simple.World) (w' : Enhanced.World) (search_term site : string)
    (rest : list string) (all_jobs : list job) (st : state) :
  (pair_fails w search_term site = true ->
   exists st1,
     Simple.scrape_site w search_term site all_jobs st = (inr all_jobs, st1) /\
     for_each (site :: rest) (Simple.scrape_site w search_term) all_jobs st =
     for_each rest (Simple.scrape_site w search_term) all_jobs st1) /\
  (enhanced_pair_fails w' search_term site = true ->
   exists st1,
     Enhanced.scrape_site w' search_term site all_jobs st = (inr all_jobs, st1) /\
     for_each (site :: rest) (Enhanced.scrape_site w' search_term) all_jobs st =
     for_each rest (Enhanced.scrape_site w' search_term) all_jobs st1) /\
  (forall sites,
     (exists jobs st',
        Simple.scrape_development_sites w search_term sites st = (inr jobs, st')) /\
     (exists jobs st',
        Enhanced.scrape_development_sites w' search_term sites st = (inr jobs, st'))) /\
  (forall search_terms sites limit,
     (exists r st',
        Simple.main w search_terms sites limit st = (inr r, st') /\
        (r = None <-> search_terms = [] \/ sites = [])) /\
     (Enhanced.chrome w' = inr tt ->
      exists jobs st',
        Enhanced.run_scraper_with_progress w' search_terms sites limit st =
        (inr jobs, st'))).
Proof.
  split; [|split; [|split]].
  - intros Hfail.
    destruct (failing_pair_adds_nothing w search_term site all_jobs st Hfail) as [st1 H].
    exists st1. split; [exact H|]. cbn [for_each]. unfold bind. now rewrite H.
  - intros Hfail.
    destruct (enhanced_failing_pair_adds_nothing w' search_term site all_jobs st Hfail)
      as [st1 H].
    exists st1. split; [exact H|]. cbn [for_each]. unfold bind. now rewrite H.
  - intros sites. split.
    + destruct (scrape_development_sites_total w search_term sites st) as (r & st' & H & _).
      eauto.
    + destruct (enhanced_scrape_development_sites_total w' search_term sites st)
        as (r & st' & H & _).
      eauto.
  - intros search_terms sites limit. split.
    + apply main_returns_collection.
    + intros Hchrome.
      destruct (run_scraper_with_progress_spec w' search_terms sites limit st Hchrome)
        as (r & st' & H & _).
      eauto.
Qed.

Lemma failure_isolated_witness :
  pair_fails dead_network "health" "reliefweb" = true /\
  enhanced_pair_fails dead_browser "health" "unjobs" = true /\
  Enhanced.chrome dead_browser = inr tt /\
  (exists st1,
     Simple.scrape_site dead_network "health" "reliefweb" [health_advisor] initial =
     (inr [health_advisor], st1)) /\
  (exists st1,
     Enhanced.scrape_site dead_browser "health" "unjobs" [health_advisor] initial =
     (inr [health_advisor], st1)) /\
  (exists jobs st',
     Enhanced.run_scraper_with_progress dead_browser ["health"] ["unjobs"] 20 initial =
     (inr jobs, st')).
Proof.
  destruct (failure_isolated dead_network dead_browser "health" "reliefweb" ["devex"]
              [health_advisor] initial) as (H1 & _ & _ & _).
  destruct (failure_isolated dead_network dead_browser "health" "unjobs" []
              [health_advisor] initial) as (_ & H2 & _ & H4).
  repeat split; try reflexivity.
  - destruct (H1 eq_refl) as (st1 & H & _). exists st1. exact H.
  - destruct (H2 eq_refl) as (st1 & H & _). exists st1. exact H.
  - exact (proj2 (H4 ["health"] ["unjobs"] 20) eq_refl).
Defined.

(** C6. A failing input.  Every request is answered with status 500; the
    body decodes to a payload with one item, and the page sent along holds
    one ReliefWeb job article and one Devex job card.  The structured path
    of ReliefWeb rejects the answer at [raise_for_status] and leaves the
    item alone, but the two HTML paths never read the status: the pair of
    "health" and Devex contributes a posting, so does the fallback of
    ReliefWeb, and the run returns both. *)
Theorem error_status_page_parsed :
  (forall url, exists response,
     Simple.session_get error_status_world url = inr response /\
     Simple.status_code response = 500) /\
  (forall url response,
     Simple.session_get error_status_world url = inr response ->
     fst (Simple.raise_for_status response initial) = inl HTTPError) /\
  map title (result_of [] (Simple.scrape_site error_status_world "health" "devex" []
                             initial)) =
    ["Public Health Monitoring and Evaluation Data Research Officer"] /\
  map source
    (result_of [] (Simple.scrape_development_sites error_status_world "health"
                     (Some ["reliefweb"; "devex"]) initial)) = ["reliefweb"; "devex"] /\
  exists jobs st',
    Simple.main error_status_world ["health"] ["reliefweb"; "devex"] 20 initial =
      (inr (Some jobs), st') /\
    map url jobs = [Some "https://reliefweb.int/job/1"; Some "https://www.devex.com/jobs/1"] /\
    trace st' =
      [Request (Simple.reliefweb_api_url "health" 20);
       Request (Simple.reliefweb_html_url "health"); Sleep 1;
       Request (Simple.devex_url "health"); Sleep 1; Sleep 1].
Proof.
  split; [intros url; eexists; split; reflexivity|].
  split; [intros url response [= <-]; reflexivity|].
  split; [vm_compute; reflexivity|].
  split; [vm_compute; reflexivity|].
  eexists _, _. split; [vm_compute; reflexivity|].
  split; reflexivity.
Qed.

(** ** Structured and unstructured paths *)

(** C7, as the code has it.  The ReliefWeb adapter of fn.py requests the
    API first; it goes on to the HTML page exactly when the structured path
    raises outside the per-item handler (request, status check, decoding,
    reading of the [data] array), and otherwise makes no other request.  The
    Devex adapter and the two adapters of branch.py request their HTML page
    and nothing else. *)
Theorem structured_path_only_in_reliefweb
    (w : Simple.World) (w' : Enhanced.World) (search_term : string)
    (max_jobs : nat) (st : state) :
  (if api_path_raises w search_term max_jobs then
     Simple.scrape_reliefweb w search_term max_jobs st =
     Simple.scrape_reliefweb_html w search_term max_jobs
       (requested (Simple.reliefweb_api_url search_term max_jobs) st)
   else
     yields (Simple.scrape_reliefweb w search_term max_jobs) st
       (fun _ st' =>
          emitted [Request (Simple.reliefweb_api_url search_term max_jobs)] st st')) /\
  yields (Simple.scrape_reliefweb_html w search_term max_jobs) st
    (fun _ st' => emitted [Request (Simple.reliefweb_html_url search_term)] st st') /\
  yields (Simple.scrape_devex w search_term max_jobs) st
    (fun _ st' => emitted [Request (Simple.devex_url search_term)] st st') /\
  yields (Enhanced.scrape_reliefweb w' search_term max_jobs) st
    (fun _ st' => emitted [Request (Enhanced.reliefweb_url search_term)] st st') /\
  yields (Enhanced.scrape_unjobs w' search_term max_jobs) st
    (fun _ st' =>
       emitted (Request (Enhanced.unjobs_url search_term) ::
                match Enhanced.driver_get w' (Enhanced.unjobs_url search_term) with
                | inl _ => []
                | inr _ => [Sleep 3]
                end) st st').
Proof.
  split; [|split; [|split; [|split]]].
  - pose proof (scrape_reliefweb_paths w search_term max_jobs st) as H.
    destruct (api_path_raises w search_term max_jobs); [exact H|].
    destruct H as (r & st' & Hr & _ & _ & He). exists r, st'. auto.
  - destruct (scrape_reliefweb_html_spec w search_term max_jobs st)
      as (r & st' & Hr & _ & _ & He).
    exists r, st'. auto.
  - destruct (scrape_devex_spec w search_term max_jobs st) as (r & st' & Hr & _ & _ & He).
    exists r, st'. auto.
  - destruct (enhanced_scrape_reliefweb_spec w' search_term max_jobs st)
      as (r & st' & Hr & _ & _ & He).
    exists r, st'. auto.
  - destruct (scrape_unjobs_spec w' search_term max_jobs st) as (r & st' & Hr & _ & _ & He).
    exists r, st'. auto.
Qed.

(** C7, as stated, fails twice.  The Devex adapter parses the page it
    requested although no structured path was tried, let alone failed: its
    only request is the search page, and the payload that would decode is
    never asked for.  The ReliefWeb adapter falls back to the HTML page
    although its API request and the decoding of the payload both succeed:
    the payload is an array, which has no [data] member to read. *)
Lemma html_parsed_without_structured_failure :
  let devex := Simple.scrape_devex devex_world "health" 15 initial in
  let reliefweb := Simple.scrape_reliefweb array_payload_world "health" 20 initial in
  trace (snd devex) = [Request (Simple.devex_url "health")] /\
  map title (result_of [] devex) = ["Health Data Analyst at World Bank"] /\
  (exists response,
     Simple.session_get array_payload_world (Simple.reliefweb_api_url "health" 20) =
       inr response /\
     Simple.raise_for_status response initial = (inr tt, initial) /\
     Simple.json response = inr Simple.BodyOther) /\
  trace (snd reliefweb) =
    [Request (Simple.reliefweb_api_url "health" 20);
     Request (Simple.reliefweb_html_url "health")] /\
  map title (result_of [] reliefweb) = ["Health Officer"].
Proof.
  vm_compute. repeat split. eexists. repeat split.
Qed.

(** * Further properties of the code *)

#[local] Set Warnings "-clear-no-such-hyp".

(** ** Removing duplicates, continued *)

Section DedupMore.

Implicit Types (l unique_jobs : list job) (seen : gset (option string))
  (u : option string).

Lemma first_occurrences_urls seen l u :
  u ∈ url <$> first_occurrences seen l <-> u ∈ url <$> l /\ u ∉ seen.
Proof.
  revert seen. induction l as [|j l IH]; intros seen; cbn [first_occurrences].
  - rewrite fmap_nil. split; [intros Hu | intros [Hu _]]; now apply elem_of_nil in Hu.
  - destruct (decide (url j ∈ seen)) as [Hj|Hj].
    + rewrite IH, fmap_cons, elem_of_cons. split; [tauto|].
      intros [[->|Hu] Hnot]; [contradiction | tauto].
    + rewrite !fmap_cons, !elem_of_cons, IH, elem_of_union, elem_of_singleton.
      destruct (decide (u = url j)) as [->|Hne]; tauto.
Qed.

Lemma first_occurrences_id seen l :
  NoDup (url <$> l) -> (forall j, j ∈ l -> url j ∉ seen) ->
  first_occurrences seen l = l.
Proof.
  revert seen. induction l as [|j l IH]; intros seen Hnd Hfresh; simpl; [reflexivity|].
  rewrite fmap_cons in Hnd. apply NoDup_cons in Hnd as [Hj Hnd].
  rewrite decide_False by (apply Hfresh; left).
  f_equal. apply IH; [exact Hnd|].
  intros k Hk. specialize (Hfresh k ltac:(now right)).
  intros [Hin|Hin]%elem_of_union; [|contradiction].
  apply elem_of_singleton in Hin. apply Hj. rewrite <- Hin.
  apply list_elem_of_fmap. eauto.
Qed.

Lemma dedup_fold_seen l unique_jobs seen :
  snd (fold_left dedup_step l (unique_jobs, seen)) = list_to_set (url <$> l) ∪ seen.
Proof.
  revert unique_jobs seen. induction l as [|j l IH]; intros unique_jobs seen; simpl.
  - set_solver.
  - destruct (decide (url j ∈ seen)); rewrite IH; set_solver.
Qed.

Lemma first_occurrences_filter_seen seen seen' l :
  first_occurrences (seen ∪ seen') l =
  first_occurrences seen' (filter (fun j => url j ∉ seen) l).
Proof.
  revert seen'. induction l as [|j l IH]; intros seen'; simpl; [reflexivity|].
  destruct (decide (url j ∈ seen)) as [Hj|Hj].
  - rewrite decide_True by set_solver.
    rewrite filter_cons_False by (intros H; exact (H Hj)). apply IH.
  - rewrite filter_cons_True by assumption. simpl.
    destruct (decide (url j ∈ seen')) as [Hj'|Hj'].
    + rewrite decide_True by set_solver. apply IH.
    + rewrite decide_False by set_solver. f_equal.
      rewrite <- IH. f_equal. set_solver.
Qed.

End DedupMore.

(** X1. Removing duplicates twice changes nothing more, and a list whose
    urls are already distinct is returned as it is. *)
Theorem remove_duplicates_idempotent (all_jobs : list job) :
  remove_duplicates (remove_duplicates all_jobs) = remove_duplicates all_jobs /\
  (NoDup (url <$> all_jobs) -> remove_duplicates all_jobs = all_jobs).
Proof.
  rewrite !remove_duplicates_first_occurrences. split.
  - apply first_occurrences_id; [apply first_occurrences_NoDup | set_solver].
  - intros Hnd. apply first_occurrences_id; [exact Hnd | set_solver].
Qed.

Lemma remove_duplicates_idempotent_witness :
  NoDup (url <$> [health_advisor]) /\ remove_duplicates [health_advisor] = [health_advisor].
Proof.
  assert (NoDup (url <$> [health_advisor])) as Hnd.
  { apply NoDup_singleton. }
  split; [exact Hnd|].
  exact (proj2 (remove_duplicates_idempotent [health_advisor]) Hnd).
Defined.

(** X2. Removing duplicates loses no url: a url is carried by a posting
    of the result exactly when a posting of the input carries it; and the
    result is never longer than the input. *)
Theorem remove_duplicates_keeps_every_url (all_jobs : list job) (u : option string) :
  (u ∈ url <$> remove_duplicates all_jobs <-> u ∈ url <$> all_jobs) /\
  length (remove_duplicates all_jobs) <= length all_jobs.
Proof.
  rewrite remove_duplicates_first_occurrences. split.
  - rewrite first_occurrences_urls. set_solver.
  - apply sublist_length, first_occurrences_sublist.
Qed.

(** X3. The postings accumulated for earlier search terms are never
    displaced by those of later terms: the result for [earlier ++ later] is
    the result for [earlier], followed by the result for those postings of
    [later] whose url no posting of [earlier] carries. *)
Theorem remove_duplicates_app (earlier later : list job) :
  remove_duplicates (earlier ++ later) =
  remove_duplicates earlier ++
  remove_duplicates (filter (fun j => url j ∉ url <$> earlier) later).
Proof.
  unfold remove_duplicates at 1. rewrite fold_left_app.
  destruct (fold_left dedup_step earlier ([], ∅)) as [unique_jobs seen] eqn:E.
  rewrite dedup_fold.
  assert (unique_jobs = remove_duplicates earlier) as ->
    by (unfold remove_duplicates; now rewrite E).
  assert (seen = list_to_set (url <$> earlier) ∪ ∅) as ->.
  { rewrite <- (dedup_fold_seen earlier [] ∅). now rewrite E. }
  f_equal. rewrite first_occurrences_filter_seen, remove_duplicates_first_occurrences.
  f_equal. apply list_filter_iff. intros j. set_solver.
Qed.

(** ** The recency classifier, continued *)

Section LowerFacts.

Implicit Types (s p needle hay : string) (c : ascii).

Lemma lower_char_idem c : Py.lower_char (Py.lower_char c) = Py.lower_char c.
Proof. destruct c as [[] [] [] [] [] [] [] []]; reflexivity. Qed.

Lemma lower_idem s : Py.lower (Py.lower s) = Py.lower s.
Proof. induction s as [|c s IH]; simpl; [reflexivity | now rewrite lower_char_idem, IH]. Qed.

Lemma lower_append s1 s2 : Py.lower (s1 +:+ s2) = Py.lower s1 +:+ Py.lower s2.
Proof. induction s1 as [|c s1 IH]; simpl; [reflexivity | now rewrite IH]. Qed.

Lemma lower_empty s : Py.lower s = EmptyString <-> s = EmptyString.
Proof. destruct s; simpl; split; congruence. Qed.

Lemma startswith_append needle hay after :
  Py.startswith needle hay = true -> Py.startswith needle (hay +:+ after) = true.
Proof.
  revert hay. induction needle as [|a needle IH]; intros [|b hay]; simpl; try easy.
  intros [-> H]%andb_prop. simpl. now apply IH.
Qed.

Lemma str_in_append_r needle hay after :
  Py.str_in needle hay = true -> Py.str_in needle (hay +:+ after) = true.
Proof.
  induction hay as [|b hay IH]; simpl.
  - rewrite orb_false_r. destruct needle; [|discriminate]. intros _.
    destruct after; reflexivity.
  - intros [H|H]%orb_prop; apply orb_true_iff.
    + left. now apply (startswith_append needle (String b hay)).
    + right. now apply IH.
Qed.

Lemma str_in_append_l needle before hay :
  Py.str_in needle hay = true -> Py.str_in needle (before +:+ hay) = true.
Proof.
  intros H. induction before as [|b before IH]; simpl; [exact H|].
  apply orb_true_iff. now right.
Qed.

Lemma str_in_context needle before hay after :
  Py.str_in needle hay = true ->
  Py.str_in needle (before +:+ hay +:+ after) = true.
Proof. intros H. now apply str_in_append_l, str_in_append_r. Qed.

End LowerFacts.

Lemma is_recent_job_answer clock (text : string) (st : state) :
  fst (is_recent_job clock (Some text) st) =
  inr (existsb (fun phrase => Py.str_in phrase (Py.lower text)) recent_phrases).
Proof.
  destruct (String.eqb_spec text EmptyString) as [->|Hne]; [reflexivity|].
  now rewrite is_recent_job_phrases.
Qed.

(** X4. The answer of the classifier depends on the text alone: neither
    the clock nor the state of the run changes it, and it is the answer of
    the six phrases on the lowercased text. *)
Theorem is_recent_job_ignores_clock (clock clock' : nat -> datetime)
    (text : string) (st st' : state) :
  fst (is_recent_job clock (Some text) st) = fst (is_recent_job clock' (Some text) st') /\
  fst (is_recent_job clock (Some text) st) =
  inr (existsb (fun phrase => Py.str_in phrase (Py.lower text)) recent_phrases).
Proof. rewrite !is_recent_job_answer. auto. Qed.

(** X5. The classifier is blind to the case of letters: two texts with
    the same lowercase form get the same answer, so a text and its
    lowercase form do. *)
Theorem is_recent_job_case_blind (clock : nat -> datetime) (text text' : string)
    (st : state) (Hcase : Py.lower text = Py.lower text') :
  fst (is_recent_job clock (Some text) st) = fst (is_recent_job clock (Some text') st) /\
  fst (is_recent_job clock (Some (Py.lower text)) st) =
  fst (is_recent_job clock (Some text) st).
Proof. rewrite !is_recent_job_answer, lower_idem, Hcase. auto. Qed.

Lemma is_recent_job_case_blind_witness :
  Py.lower "Posted TODAY" = Py.lower "posted Today" /\
  fst (is_recent_job clock_5_jan_2025 (Some "Posted TODAY") initial) =
  fst (is_recent_job clock_5_jan_2025 (Some "posted Today") initial).
Proof.
  split; [reflexivity|].
  apply (is_recent_job_case_blind clock_5_jan_2025 "Posted TODAY" "posted Today" initial).
  reflexivity.
Defined.

(** X6. A text that holds a recent text is recent: whatever stands
    before and after a text the classifier accepts, the whole is accepted
    (so "36 hours ago" and "not posted today" are recent). *)
Theorem is_recent_job_in_context (clock : nat -> datetime)
    (before text after : string) (st st' : state)
    (Hrecent : fst (is_recent_job clock (Some text) st) = inr true) :
  fst (is_recent_job clock (Some (before +:+ text +:+ after)) st') = inr true.
Proof.
  rewrite is_recent_job_answer in *. f_equal.
  match type of Hrecent with inr ?e = _ => assert (e = true) as H by congruence end.
  apply existsb_exists in H as (phrase & Hin & Hphrase).
  apply existsb_exists. exists phrase. split; [exact Hin|].
  rewrite !lower_append. now apply str_in_context.
Qed.

Lemma is_recent_job_in_context_witness :
  fst (is_recent_job clock_5_jan_2025 (Some "hours ago") initial) = inr true /\
  fst (is_recent_job clock_5_jan_2025 (Some ("36 " +:+ "hours ago" +:+ ", closed"))
         initial) = inr true.
Proof.
  assert (fst (is_recent_job clock_5_jan_2025 (Some "hours ago") initial) = inr true)
    as H by reflexivity.
  split; [exact H|].
  exact (is_recent_job_in_context clock_5_jan_2025 "36 " "hours ago" ", closed"
           initial initial H).
Defined.

(** ** The scorer, continued *)

Lemma threshold_is_five_of_23 (m : nat) :
  Qle_bool Simple.threshold (ratio m 23) = (5 <=? m)%nat.
Proof.
  unfold Qle_bool, ratio, Simple.threshold. cbn [Qnum Qden].
  destruct (Nat.leb_spec 5 m); [apply Z.leb_le | apply Z.leb_gt]; simpl; lia.
Qed.

Lemma threshold_is_five_of_16 (m : nat) :
  Qle_bool Enhanced.threshold (ratio m 16) = (5 <=? m)%nat.
Proof.
  unfold Qle_bool, ratio, Enhanced.threshold. cbn [Qnum Qden].
  destruct (Nat.leb_spec 5 m); [apply Z.leb_le | apply Z.leb_gt]; simpl; lia.
Qed.

(** X7. A posting passes the scorer exactly when at least five entries of
    the keyword list occur in its lowercased text: five of 23 in fn.py (the
    threshold 0.2), five of 16 in branch.py (the threshold 0.3). *)
Theorem five_matches_pass (jobs : list job) :
  Simple.filter_public_health_jobs jobs =
    map (scored Simple.public_health_keywords Simple.threshold Simple.job_text)
      (List.filter
         (fun j => (5 <=? count_matches Simple.public_health_keywords
                            (Py.lower (Simple.job_text j)))%nat) jobs) /\
  Enhanced.filter_public_health_jobs jobs =
    map (scored Enhanced.public_health_keywords Enhanced.threshold Enhanced.job_text)
      (List.filter
         (fun j => (5 <=? count_matches Enhanced.public_health_keywords
                            (Py.lower (Enhanced.job_text j)))%nat) jobs).
Proof.
  rewrite simple_filter_eq, enhanced_filter_eq. split; f_equal; apply List.filter_ext.
  - intros j. apply threshold_is_five_of_23.
  - intros j. apply threshold_is_five_of_16.
Qed.

Lemma unscored_scored keywords threshold text_of j :
  unscored (scored keywords threshold text_of j) = unscored j.
Proof. reflexivity. Qed.

Lemma map_unscored_scored keywords threshold text_of (jobs : list job) :
  map unscored (map (scored keywords threshold text_of) jobs) = map unscored jobs.
Proof. rewrite List.map_map. apply List.map_ext. intros j. apply unscored_scored. Qed.

Lemma sublist_list_filter {A} (f : A -> bool) (l : list A) : sublist (List.filter f l) l.
Proof.
  induction l as [|x l IH]; simpl; [constructor|].
  destruct (f x); [apply sublist_skip | apply sublist_cons]; exact IH.
Qed.

Lemma sublist_map {A B} (f : A -> B) (l1 l2 : list A) :
  sublist l1 l2 -> sublist (map f l1) (map f l2).
Proof. induction 1; simpl; constructor; assumption. Qed.

(** X8. The scorer touches nothing but the score and the flag: apart from
    these two keys, the list it was given holds the same postings in the
    same order after the call, and the list it returns is a selection of
    them in that order. *)
Theorem scorer_keeps_postings (jobs : list job) :
  map unscored (fst (Simple.score_jobs jobs)) = map unscored jobs /\
  sublist (map unscored (Simple.filter_public_health_jobs jobs)) (map unscored jobs) /\
  map unscored (fst (Enhanced.score_jobs jobs)) = map unscored jobs /\
  sublist (map unscored (Enhanced.filter_public_health_jobs jobs)) (map unscored jobs).
Proof.
  rewrite simple_filter_eq, enhanced_filter_eq.
  unfold Simple.score_jobs, Enhanced.score_jobs. rewrite !score_fold. cbn [fst].
  rewrite !app_nil_l, !map_unscored_scored.
  repeat split; apply sublist_map, sublist_list_filter.
Qed.

Lemma raw_score_scored (keywords keywords' : list string) (threshold' : Q)
    (text_of text_of' : job -> string) (j : job) :
  (forall k, text_of (scored keywords' threshold' text_of' k) = text_of k) ->
  raw_score keywords text_of (scored keywords' threshold' text_of' j) =
  raw_score keywords text_of j.
Proof. intros H. unfold raw_score. now rewrite H. Qed.

Lemma scored_scored (keywords : list string) (threshold : Q)
    (text_of : job -> string) (j : job) :
  (forall k, text_of (scored keywords threshold text_of k) = text_of k) ->
  scored keywords threshold text_of (scored keywords threshold text_of j) =
  scored keywords threshold text_of j.
Proof.
  intros H. unfold scored at 1. rewrite raw_score_scored by exact H. reflexivity.
Qed.

Lemma score_jobs_again (keywords : list string) (threshold : Q)
    (text_of : job -> string) (jobs : list job) :
  (forall k, text_of (scored keywords threshold text_of k) = text_of k) ->
  fold_left (score_step keywords threshold text_of)
    (fst (fold_left (score_step keywords threshold text_of) jobs ([], []))) ([], []) =
  fold_left (score_step keywords threshold text_of) jobs ([], []).
Proof.
  intros H. rewrite !score_fold. cbn [fst]. rewrite !app_nil_l. f_equal.
  - rewrite List.map_map. apply List.map_ext. intros j. now apply scored_scored.
  - induction jobs as [|j jobs IH]; [reflexivity|]. cbn [map List.filter].
    rewrite raw_score_scored by exact H.
    destruct (Qle_bool threshold (raw_score keywords text_of j)); cbn [map];
      rewrite IH; [rewrite scored_scored by exact H|]; reflexivity.
Qed.

(** X9. Scoring is stable: scoring the postings the scorer has already
    tagged gives the same tags and returns the same postings, and filtering
    what it returned returns it again. *)
Theorem scoring_again_changes_nothing (jobs : list job) :
  Simple.score_jobs (fst (Simple.score_jobs jobs)) = Simple.score_jobs jobs /\
  Simple.filter_public_health_jobs (Simple.filter_public_health_jobs jobs) =
    Simple.filter_public_health_jobs jobs /\
  Enhanced.score_jobs (fst (Enhanced.score_jobs jobs)) = Enhanced.score_jobs jobs /\
  Enhanced.filter_public_health_jobs (Enhanced.filter_public_health_jobs jobs) =
    Enhanced.filter_public_health_jobs jobs.
Proof.
  assert (forall (keywords : list string) (threshold : Q) (text_of : job -> string)
            (l : list job),
            (forall k, text_of (scored keywords threshold text_of k) = text_of k) ->
            snd (fold_left (score_step keywords threshold text_of)
                   (snd (fold_left (score_step keywords threshold text_of) l ([], [])))
                   ([], [])) =
            snd (fold_left (score_step keywords threshold text_of) l ([], []))) as Hsnd.
  { intros keywords threshold text_of l H. rewrite !score_fold. cbn [snd].
    rewrite !app_nil_l.
    induction l as [|j l IH]; [reflexivity|]. cbn [List.filter].
    destruct (Qle_bool threshold (raw_score keywords text_of j)) eqn:E; [|exact IH].
    cbn [map List.filter]. rewrite raw_score_scored by exact H. rewrite E.
    cbn [map]. rewrite scored_scored by exact H. now rewrite IH. }
  unfold Simple.filter_public_health_jobs, Enhanced.filter_public_health_jobs,
    Simple.score_jobs, Enhanced.score_jobs.
  repeat split.
  - apply score_jobs_again. reflexivity.
  - apply Hsnd. reflexivity.
  - apply score_jobs_again. reflexivity.
  - apply Hsnd. reflexivity.
Qed.

Lemma scores_of_23 (m : nat) :
  m <= 23 ->
  if (5 <=? m)%nat then (22 # 100 <= round2 (ratio m 23))%Q
  else (round2 (ratio m 23) <= 17 # 100)%Q.
Proof.
  intros Hm.
  assert (forallb (fun m => if (5 <=? m)%nat
                            then Qle_bool (22 # 100) (round2 (ratio m 23))
                            else Qle_bool (round2 (ratio m 23)) (17 # 100))
            (seq 0 24) = true) as Hall by (vm_compute; reflexivity).
  rewrite forallb_forall in Hall. specialize (Hall m).
  destruct (5 <=? m)%nat; apply Qle_bool_iff, Hall, in_seq; lia.
Qed.

Lemma scores_of_16 (m : nat) :
  m <= 16 ->
  if (5 <=? m)%nat then (31 # 100 <= round2 (ratio m 16))%Q
  else (round2 (ratio m 16) <= 25 # 100)%Q.
Proof.
  intros Hm.
  assert (forallb (fun m => if (5 <=? m)%nat
                            then Qle_bool (31 # 100) (round2 (ratio m 16))
                            else Qle_bool (round2 (ratio m 16)) (25 # 100))
            (seq 0 17) = true) as Hall by (vm_compute; reflexivity).
  rewrite forallb_forall in Hall. specialize (Hall m).
  destruct (5 <=? m)%nat; apply Qle_bool_iff, Hall, in_seq; lia.
Qed.

(** X10. The scores the scorer leaves fall into two ranges.  In fn.py a
    posting it returns is flagged true and scored at least 0.22, a posting
    it tags and drops is flagged false and scored at most 0.17; in
    branch.py the two ranges are at least 0.31 and at most 0.25.  The
    postings returned are among the postings tagged. *)
Theorem score_ranges (jobs : list job) (j : job) :
  (In j (Simple.filter_public_health_jobs jobs) ->
   In j (fst (Simple.score_jobs jobs)) /\ is_public_health j = Some true /\
   exists s, relevance_score j = Some s /\ (22 # 100 <= s)%Q) /\
  (In j (fst (Simple.score_jobs jobs)) ->
   ~ In j (Simple.filter_public_health_jobs jobs) ->
   is_public_health j = Some false /\
   exists s, relevance_score j = Some s /\ (s <= 17 # 100)%Q) /\
  (In j (Enhanced.filter_public_health_jobs jobs) ->
   In j (fst (Enhanced.score_jobs jobs)) /\ is_public_health j = Some true /\
   exists s, relevance_score j = Some s /\ (31 # 100 <= s)%Q) /\
  (In j (fst (Enhanced.score_jobs jobs)) ->
   ~ In j (Enhanced.filter_public_health_jobs jobs) ->
   is_public_health j = Some false /\
   exists s, relevance_score j = Some s /\ (s <= 25 # 100)%Q).
Proof.
  rewrite simple_filter_eq, enhanced_filter_eq.
  unfold Simple.score_jobs, Enhanced.score_jobs. rewrite !score_fold. cbn [fst].
  rewrite !app_nil_l. repeat apply conj.
  - intros (j0 & <- & [Hj0 Hpass]%List.filter_In)%List.in_map_iff.
    split; [apply List.in_map; exact Hj0|].
    cbn [is_public_health relevance_score scored set_relevance].
    split; [now rewrite Hpass|]. eexists. split; [reflexivity|].
    pose proof (scores_of_23 _ (count_matches_le Simple.public_health_keywords
                                  (Py.lower (Simple.job_text j0)))) as H.
    unfold raw_score in *. change (length Simple.public_health_keywords) with 23 in *.
    rewrite threshold_is_five_of_23 in Hpass. now rewrite Hpass in H.
  - intros (j0 & <- & Hj0)%List.in_map_iff Hdropped.
    destruct (Qle_bool Simple.threshold
                (raw_score Simple.public_health_keywords Simple.job_text j0)) eqn:Hpass.
    { destruct Hdropped. apply List.in_map, List.filter_In. auto. }
    cbn [is_public_health relevance_score scored set_relevance].
    split; [now rewrite Hpass|]. eexists. split; [reflexivity|].
    pose proof (scores_of_23 _ (count_matches_le Simple.public_health_keywords
                                  (Py.lower (Simple.job_text j0)))) as H.
    unfold raw_score in *. change (length Simple.public_health_keywords) with 23 in *.
    rewrite threshold_is_five_of_23 in Hpass. now rewrite Hpass in H.
  - intros (j0 & <- & [Hj0 Hpass]%List.filter_In)%List.in_map_iff.
    split; [apply List.in_map; exact Hj0|].
    cbn [is_public_health relevance_score scored set_relevance].
    split; [now rewrite Hpass|]. eexists. split; [reflexivity|].
    pose proof (scores_of_16 _ (count_matches_le Enhanced.public_health_keywords
                                  (Py.lower (Enhanced.job_text j0)))) as H.
    unfold raw_score in *. change (length Enhanced.public_health_keywords) with 16 in *.
    rewrite threshold_is_five_of_16 in Hpass. now rewrite Hpass in H.
  - intros (j0 & <- & Hj0)%List.in_map_iff Hdropped.
    destruct (Qle_bool Enhanced.threshold
                (raw_score Enhanced.public_health_keywords Enhanced.job_text j0)) eqn:Hpass.
    { destruct Hdropped. apply List.in_map, List.filter_In. auto. }
    cbn [is_public_health relevance_score scored set_relevance].
    split; [now rewrite Hpass|]. eexists. split; [reflexivity|].
    pose proof (scores_of_16 _ (count_matches_le Enhanced.public_health_keywords
                                  (Py.lower (Enhanced.job_text j0)))) as H.
    unfold raw_score in *. change (length Enhanced.public_health_keywords) with 16 in *.
    rewrite threshold_is_five_of_16 in Hpass. now rewrite Hpass in H.
Qed.

Lemma score_ranges_witness :
  (In (scored Simple.public_health_keywords Simple.threshold Simple.job_text data_officer)
     (Simple.filter_public_health_jobs [health_advisor; data_officer]) /\
   is_public_health
     (scored Simple.public_health_keywords Simple.threshold Simple.job_text data_officer) =
   Some true) /\
  (In (scored Simple.public_health_keywords Simple.threshold Simple.job_text health_advisor)
     (fst (Simple.score_jobs [health_advisor; data_officer])) /\
   ~ In (scored Simple.public_health_keywords Simple.threshold Simple.job_text
           health_advisor)
       (Simple.filter_public_health_jobs [health_advisor; data_officer]) /\
   is_public_health
     (scored Simple.public_health_keywords Simple.threshold Simple.job_text health_advisor) =
   Some false).
Proof.
  assert (In (scored Simple.public_health_keywords Simple.threshold Simple.job_text
                data_officer)
            (Simple.filter_public_health_jobs [health_advisor; data_officer])) as Hkept
    by (vm_compute; left; reflexivity).
  assert (In (scored Simple.public_health_keywords Simple.threshold Simple.job_text
                health_advisor)
            (fst (Simple.score_jobs [health_advisor; data_officer]))) as Htagged
    by (left; reflexivity).
  assert (~ In (scored Simple.public_health_keywords Simple.threshold Simple.job_text
                  health_advisor)
              (Simple.filter_public_health_jobs [health_advisor; data_officer]))
    as Hdropped by (vm_compute; intros [H|[]]; discriminate H).
  destruct (score_ranges [health_advisor; data_officer]
              (scored Simple.public_health_keywords Simple.threshold Simple.job_text
                 data_officer)) as (Hin & _).
  destruct (score_ranges [health_advisor; data_officer]
              (scored Simple.public_health_keywords Simple.threshold Simple.job_text
                 health_advisor)) as (_ & Hout & _).
  split.
  - split; [exact Hkept|]. exact (proj1 (proj2 (Hin Hkept))).
  - split; [exact Htagged|]. split; [exact Hdropped|].
    exact (proj1 (Hout Htagged Hdropped)).
Defined.

(** X11. The scorer is blind to the case of letters, and reads two fields
    only.  In fn.py two postings whose titles and organizations agree in
    lowercase get the same score and the same flag, whatever else they
    hold; in branch.py the same goes for two postings whose titles and
    descriptions agree in lowercase. *)
Theorem scoring_case_blind (j j' : job)
    (Htitle : Py.lower (title j) = Py.lower (title j')) :
  (Py.lower (organization j) = Py.lower (organization j') ->
   map (fun k => (relevance_score k, is_public_health k))
     (fst (Simple.score_jobs [j])) =
   map (fun k => (relevance_score k, is_public_health k))
     (fst (Simple.score_jobs [j']))) /\
  (Py.lower (default "" (description j)) = Py.lower (default "" (description j')) ->
   map (fun k => (relevance_score k, is_public_health k))
     (fst (Enhanced.score_jobs [j])) =
   map (fun k => (relevance_score k, is_public_health k))
     (fst (Enhanced.score_jobs [j']))).
Proof.
  unfold Simple.score_jobs, Enhanced.score_jobs. rewrite !score_fold. cbn [fst map app].
  unfold scored, raw_score, Simple.job_text, Enhanced.job_text.
  cbn [relevance_score is_public_health set_relevance].
  rewrite !lower_append, Htitle.
  split; [intros Horg; rewrite Horg | intros Hdesc; rewrite Hdesc]; reflexivity.
Qed.

Lemma scoring_case_blind_witness :
  map (fun k => (relevance_score k, is_public_health k))
    (fst (Simple.score_jobs [described "HEALTH DATA" "Who" (Some "Nutrition surveys")])) =
  map (fun k => (relevance_score k, is_public_health k))
    (fst (Simple.score_jobs [described "health data" "WHO" None])) /\
  map (fun k => (relevance_score k, is_public_health k))
    (fst (Enhanced.score_jobs [described "HEALTH DATA" "Who" (Some "Nutrition SURVEYS")])) =
  map (fun k => (relevance_score k, is_public_health k))
    (fst (Enhanced.score_jobs [described "health data" "Unicef" (Some "nutrition surveys")])).
Proof.
  split.
  - apply (scoring_case_blind (described "HEALTH DATA" "Who" (Some "Nutrition surveys"))
             (described "health data" "WHO" None)); reflexivity.
  - apply (scoring_case_blind (described "HEALTH DATA" "Who" (Some "Nutrition SURVEYS"))
             (described "health data" "Unicef" (Some "nutrition surveys"))); reflexivity.
Defined.

(** ** The adapters, item by item *)

Section Collect.

Context {A B : Type} (proj : job -> B) (Q : job -> Prop) (g : A -> option B).
Context (body : A -> list job -> M (list job)).

Hypothesis body_appends :
  forall x acc st,
    yields (body x acc) st (fun r st' => appended proj Q (g x) acc r /\ quiet st st').

Lemma for_each_collect (l : list A) (acc : list job) (st : state) :
  yields (for_each l body acc) st
    (fun r st' => collected proj Q (omap g l) acc r /\ quiet st st').
Proof.
  revert acc st. induction l as [|x l IH]; intros acc st; cbn [for_each omap list_omap].
  - exists acc, st. split; [reflexivity|]. split; [|reflexivity].
    exists []. rewrite app_nil_r. auto.
  - destruct (body_appends x acc st) as (r & st1 & Hr & Hx & Hq).
    destruct (IH r st1) as (r' & st2 & Hr' & (new & -> & Hproj & HQ) & Hq').
    exists (r ++ new), st2. split; [unfold bind; now rewrite Hr|].
    split; [|etransitivity; eassumption].
    unfold appended in Hx. destruct (g x) as [v|].
    + destruct Hx as (j & -> & Hv & Hj). exists (j :: new).
      rewrite <- app_assoc. cbn [map]. rewrite Hv, Hproj. auto.
    + subst r. exists new. auto.
Qed.

End Collect.

Lemma startswith_prefix (prefix s : string) : Py.startswith prefix (prefix +:+ s) = true.
Proof.
  induction prefix as [|c prefix IH]; [reflexivity|]. simpl.
  now rewrite Ascii.eqb_refl.
Qed.

Lemma first_source_typed source :
  source_typed source =
  match Simple.first_source source with inr _ => true | inl _ => false end.
Proof. destruct source as [|[|[name|] rest]|]; reflexivity. Qed.

Lemma country_names_typed entries :
  forallb entry_typed entries =
  match Simple.country_names entries with
  | inl _ => false
  | inr names => match Simple.joined names with inr _ => true | inl _ => false end
  end.
Proof.
  induction entries as [|entry entries IH]; [reflexivity|].
  cbn [forallb Simple.country_names]. rewrite IH.
  destruct entry as [[[s|printed truthy]|]|]; cbn [entry_typed andb]; try reflexivity.
  - destruct (Simple.country_names entries) as [e|names]; [reflexivity|].
    cbn [default Simple.joined]. now destruct (Simple.joined names).
  - now destruct (Simple.country_names entries).
  - destruct (Simple.country_names entries) as [e|names]; [reflexivity|].
    cbn [default Simple.joined]. now destruct (Simple.joined names).
Qed.

Lemma scrape_reliefweb_item_appends w term item jobs st :
  yields (Simple.scrape_reliefweb_item w term item jobs) st
    (fun r st' =>
       appended url
         (fun j => fresh_posting "reliefweb" term j /\
                   url_starts_with "https://reliefweb.int" j)
         ((fun id => Some ("https://reliefweb.int/job/" +:+ id)) <$> item_id item)
         jobs r /\ quiet st st').
Proof.
  assert (forall (id : string) (b : bool) (j0 : job) (st' : state),
            quiet st st' ->
            source j0 = "reliefweb" -> search_term j0 = Some term ->
            description j0 = None -> relevance_score j0 = None ->
            is_public_health j0 = None ->
            url j0 = Some ("https://reliefweb.int/job/" +:+ id) ->
            exists r st'',
              (inr (jobs ++ [set_is_recent b j0]) : exn + list job, st') = (inr r, st'') /\
              appended url
                (fun j => fresh_posting "reliefweb" term j /\
                          url_starts_with "https://reliefweb.int" j)
                (Some (Some ("https://reliefweb.int/job/" +:+ id))) jobs r /\
              quiet st st'') as Hkeep.
  { intros id b j0 st' Hq H1 H2 H3 H4 H5 H6.
    eexists _, _. split; [reflexivity|]. split; [|exact Hq].
    eexists. split; [reflexivity|]. split; [exact H6|].
    split; [repeat split; eauto|].
    eexists. split; [exact H6|].
    apply (startswith_prefix "https://reliefweb.int" ("/job/" +:+ id)). }
  assert (forall st', quiet st st' ->
            exists r st'',
              (inr jobs : exn + list job, st') = (inr r, st'') /\
              appended url
                (fun j => fresh_posting "reliefweb" term j /\
                          url_starts_with "https://reliefweb.int" j)
                None jobs r /\
              quiet st st'') as Hskip.
  { intros st' Hq. exists jobs, st'. split; [reflexivity|]. split; [reflexivity | exact Hq]. }
  unfold yields, Simple.scrape_reliefweb_item, try_except, item_id, fields_typed.
  destruct item as [id [|[title source country date]|]|];
    cbv [bind lift ret raise now];
    cbn [Simple.empty_fields Simple.f_title Simple.f_source Simple.f_country Simple.f_date
         Simple.first_source Simple.country_names Simple.joined].
  - (* no [fields] *)
    destruct id as [id|]; [|apply Hskip; reflexivity].
    cbn [Simple.is_recent_text fmap option_fmap option_map].
    destruct (is_recent_job_quiet (Simple.clock w) (Some "Unknown")
                (mk_state (trace st) (S (ticks st)))) as (b & st' & -> & Hq).
    apply (Hkeep id); try reflexivity. exact Hq.
  - rewrite first_source_typed.
    destruct (Simple.first_source source) as [e|organization];
      [destruct id; apply Hskip; reflexivity|].
    destruct country as [|entries|]; cbn [country_typed andb];
      [|rewrite country_names_typed|destruct id; apply Hskip; reflexivity].
    + cbn [Simple.country_names Simple.joined].
      destruct id as [id|]; [|apply Hskip; reflexivity].
      destruct date as [|[[s|printed [|]]|]|]; cbn [date_typed fmap option_fmap option_map
                                                    Simple.is_recent_text];
        try (apply Hskip; reflexivity).
      all: match goal with |- context [is_recent_job ?c ?d ?s] =>
             destruct (is_recent_job_quiet c d s) as (b & st' & -> & Hq) end.
      all: apply (Hkeep id); try reflexivity; exact Hq.
    + destruct (Simple.country_names entries) as [e|names];
        [destruct id; apply Hskip; reflexivity|].
      destruct (Simple.joined names) as [e|texts];
        [destruct id; apply Hskip; reflexivity|].
      cbn [andb].
      destruct id as [id|]; [|apply Hskip; reflexivity].
      destruct date as [|[[s|printed [|]]|]|]; cbn [date_typed fmap option_fmap option_map
                                                    Simple.is_recent_text];
        try (apply Hskip; reflexivity).
      all: match goal with |- context [is_recent_job ?c ?d ?s] =>
             destruct (is_recent_job_quiet c d s) as (b & st' & -> & Hq) end.
      all: apply (Hkeep id); try reflexivity; exact Hq.
  - destruct id; apply Hskip; reflexivity.
  - apply Hskip; reflexivity.
Qed.

Lemma scrape_reliefweb_html_item_appends w term job_element jobs st :
  yields (Simple.scrape_reliefweb_html_item w term job_element jobs) st
    (fun r st' =>
       appended title_url
         (fun j => fresh_posting "reliefweb" term j /\
                   url_starts_with "https://reliefweb.int" j)
         (article_title_url job_element) jobs r /\ quiet st st').
Proof.
  unfold yields, Simple.scrape_reliefweb_html_item, try_except, article_title_url.
  destruct (Simple.rw_h3 job_element) as [[title_elem|]|]; unfold ret;
    try (exists jobs, st; split; [reflexivity|]; split; reflexivity).
  unfold bind, now.
  match goal with |- context [is_recent_job ?c ?d ?s] =>
    destruct (is_recent_job_quiet c d s) as (b & st' & -> & Hq) end.
  eexists _, _. split; [reflexivity|]. split; [|exact Hq].
  eexists. split; [reflexivity|]. split; [reflexivity|].
  split; [repeat split; eauto|].
  eexists. split; [reflexivity|]. apply startswith_prefix.
Qed.

Lemma scrape_devex_item_appends w term job_element jobs st :
  yields (Simple.scrape_devex_item w term job_element jobs) st
    (fun r st' =>
       appended title (fun j => fresh_posting "devex" term j /\ devex_posting j)
         (devex_title job_element) jobs r /\ quiet st st').
Proof.
  unfold yields, Simple.scrape_devex_item, try_except, devex_title.
  destruct (Simple.dx_h3 job_element) as [h3|]; [|destruct (Simple.dx_h2 job_element) as [h2|]];
    unfold ret, bind, now;
    try (exists jobs, st; split; [reflexivity|]; split; reflexivity).
  all: eexists _, _; (split; [reflexivity|]); split; [|reflexivity].
  all: eexists; split; [reflexivity|]; split; [reflexivity|].
  all: split; [repeat split; eauto|].
  all: repeat split; eexists; (split; [reflexivity|]).
  all: match goal with |- context [if ?c then _ else _] => destruct c eqn:E end.
  all: try (right; apply (startswith_prefix "http" _)).
  all: apply andb_false_iff in E as [E|E]; apply negb_false_iff in E;
       [left; now apply String.eqb_eq | right; exact E].
Qed.

Lemma item_loop_collect {A B} (proj : job -> B) (Q : job -> Prop) (g : A -> option B)
    (body : A -> list job -> M (list job)) (l : list A) (st : state) :
  (forall x acc st0,
     yields (body x acc) st0
       (fun r st' => appended proj Q (g x) acc r /\ quiet st0 st')) ->
  yields (for_each l body []) st
    (fun r st' => map proj r = omap g l /\ Forall Q r /\ quiet st st').
Proof.
  intros Hbody.
  destruct (for_each_collect proj Q g body Hbody l [] st)
    as (r & st' & Hr & (new & -> & Hproj & HQ) & Hq).
  exists ([] ++ new), st'. auto.
Qed.

Lemma scrape_reliefweb_html_collects w term max_jobs st :
  yields (Simple.scrape_reliefweb_html w term max_jobs) st
    (fun r _ =>
       map title_url r = omap article_title_url (take max_jobs (html_articles w term)) /\
       Forall (fun j => fresh_posting "reliefweb" term j /\
                        url_starts_with "https://reliefweb.int" j) r).
Proof.
  cbv [yields Simple.scrape_reliefweb_html try_except bind Simple.get emit lift
       html_articles].
  destruct (Simple.session_get w _) as [e|response].
  - eexists _, _. split; [reflexivity|]. rewrite take_nil. split; [reflexivity | constructor].
  - match goal with |- context [for_each ?l ?b [] ?s] =>
      destruct (item_loop_collect title_url _ article_title_url b l s
                  (scrape_reliefweb_html_item_appends w term))
        as (r & st' & -> & Hproj & HQ & _)
    end.
    exists r, st'. auto.
Qed.

Lemma scrape_reliefweb_collects w term max_jobs st :
  api_path_raises w term max_jobs = false ->
  yields (Simple.scrape_reliefweb w term max_jobs) st
    (fun r _ =>
       map url r =
         map (fun id => Some ("https://reliefweb.int/job/" +:+ id))
           (omap item_id (take max_jobs (api_items w term max_jobs))) /\
       Forall (fun j => fresh_posting "reliefweb" term j /\
                        url_starts_with "https://reliefweb.int" j) r).
Proof.
  cbv [api_path_raises api_items yields Simple.scrape_reliefweb try_except bind Simple.get
       emit lift Simple.raise_for_status Simple.data_items].
  destruct (Simple.session_get w _) as [e|response]; [discriminate|].
  destruct ((400 <=? Simple.status_code response)%nat &&
            (Simple.status_code response <? 600)%nat); [discriminate|].
  cbv [ret raise orb].
  destruct (Simple.json response) as [e|[[[items|]|]|]]; try discriminate; intros _.
  - match goal with |- context [for_each ?l ?b [] ?s] =>
      destruct (item_loop_collect url _ _ b l s (scrape_reliefweb_item_appends w term))
        as (r & st' & -> & Hproj & HQ & _)
    end.
    exists r, st'. split; [reflexivity|]. split; [|exact HQ].
    rewrite Hproj. clear. induction (take max_jobs items) as [|x l IH]; [reflexivity|].
    cbn [omap list_omap]. destruct (item_id x); cbn; now rewrite IH.
  - rewrite take_nil. eexists _, _. split; [reflexivity|]. split; [reflexivity | constructor].
Qed.

Lemma scrape_devex_collects w term max_jobs st :
  yields (Simple.scrape_devex w term max_jobs) st
    (fun r _ =>
       map title r = omap devex_title (devex_elements w term max_jobs) /\
       Forall (fun j => fresh_posting "devex" term j /\ devex_posting j) r).
Proof.
  cbv [yields Simple.scrape_devex try_except bind Simple.get emit lift devex_elements].
  destruct (Simple.session_get w _) as [e|response].
  - eexists _, _. split; [reflexivity|]. split; [reflexivity | constructor].
  - destruct (take max_jobs (Simple.find_all_job_div (Simple.soup response))) eqn:E.
    + match goal with |- context [for_each ?l ?b [] ?s] =>
        destruct (item_loop_collect title _ devex_title b l s
                    (scrape_devex_item_appends w term))
          as (r & st' & -> & Hproj & HQ & _)
      end.
      exists r, st'. auto.
    + match goal with |- context [for_each ?l ?b [] ?s] =>
        destruct (item_loop_collect title _ devex_title b l s
                    (scrape_devex_item_appends w term))
          as (r & st' & -> & Hproj & HQ & _)
      end.
      exists r, st'. auto.
Qed.

Lemma extract_reliefweb_job_data_exact w job_element st :
  yields (Enhanced.extract_reliefweb_job_data w job_element) st
    (fun r st' =>
       extracted_as "reliefweb" (rw_element_title_url job_element) r /\ quiet st st').
Proof.
  destruct (text_or_total (Enhanced.rw_dd job_element) "Unknown Organization" st) as [o Ho].
  destruct (text_or_total (Enhanced.rw_country job_element) "Multiple Locations" st)
    as [d Hd].
  destruct (text_or_total (Enhanced.rw_time job_element) "Unknown" st) as [t Ht].
  cbv [yields Enhanced.extract_reliefweb_job_data try_except bind Enhanced.find_element
       rw_element_title_url extracted_as].
  destruct (Enhanced.rw_title job_element) as [[text href]|];
    [|eexists _, _; split; [reflexivity | split; reflexivity]].
  cbv [ret]. rewrite Ho, Hd, Ht.
  eexists _, _. split; [reflexivity|]. split; [|reflexivity].
  eexists. repeat split.
Qed.

Lemma extract_unjobs_job_data_exact w job_element st :
  yields (Enhanced.extract_unjobs_job_data w job_element) st
    (fun r st' =>
       extracted_as "unjobs" (un_element_title_url job_element) r /\ quiet st st').
Proof.
  destruct (text_or_total (Enhanced.un_org job_element) "UN Agency" st) as [o Ho].
  destruct (text_or_total (Enhanced.un_duty job_element) "Multiple Duty Stations" st)
    as [d Hd].
  cbv [yields Enhanced.extract_unjobs_job_data try_except bind Enhanced.find_element
       un_element_title_url extracted_as].
  destruct (Enhanced.un_heading job_element) as [h|];
    [|eexists _, _; split; [reflexivity | split; reflexivity]].
  destruct (Enhanced.un_link job_element) as [l|];
    [|eexists _, _; split; [reflexivity | split; reflexivity]].
  cbv [ret]. rewrite Ho, Hd.
  eexists _, _. split; [reflexivity|]. split; [|reflexivity].
  eexists. repeat split.
Qed.

Lemma tag_and_append_exact site w term extracted expected jobs st :
  yields extracted st (fun r st' => extracted_as site expected r /\ quiet st st') ->
  yields (Enhanced.tag_and_append w term extracted jobs) st
    (fun r st' => appended title_url (fresh_posting site term) expected jobs r /\
                  quiet st st').
Proof.
  intros (r & st1 & Hr & Hj & Hq).
  cbv [yields Enhanced.tag_and_append try_except bind]. rewrite Hr.
  unfold extracted_as in Hj. unfold appended. destruct expected as [v|].
  - destruct Hj as (j & -> & Hv & Hs & Hd & Hsc & Hfl).
    match goal with |- context [is_recent_job ?c ?d ?s] =>
      destruct (is_recent_job_quiet c d s) as (b & st' & -> & Hq') end.
    eexists _, _. split; [reflexivity|]. split; [|etransitivity; eassumption].
    eexists. split; [reflexivity|]. split; [exact Hv|].
    repeat split; eauto.
  - subst r. eexists _, _. split; [reflexivity|]. split; [reflexivity | exact Hq].
Qed.

Lemma enhanced_scrape_reliefweb_collects w term max_jobs st :
  yields (Enhanced.scrape_reliefweb w term max_jobs) st
    (fun r _ =>
       map title_url r =
         omap rw_element_title_url (take max_jobs (browser_rw_elements w term)) /\
       Forall (fresh_posting "reliefweb" term) r).
Proof.
  cbv [yields Enhanced.scrape_reliefweb try_except bind Enhanced.get emit lift
       Enhanced.wait_for_article browser_rw_elements].
  destruct (Enhanced.driver_get w _) as [e|p].
  - eexists _, _. split; [reflexivity|]. rewrite take_nil. split; [reflexivity | constructor].
  - destruct (Enhanced.article_present p); cbv [ret raise].
    + match goal with |- context [for_each ?l ?b [] ?s] =>
        destruct (item_loop_collect title_url (fresh_posting "reliefweb" term)
                    rw_element_title_url b l s) as (r & st' & -> & Hproj & HQ & _)
      end.
      { intros x acc st0. apply tag_and_append_exact.
        apply extract_reliefweb_job_data_exact. }
      exists r, st'. auto.
    + eexists _, _. split; [reflexivity|]. rewrite take_nil.
      split; [reflexivity | constructor].
Qed.

Lemma scrape_unjobs_collects w term max_jobs st :
  yields (Enhanced.scrape_unjobs w term max_jobs) st
    (fun r _ =>
       map title_url r =
         omap un_element_title_url (take max_jobs (browser_un_elements w term)) /\
       Forall (fresh_posting "unjobs" term) r).
Proof.
  cbv [yields Enhanced.scrape_unjobs try_except bind Enhanced.get emit lift sleep
       browser_un_elements].
  destruct (Enhanced.driver_get w _) as [e|p].
  - eexists _, _. split; [reflexivity|]. rewrite take_nil. split; [reflexivity | constructor].
  - match goal with |- context [for_each ?l ?b [] ?s] =>
      destruct (item_loop_collect title_url (fresh_posting "unjobs" term)
                  un_element_title_url b l s) as (r & st' & -> & Hproj & HQ & _)
    end.
    { intros x acc st0. apply tag_and_append_exact.
      apply extract_unjobs_job_data_exact. }
    exists r, st'. auto.
Qed.


(** X12. No adapter returns more postings than its [max_jobs], however
    many items or elements the site sends. *)
Theorem adapters_respect_max_jobs (w : Simple.World) (w' : Enhanced.World)
    (term : string) (max_jobs : nat) (st : state) :
  yields (Simple.scrape_reliefweb w term max_jobs) st
    (fun r _ => length r <= max_jobs) /\
  yields (Simple.scrape_reliefweb_html w term max_jobs) st
    (fun r _ => length r <= max_jobs) /\
  yields (Simple.scrape_devex w term max_jobs) st
    (fun r _ => length r <= max_jobs) /\
  yields (Enhanced.scrape_reliefweb w' term max_jobs) st
    (fun r _ => length r <= max_jobs) /\
  yields (Enhanced.scrape_unjobs w' term max_jobs) st
    (fun r _ => length r <= max_jobs).
Proof.
  repeat split.
  - destruct (scrape_reliefweb_spec w term max_jobs st) as (r & st' & H & _ & Hlen).
    exists r, st'. auto.
  - destruct (scrape_reliefweb_html_spec w term max_jobs st) as (r & st' & H & _ & Hlen & _).
    exists r, st'. auto.
  - destruct (scrape_devex_spec w term max_jobs st) as (r & st' & H & _ & Hlen & _).
    exists r, st'. auto.
  - destruct (enhanced_scrape_reliefweb_spec w' term max_jobs st)
      as (r & st' & H & _ & Hlen & _).
    exists r, st'. auto.
  - destruct (scrape_unjobs_spec w' term max_jobs st) as (r & st' & H & _ & Hlen & _).
    exists r, st'. auto.
Qed.

(** Seven elements on the page, a limit of three *)
Example three_of_seven_elements :
  length
    (result_of []
       (Enhanced.scrape_unjobs
          (Enhanced.mk_World (inr tt)
             (fun _ =>
                inr (Enhanced.mk_page false []
                       (replicate 7
                          (Enhanced.mk_un_element (Some "Nurse")
                             (Some (Some "https://unjobs.org/vacancies/2")) None None))))
             clock_5_jan_2025)
          "health" 3 initial)) = 3.
Proof. vm_compute. reflexivity. Qed.

Lemma simple_scrape_reliefweb_shape w term max_jobs st :
  yields (Simple.scrape_reliefweb w term max_jobs) st
    (fun r _ =>
       Forall (fun j => fresh_posting "reliefweb" term j /\
                        url_starts_with "https://reliefweb.int" j) r).
Proof.
  destruct (api_path_raises w term max_jobs) eqn:E.
  - pose proof (scrape_reliefweb_paths w term max_jobs st) as H. rewrite E in H.
    unfold yields. rewrite H.
    destruct (scrape_reliefweb_html_collects w term max_jobs
                (requested (Simple.reliefweb_api_url term max_jobs) st))
      as (r & st' & Hr & _ & HQ).
    exists r, st'. auto.
  - destruct (scrape_reliefweb_collects w term max_jobs st E) as (r & st' & Hr & _ & HQ).
    exists r, st'. auto.
Qed.

(** X13. Every posting an adapter returns carries the name of its site as
    [source], the term it was searched under as [search_term] and a recency
    flag; it has no description and is not scored yet. *)
Theorem adapter_postings_fresh (w : Simple.World) (w' : Enhanced.World)
    (term : string) (max_jobs : nat) (st : state) :
  yields (Simple.scrape_reliefweb w term max_jobs) st
    (fun r _ => Forall (fresh_posting "reliefweb" term) r) /\
  yields (Simple.scrape_reliefweb_html w term max_jobs) st
    (fun r _ => Forall (fresh_posting "reliefweb" term) r) /\
  yields (Simple.scrape_devex w term max_jobs) st
    (fun r _ => Forall (fresh_posting "devex" term) r) /\
  yields (Enhanced.scrape_reliefweb w' term max_jobs) st
    (fun r _ => Forall (fresh_posting "reliefweb" term) r) /\
  yields (Enhanced.scrape_unjobs w' term max_jobs) st
    (fun r _ => Forall (fresh_posting "unjobs" term) r).
Proof.
  repeat split.
  - destruct (simple_scrape_reliefweb_shape w term max_jobs st) as (r & st' & H & HQ).
    exists r, st'. split; [exact H|]. eapply List.Forall_impl; [|exact HQ]. intros j [? ?]; assumption.
  - destruct (scrape_reliefweb_html_collects w term max_jobs st) as (r & st' & H & _ & HQ).
    exists r, st'. split; [exact H|]. eapply List.Forall_impl; [|exact HQ]. intros j [? ?]; assumption.
  - destruct (scrape_devex_collects w term max_jobs st) as (r & st' & H & _ & HQ).
    exists r, st'. split; [exact H|]. eapply List.Forall_impl; [|exact HQ]. intros j [? ?]; assumption.
  - destruct (enhanced_scrape_reliefweb_collects w' term max_jobs st)
      as (r & st' & H & _ & HQ).
    exists r, st'. auto.
  - destruct (scrape_unjobs_collects w' term max_jobs st) as (r & st' & H & _ & HQ).
    exists r, st'. auto.
Qed.

(** X14. Every Devex posting is flagged recent without the classifier
    being asked, has the date text "Recent" and the location "Global", and
    its url is empty or starts with "http". *)
Theorem devex_postings_shape (w : Simple.World) (term : string) (max_jobs : nat)
    (st : state) :
  yields (Simple.scrape_devex w term max_jobs) st (fun r _ => Forall devex_posting r).
Proof.
  destruct (scrape_devex_collects w term max_jobs st) as (r & st' & H & _ & HQ).
  exists r, st'. split; [exact H|]. eapply List.Forall_impl; [|exact HQ]. intros j [? ?]; assumption.
Qed.

(** X15. Every ReliefWeb posting of fn.py, from the API or from the HTML
    fallback, has a url that starts with "https://reliefweb.int". *)
Theorem reliefweb_urls_absolute (w : Simple.World) (term : string) (max_jobs : nat)
    (st : state) :
  yields (Simple.scrape_reliefweb w term max_jobs) st
    (fun r _ => Forall (url_starts_with "https://reliefweb.int") r) /\
  yields (Simple.scrape_reliefweb_html w term max_jobs) st
    (fun r _ => Forall (url_starts_with "https://reliefweb.int") r).
Proof.
  split.
  - destruct (simple_scrape_reliefweb_shape w term max_jobs st) as (r & st' & H & HQ).
    exists r, st'. split; [exact H|]. eapply List.Forall_impl; [|exact HQ]. intros j [? ?]; assumption.
  - destruct (scrape_reliefweb_html_collects w term max_jobs st) as (r & st' & H & _ & HQ).
    exists r, st'. split; [exact H|]. eapply List.Forall_impl; [|exact HQ]. intros j [? ?]; assumption.
Qed.

(** X16. The ReliefWeb adapter of fn.py turns the items of the payload
    into postings one by one.  When the structured path does not raise, the
    urls of the result are, in order, those of the items among the first
    [max_jobs] that are objects with an [id] and with members of the types
    the adapter can work with; every other item is skipped: one that is no
    object or has no [id], and one whose [fields], [source], [country] or
    [date] has another type, whose country has a name that is no string, or
    whose [created] is a truthy value that is no string.  When the
    structured path raises, the result is that of the HTML fallback. *)
Theorem api_items_become_postings (w : Simple.World) (term : string) (max_jobs : nat)
    (st : state) :
  yields (Simple.scrape_reliefweb w term max_jobs) st
    (fun r _ =>
       if api_path_raises w term max_jobs then
         map title_url r =
           omap article_title_url (take max_jobs (html_articles w term))
       else
         map url r =
           map (fun id => Some ("https://reliefweb.int/job/" +:+ id))
             (omap item_id (take max_jobs (api_items w term max_jobs)))).
Proof.
  destruct (api_path_raises w term max_jobs) eqn:E.
  - pose proof (scrape_reliefweb_paths w term max_jobs st) as H. rewrite E in H.
    unfold yields. rewrite H.
    destruct (scrape_reliefweb_html_collects w term max_jobs
                (requested (Simple.reliefweb_api_url term max_jobs) st))
      as (r & st' & Hr & Hproj & _).
    exists r, st'. auto.
  - destruct (scrape_reliefweb_collects w term max_jobs st E) as (r & st' & Hr & Hproj & _).
    exists r, st'. auto.
Qed.

(** Of nine items, four become postings: the two with all their
    members, one without [fields] and one whose [created] is null.  The
    others are skipped: a string, an object without [id], an object whose
    [fields] is null, one with a country named null and one created at 5. *)
Example four_of_nine_items_kept :
  map url
    (result_of []
       (Simple.scrape_reliefweb
          (api_world
             [rw_item_titled "1" "Nurse";
              Simple.ItemOther;
              Simple.ItemObject None Simple.Absent;
              Simple.ItemObject (Some "3") Simple.Mistyped;
              Simple.ItemObject (Some "4")
                (Simple.Holds
                   (Simple.mk_fields (Some "Clerk") Simple.Absent
                      (Simple.Holds [Simple.Named (Some (Simple.NotStr "None" false))])
                      Simple.Absent));
              Simple.ItemObject (Some "5")
                (Simple.Holds
                   (Simple.mk_fields (Some "Cook") Simple.Absent Simple.Absent
                      (Simple.Holds (Some (Simple.NotStr "5" true)))));
              Simple.ItemObject (Some "6")
                (Simple.Holds
                   (Simple.mk_fields (Some "Guard") Simple.Absent Simple.Absent
                      (Simple.Holds (Some (Simple.NotStr "None" false)))));
              Simple.ItemObject (Some "7") Simple.Absent;
              rw_item_titled "2" "Driver"])
          "monitoring and evaluation" 20 initial)) =
  [Some "https://reliefweb.int/job/1"; Some "https://reliefweb.int/job/6";
   Some "https://reliefweb.int/job/7"; Some "https://reliefweb.int/job/2"].
Proof. vm_compute. reflexivity. Qed.

(** X17. The HTML adapters of fn.py skip the elements without a title and
    keep the others in order: the fallback of ReliefWeb keeps the articles
    whose heading holds a link, with the text of the link as title and its
    target after "https://reliefweb.int" as url; Devex keeps the elements
    with an [h3] or, failing that, an [h2], whose text is the title. *)
Theorem html_elements_become_postings (w : Simple.World) (term : string)
    (max_jobs : nat) (st : state) :
  yields (Simple.scrape_reliefweb_html w term max_jobs) st
    (fun r _ =>
       map title_url r =
         omap article_title_url (take max_jobs (html_articles w term))) /\
  yields (Simple.scrape_devex w term max_jobs) st
    (fun r _ => map title r = omap devex_title (devex_elements w term max_jobs)).
Proof.
  split.
  - destruct (scrape_reliefweb_html_collects w term max_jobs st) as (r & st' & H & Hp & _).
    exists r, st'. auto.
  - destruct (scrape_devex_collects w term max_jobs st) as (r & st' & H & Hp & _).
    exists r, st'. auto.
Qed.

(** X18. The browser adapters of branch.py skip the elements the
    extraction gives up on and keep the others in order: ReliefWeb keeps
    the elements with a title link, UNjobs those with a heading and a link;
    the title is the stripped text, the url the [href] as it is. *)
Theorem browser_elements_become_postings (w : Enhanced.World) (term : string)
    (max_jobs : nat) (st : state) :
  yields (Enhanced.scrape_reliefweb w term max_jobs) st
    (fun r _ =>
       map title_url r =
         omap rw_element_title_url (take max_jobs (browser_rw_elements w term))) /\
  yields (Enhanced.scrape_unjobs w term max_jobs) st
    (fun r _ =>
       map title_url r =
         omap un_element_title_url (take max_jobs (browser_un_elements w term))).
Proof.
  split.
  - destruct (enhanced_scrape_reliefweb_collects w term max_jobs st)
      as (r & st' & H & Hp & _).
    exists r, st'. auto.
  - destruct (scrape_unjobs_collects w term max_jobs st) as (r & st' & H & Hp & _).
    exists r, st'. auto.
Qed.

(** ** The runs, posting by posting *)

Lemma yields_and {A} (m : M A) (st : state) (P Q : A -> state -> Prop) :
  yields m st P -> yields m st Q -> yields m st (fun a st' => P a st' /\ Q a st').
Proof.
  intros (a & st1 & H1 & HP) (a' & st2 & H2 & HQ).
  rewrite H1 in H2. injection H2 as <- <-. exists a, st1. auto.
Qed.

Lemma yields_impl {A} (m : M A) (st : state) (P Q : A -> state -> Prop) :
  (forall a st', P a st' -> Q a st') -> yields m st P -> yields m st Q.
Proof. intros H (a & st1 & H1 & HP). exists a, st1. auto. Qed.

Section Bounded.

Context {A : Type} (Q : A -> job -> Prop) (cap : A -> nat).
Context (body : A -> list job -> M (list job)).

Hypothesis body_adds :
  forall x acc st, yields (body x acc) st (fun r _ => adds_up_to (Q x) (cap x) acc r).

Lemma for_each_adds_up (l : list A) (acc : list job) (st : state) :
  yields (for_each l body acc) st
    (fun r _ =>
       adds_up_to (fun j => exists x, In x l /\ Q x j) (sum_list (map cap l)) acc r).
Proof.
  revert acc st. induction l as [|x l IH]; intros acc st; cbn [for_each map sum_list].
  - exists acc, st. split; [reflexivity|]. exists []. rewrite app_nil_r.
    repeat split; [constructor | simpl; lia].
  - destruct (body_adds x acc st) as (r & st1 & Hr & new & -> & HQ & Hlen).
    destruct (IH (acc ++ new) st1) as (r' & st2 & Hr' & new' & -> & HQ' & Hlen').
    exists ((acc ++ new) ++ new'), st2. split; [unfold bind; now rewrite Hr|].
    exists (new ++ new'). rewrite app_assoc. split; [reflexivity|].
    rewrite Forall_app, length_app. repeat split.
    + eapply List.Forall_impl; [|exact HQ]. intros j Hj. exists x. split; [now left | exact Hj].
    + eapply List.Forall_impl; [|exact HQ']. intros j (y & Hy & Hj).
      exists y. split; [now right | exact Hj].
    + simpl. lia.
Qed.

End Bounded.

Lemma simple_scrape_site_adds w term site all_jobs st :
  yields (Simple.scrape_site w term site all_jobs) st
    (fun r _ => adds_up_to (fresh_posting site term) (simple_site_cap site) all_jobs r).
Proof.
  cbv [yields Simple.scrape_site try_except bind sleep emit ret simple_site_cap].
  destruct (String.eqb_spec site "reliefweb") as [->|_].
  - destruct (yields_and _ _ _ _
                (scrape_reliefweb_spec w term Simple.reliefweb_max_jobs st)
                (simple_scrape_reliefweb_shape w term Simple.reliefweb_max_jobs st))
      as (r & st' & -> & (_ & Hlen) & HQ).
    eexists _, _. split; [reflexivity|]. exists r. repeat split; [|exact Hlen].
    eapply List.Forall_impl; [|exact HQ]. intros j [? ?]; assumption.
  - destruct (String.eqb_spec site "devex") as [->|_].
    + destruct (yields_and _ _ _ _
                  (scrape_devex_spec w term Simple.devex_max_jobs st)
                  (scrape_devex_collects w term Simple.devex_max_jobs st))
        as (r & st' & -> & (_ & Hlen & _) & _ & HQ).
      eexists _, _. split; [reflexivity|]. exists r. repeat split; [|exact Hlen].
      eapply List.Forall_impl; [|exact HQ]. intros j [? ?]; assumption.
    + eexists _, _. split; [reflexivity|]. exists []. rewrite app_nil_r.
      repeat split; [constructor | simpl; lia].
Qed.

Lemma enhanced_scrape_site_adds w term site all_jobs st :
  yields (Enhanced.scrape_site w term site all_jobs) st
    (fun r _ => adds_up_to (fresh_posting site term) (enhanced_site_cap site) all_jobs r).
Proof.
  cbv [yields Enhanced.scrape_site try_except bind sleep emit ret enhanced_site_cap].
  destruct (String.eqb_spec site "reliefweb") as [->|_].
  - destruct (yields_and _ _ _ _
                (enhanced_scrape_reliefweb_spec w term Enhanced.reliefweb_max_jobs st)
                (enhanced_scrape_reliefweb_collects w term Enhanced.reliefweb_max_jobs st))
      as (r & st' & -> & (_ & Hlen & _) & _ & HQ).
    eexists _, _. split; [reflexivity|]. exists r. auto.
  - destruct (String.eqb_spec site "unjobs") as [->|_].
    + destruct (yields_and _ _ _ _
                  (scrape_unjobs_spec w term Enhanced.unjobs_max_jobs st)
                  (scrape_unjobs_collects w term Enhanced.unjobs_max_jobs st))
        as (r & st' & -> & (_ & Hlen & _) & _ & HQ).
      eexists _, _. split; [reflexivity|]. exists r. auto.
    + eexists _, _. split; [reflexivity|]. exists []. rewrite app_nil_r.
      repeat split; [constructor | simpl; lia].
Qed.

(** What passes a scorer, given what the sites delivered for a term *)
Lemma scored_returned (keywords : list string) (threshold min_score : Q)
    (text_of : job -> string) (n : nat) (terms sites : list string)
    (term : string) (jobs : list job) :
  length keywords = n ->
  (forall m, m <= n -> Qle_bool threshold (ratio m n) = true ->
             (min_score <= round2 (ratio m n))%Q) ->
  In term terms ->
  Forall (fun j => exists site, In site sites /\ fresh_posting site term j) jobs ->
  Forall (returned_posting min_score terms sites)
    (map (scored keywords threshold text_of)
       (List.filter (fun j => Qle_bool threshold (raw_score keywords text_of j)) jobs)).
Proof.
  intros Hn Hmin Hterm Hjobs. apply Forall_map, Forall_forall.
  intros j [Hj Hpass]%list_elem_of_In%List.filter_In.
  rewrite List.Forall_forall in Hjobs.
  destruct (Hjobs j Hj) as (site & Hsite & Hsrc & Hst & Hrec & _).
  unfold returned_posting. cbn [scored set_relevance search_term source is_recent
                                is_public_health relevance_score].
  repeat split.
  - exists term. auto.
  - now rewrite Hsrc.
  - exact Hrec.
  - now rewrite Hpass.
  - eexists. split; [reflexivity|]. unfold raw_score in *. rewrite Hn in *.
    apply Hmin; [|exact Hpass]. rewrite <- Hn. apply count_matches_le.
Qed.

Lemma min_score_of_23 (m : nat) :
  m <= 23 -> Qle_bool Simple.threshold (ratio m 23) = true ->
  (22 # 100 <= round2 (ratio m 23))%Q.
Proof.
  intros Hm Hpass. pose proof (scores_of_23 m Hm) as H.
  rewrite threshold_is_five_of_23 in Hpass. now rewrite Hpass in H.
Qed.

Lemma min_score_of_16 (m : nat) :
  m <= 16 -> Qle_bool Enhanced.threshold (ratio m 16) = true ->
  (31 # 100 <= round2 (ratio m 16))%Q.
Proof.
  intros Hm Hpass. pose proof (scores_of_16 m Hm) as H.
  rewrite threshold_is_five_of_16 in Hpass. now rewrite Hpass in H.
Qed.

Lemma simple_search_one_term_adds w sites terms term all_jobs st :
  In term terms ->
  yields (Simple.search_one_term w sites term all_jobs) st
    (fun r _ =>
       adds_up_to (returned_posting (22 # 100) terms sites)
         (sum_list (map simple_site_cap sites)) all_jobs r).
Proof.
  intros Hterm. unfold yields.
  destruct (search_one_term_spec w sites term all_jobs st) as (jobs & st1 & Hjobs & ->).
  eexists _, _. split; [reflexivity|].
  unfold Simple.scrape_development_sites in Hjobs. simpl default in Hjobs.
  destruct (for_each_adds_up (fun site => fresh_posting site term) simple_site_cap
              (Simple.scrape_site w term)
              (fun site acc st0 => simple_scrape_site_adds w term site acc st0)
              sites [] st) as (r & st' & Hr & new & -> & HQ & Hlen).
  rewrite Hr in Hjobs. injection Hjobs as <- _. rewrite ?app_nil_l.
  exists (Simple.filter_public_health_jobs new). split; [reflexivity|].
  rewrite simple_filter_eq. split.
  - apply (scored_returned _ _ _ _ 23 terms sites term); auto using min_score_of_23.
  - rewrite length_map. etransitivity; [apply List.filter_length_le | exact Hlen].
Qed.

Lemma enhanced_search_one_term_adds w sites terms term all_jobs st :
  In term terms ->
  yields (Enhanced.search_one_term w sites term all_jobs) st
    (fun r _ =>
       adds_up_to (returned_posting (31 # 100) terms sites)
         (sum_list (map enhanced_site_cap sites)) all_jobs r).
Proof.
  intros Hterm. unfold yields.
  destruct (enhanced_search_one_term_spec w sites term all_jobs st)
    as (jobs & st1 & Hjobs & ->).
  eexists _, _. split; [reflexivity|].
  unfold Enhanced.scrape_development_sites in Hjobs. simpl default in Hjobs.
  destruct (for_each_adds_up (fun site => fresh_posting site term) enhanced_site_cap
              (Enhanced.scrape_site w term)
              (fun site acc st0 => enhanced_scrape_site_adds w term site acc st0)
              sites [] st) as (r & st' & Hr & new & -> & HQ & Hlen).
  rewrite Hr in Hjobs. injection Hjobs as <- _. rewrite ?app_nil_l.
  exists (Enhanced.filter_public_health_jobs new). split; [reflexivity|].
  rewrite enhanced_filter_eq. split.
  - apply (scored_returned _ _ _ _ 16 terms sites term); auto using min_score_of_16.
  - rewrite length_map. etransitivity; [apply List.filter_length_le | exact Hlen].
Qed.

Lemma returned_posting_terms min_score term terms sites j :
  In term terms -> returned_posting min_score [term] sites j ->
  returned_posting min_score terms sites j.
Proof.
  intros Hterm ((t & [<-|[]] & Ht) & H). split; [|exact H]. exists term. auto.
Qed.

Lemma sum_list_const {A} (c : nat) (l : list A) :
  sum_list (map (fun _ => c) l) = length l * c.
Proof. induction l as [|x l IH]; simpl; [reflexivity | rewrite IH; lia]. Qed.

Lemma adds_up_to_remove_duplicates (Q : job -> Prop) (n : nat) (r : list job) :
  adds_up_to Q n [] r ->
  Forall Q (remove_duplicates r) /\ length (remove_duplicates r) <= n.
Proof.
  intros (new & -> & HQ & Hlen). rewrite app_nil_l. split.
  - now apply Forall_remove_duplicates.
  - etransitivity; [|exact Hlen]. apply sublist_length.
    rewrite remove_duplicates_first_occurrences. apply first_occurrences_sublist.
Qed.

Lemma simple_terms_loop w terms sites st :
  yields (for_each terms (Simple.search_one_term w sites) []) st
    (fun r _ =>
       adds_up_to (returned_posting (22 # 100) terms sites)
         (length terms * sum_list (map simple_site_cap sites)) [] r).
Proof.
  destruct (for_each_adds_up (fun term => returned_posting (22 # 100) [term] sites)
              (fun _ => sum_list (map simple_site_cap sites))
              (Simple.search_one_term w sites)) with (l := terms) (acc := @nil job) (st := st)
    as (r & st' & Hr & new & -> & HQ & Hlen).
  - intros term acc st0. apply simple_search_one_term_adds. now left.
  - exists ([] ++ new), st'. split; [exact Hr|]. exists new. split; [reflexivity|].
    rewrite sum_list_const in Hlen. split; [|exact Hlen].
    eapply List.Forall_impl; [|exact HQ]. intros j (term & Hterm & Hj).
    now apply (returned_posting_terms _ term).
Qed.

Lemma enhanced_terms_loop w terms sites st :
  yields (for_each terms (Enhanced.search_one_term w sites) []) st
    (fun r _ =>
       adds_up_to (returned_posting (31 # 100) terms sites)
         (length terms * sum_list (map enhanced_site_cap sites)) [] r).
Proof.
  destruct (for_each_adds_up (fun term => returned_posting (31 # 100) [term] sites)
              (fun _ => sum_list (map enhanced_site_cap sites))
              (Enhanced.search_one_term w sites)) with (l := terms) (acc := @nil job)
                                                        (st := st)
    as (r & st' & Hr & new & -> & HQ & Hlen).
  - intros term acc st0. apply enhanced_search_one_term_adds. now left.
  - exists ([] ++ new), st'. split; [exact Hr|]. exists new. split; [reflexivity|].
    rewrite sum_list_const in Hlen. split; [|exact Hlen].
    eapply List.Forall_impl; [|exact HQ]. intros j (term & Hterm & Hj).
    now apply (returned_posting_terms _ term).
Qed.

Lemma simple_main_returns w terms sites limit st :
  yields (Simple.main w terms sites limit) st
    (fun r _ =>
       Forall (returned_posting (22 # 100) terms sites) (default [] r) /\
       length (default [] r) <= length terms * sum_list (map simple_site_cap sites)).
Proof.
  unfold Simple.main.
  destruct terms as [|t terms];
    [eexists _, _; split; [reflexivity | split; [constructor | simpl; lia]]|].
  destruct sites as [|s sites];
    [eexists _, _; split; [reflexivity | split; [constructor | simpl; lia]]|].
  destruct (simple_terms_loop w (t :: terms) (s :: sites) st) as (r & st' & Hr & Hadds).
  unfold yields, bind. rewrite Hr. eexists _, _. split; [reflexivity|].
  now apply adds_up_to_remove_duplicates.
Qed.

Lemma enhanced_run_returns w terms sites limit st :
  Enhanced.chrome w = inr tt ->
  yields (Enhanced.run_scraper_with_progress w terms sites limit) st
    (fun r _ =>
       Forall (returned_posting (31 # 100) terms sites) r /\
       length r <= length terms * sum_list (map enhanced_site_cap sites)).
Proof.
  intros Hchrome. unfold Enhanced.run_scraper_with_progress.
  destruct terms as [|t terms];
    [eexists _, _; split; [reflexivity | split; [constructor | simpl; lia]]|].
  destruct sites as [|s sites];
    [eexists _, _; split; [reflexivity | split; [constructor | simpl; lia]]|].
  destruct (enhanced_terms_loop w (t :: terms) (s :: sites) st) as (r & st' & Hr & Hadds).
  cbv [yields bind lift]. rewrite Hchrome, Hr. eexists _, _. split; [reflexivity|].
  now apply adds_up_to_remove_duplicates.
Qed.

(** X19. Every posting a run returns was found under one of the selected
    search terms on one of the selected sites, carries a recency flag, is
    flagged relevant and shows a score of at least 0.22 in fn.py and of at
    least 0.31 in JOB.py. *)
Theorem run_postings_tagged (w : Simple.World) (w' : Enhanced.World)
    (terms sites : list string) (limit : nat) (st : state)
    (Hchrome : Enhanced.chrome w' = inr tt) :
  yields (Simple.main w terms sites limit) st
    (fun r _ => Forall (returned_posting (22 # 100) terms sites) (default [] r)) /\
  yields (Enhanced.run_scraper_with_progress w' terms sites limit) st
    (fun r _ => Forall (returned_posting (31 # 100) terms sites) r).
Proof.
  split.
  - eapply yields_impl; [|apply simple_main_returns]. intros r _ [H _]. exact H.
  - eapply yields_impl; [|now apply enhanced_run_returns]. intros r _ [H _]. exact H.
Qed.

Lemma run_postings_tagged_witness :
  Enhanced.chrome unjobs_world = inr tt /\
  yields (Enhanced.run_scraper_with_progress unjobs_world ["health"] ["unjobs"] 20)
    initial (fun r _ => Forall (returned_posting (31 # 100) ["health"] ["unjobs"]) r).
Proof.
  split; [reflexivity|].
  apply (run_postings_tagged (api_world six_items) unjobs_world ["health"] ["unjobs"] 20
           initial).
  reflexivity.
Defined.

(** X20. The size of a run's result is bounded by the defaults of the
    adapters, not by the slider: at most 20 postings per term for
    ReliefWeb and 15 for Devex (fn.py) or UNjobs (JOB.py), counted for every
    occurrence of the site among the selected sites, and nothing for a site
    name without adapter. *)
Theorem run_size_bound (w : Simple.World) (w' : Enhanced.World)
    (terms sites : list string) (limit : nat) (st : state)
    (Hchrome : Enhanced.chrome w' = inr tt) :
  yields (Simple.main w terms sites limit) st
    (fun r _ =>
       length (default [] r) <= length terms * sum_list (map simple_site_cap sites)) /\
  yields (Enhanced.run_scraper_with_progress w' terms sites limit) st
    (fun r _ => length r <= length terms * sum_list (map enhanced_site_cap sites)).
Proof.
  split.
  - eapply yields_impl; [|apply simple_main_returns]. intros r _ [_ H]. exact H.
  - eapply yields_impl; [|now apply enhanced_run_returns]. intros r _ [_ H]. exact H.
Qed.

Lemma run_size_bound_witness :
  Enhanced.chrome unjobs_world = inr tt /\
  yields (Simple.main (api_world six_items) ["monitoring and evaluation"]
            ["reliefweb"; "idealist"] 5) initial
    (fun r _ => length (default [] r) <= 20).
Proof.
  split; [reflexivity|].
  apply (run_size_bound (api_world six_items) unjobs_world ["monitoring and evaluation"]
           ["reliefweb"; "idealist"] 5 initial).
  reflexivity.
Defined.

(** ** Delays and requests *)

Lemma seconds_slept_app evs evs' :
  seconds_slept (evs ++ evs') = seconds_slept evs + seconds_slept evs'.
Proof. induction evs as [|[u|s] evs IH]; simpl; lia. Qed.

Lemma requests_made_app evs evs' :
  requests_made (evs ++ evs') = requests_made evs + requests_made evs'.
Proof. induction evs as [|[u|s] evs IH]; simpl; lia. Qed.

Lemma emitted_spent evs st st' :
  emitted evs st st' ->
  spent (seconds_slept evs) (requests_made evs) (requests_made evs) st st'.
Proof.
  unfold emitted, spent. intros ->. rewrite seconds_slept_app, requests_made_app. lia.
Qed.

Lemma spent_refl st : spent 0 0 0 st st.
Proof. unfold spent. lia. Qed.

Lemma spent_trans s1 l1 h1 s2 l2 h2 st st' st'' :
  spent s1 l1 h1 st st' -> spent s2 l2 h2 st' st'' ->
  spent (s1 + s2) (l1 + l2) (h1 + h2) st st''.
Proof. unfold spent. lia. Qed.

Lemma spent_sleep s l h st st' secs :
  spent s l h st st' ->
  spent (s + secs) l h st (mk_state (trace st' ++ [Sleep secs]) (ticks st')).
Proof.
  unfold spent. cbn [trace]. rewrite seconds_slept_app, requests_made_app. simpl. lia.
Qed.

Section Spending.

Context {A B : Type} (secs lo hi : A -> nat) (body : A -> B -> M B).

Hypothesis body_spends :
  forall x acc st,
    yields (body x acc) st (fun _ st' => spent (secs x) (lo x) (hi x) st st').

Lemma for_each_spends (l : list A) (acc : B) (st : state) :
  yields (for_each l body acc) st
    (fun _ st' =>
       spent (sum_list (map secs l)) (sum_list (map lo l)) (sum_list (map hi l)) st st').
Proof.
  revert acc st. induction l as [|x l IH]; intros acc st; cbn [for_each map sum_list].
  - exists acc, st. split; [reflexivity | apply spent_refl].
  - destruct (body_spends x acc st) as (r & st1 & Hr & Hs).
    destruct (IH r st1) as (r' & st2 & Hr' & Hs').
    exists r', st2. split; [unfold bind; now rewrite Hr|].
    eapply spent_trans; eassumption.
Qed.

End Spending.

Lemma simple_scrape_reliefweb_spends w term max_jobs st :
  yields (Simple.scrape_reliefweb w term max_jobs) st (fun _ st' => spent 0 1 2 st st').
Proof.
  pose proof (scrape_reliefweb_paths w term max_jobs st) as H.
  destruct (api_path_raises w term max_jobs).
  - unfold yields. rewrite H.
    destruct (scrape_reliefweb_html_spec w term max_jobs
                (requested (Simple.reliefweb_api_url term max_jobs) st))
      as (r & st' & -> & _ & _ & He).
    exists r, st'. split; [reflexivity|].
    apply emitted_spent in He. unfold spent, requested in *. cbn [trace] in He.
    rewrite seconds_slept_app, requests_made_app in He. simpl in He. simpl. lia.
  - destruct H as (r & st' & Hr & _ & _ & He). exists r, st'. split; [exact Hr|].
    apply emitted_spent in He. unfold spent in *. simpl in He. lia.
Qed.

Lemma simple_scrape_site_spends w term site all_jobs st :
  yields (Simple.scrape_site w term site all_jobs) st
    (fun _ st' =>
       spent (simple_site_requests_min site) (simple_site_requests_min site)
         (simple_site_requests_max site) st st').
Proof.
  cbv [yields Simple.scrape_site try_except bind sleep emit ret
       simple_site_requests_min simple_site_requests_max].
  destruct (String.eqb_spec site "reliefweb") as [->|_].
  - destruct (simple_scrape_reliefweb_spends w term Simple.reliefweb_max_jobs st)
      as (r & st' & -> & Hs).
    eexists _, _. split; [reflexivity|]. apply (spent_sleep 0 1 2 _ _ 1 Hs).
  - destruct (String.eqb_spec site "devex") as [->|_].
    + destruct (scrape_devex_spec w term Simple.devex_max_jobs st)
        as (r & st' & -> & _ & _ & He).
      eexists _, _. split; [reflexivity|].
      apply emitted_spent in He. apply (spent_sleep 0 1 1 _ _ 1 He).
    + eexists _, _. split; [reflexivity | apply spent_refl].
Qed.

Lemma simple_search_one_term_spends w sites term all_jobs st :
  yields (Simple.search_one_term w sites term all_jobs) st
    (fun _ st' =>
       spent (sum_list (map simple_site_requests_min sites) + 1)
         (sum_list (map simple_site_requests_min sites))
         (sum_list (map simple_site_requests_max sites)) st st').
Proof.
  unfold yields.
  destruct (search_one_term_spec w sites term all_jobs st) as (jobs & st1 & Hjobs & ->).
  eexists _, _. split; [reflexivity|].
  unfold Simple.scrape_development_sites in Hjobs. simpl default in Hjobs.
  destruct (for_each_spends simple_site_requests_min simple_site_requests_min
              simple_site_requests_max (Simple.scrape_site w term)
              (fun site acc st0 => simple_scrape_site_spends w term site acc st0)
              sites [] st) as (r & st' & Hr & Hs).
  rewrite Hr in Hjobs. injection Hjobs as _ <-. now apply spent_sleep.
Qed.

(** X21. The run of fn.py is polite by construction.  With at least one
    site selected, it sleeps one second after every call of an adapter and
    one more after every search term, and it makes one request per call of
    an adapter, or two when ReliefWeb falls back to its HTML page; a site
    name without adapter costs neither a request nor a delay. *)
Theorem run_delays_and_requests (w : Simple.World) (terms sites : list string)
    (limit : nat) (st : state) (Hsites : sites <> []) :
  yields (Simple.main w terms sites limit) st
    (fun _ st' =>
       spent (length terms * (sum_list (map simple_site_requests_min sites) + 1))
         (length terms * sum_list (map simple_site_requests_min sites))
         (length terms * sum_list (map simple_site_requests_max sites)) st st').
Proof.
  unfold Simple.main.
  destruct terms as [|t terms]; [eexists _, _; split; [reflexivity | apply spent_refl]|].
  destruct sites as [|s sites]; [congruence|].
  destruct (for_each_spends
              (fun _ => sum_list (map simple_site_requests_min (s :: sites)) + 1)
              (fun _ => sum_list (map simple_site_requests_min (s :: sites)))
              (fun _ => sum_list (map simple_site_requests_max (s :: sites)))
              (Simple.search_one_term w (s :: sites))
              (fun term acc st0 =>
                 simple_search_one_term_spends w (s :: sites) term acc st0)
              (t :: terms) [] st) as (r & st' & Hr & Hs).
  unfold yields, bind. rewrite Hr. eexists _, _. split; [reflexivity|].
  rewrite !sum_list_const in Hs. exact Hs.
Qed.

Lemma run_delays_and_requests_witness :
  ["reliefweb"; "devex"] <> [] /\
  yields (Simple.main dead_network ["health"; "m&e officer"] ["reliefweb"; "devex"] 5)
    initial (fun _ st' => spent 6 4 6 initial st').
Proof.
  assert (["reliefweb"; "devex"] <> []) as H by discriminate.
  split; [exact H|].
  exact (run_delays_and_requests dead_network ["health"; "m&e officer"]
           ["reliefweb"; "devex"] 5 initial H).
Defined.

(** ** The start of the browser *)

(** X22. The run of JOB.py raises exactly when both selections are
    non-empty and the browser fails to start, and then before any request
    or delay; with an empty selection it returns the empty list without
    starting the browser. *)
Theorem run_raises_only_without_browser (w : Enhanced.World)
    (terms sites : list string) (limit : nat) (st : state) :
  ((exists e st', Enhanced.run_scraper_with_progress w terms sites limit st = (inl e, st'))
   <-> terms <> [] /\ sites <> [] /\ exists e, Enhanced.chrome w = inl e) /\
  (forall e, terms <> [] -> sites <> [] -> Enhanced.chrome w = inl e ->
     Enhanced.run_scraper_with_progress w terms sites limit st = (inl e, st)) /\
  (terms = [] \/ sites = [] ->
     Enhanced.run_scraper_with_progress w terms sites limit st = (inr [], st)).
Proof.
  assert (forall e, terms <> [] -> sites <> [] -> Enhanced.chrome w = inl e ->
            Enhanced.run_scraper_with_progress w terms sites limit st = (inl e, st)) as Hfail.
  { intros e Ht Hs Hchrome. unfold Enhanced.run_scraper_with_progress.
    destruct terms; [congruence|]. destruct sites; [congruence|].
    cbv [bind lift]. now rewrite Hchrome. }
  assert (terms = [] \/ sites = [] ->
            Enhanced.run_scraper_with_progress w terms sites limit st = (inr [], st))
    as Hempty.
  { unfold Enhanced.run_scraper_with_progress.
    intros [-> | ->]; [reflexivity | destruct terms; reflexivity]. }
  split; [|split; assumption]. split.
  - intros (e & st' & Hrun).
    destruct terms as [|t terms]; [rewrite Hempty in Hrun by auto; discriminate|].
    destruct sites as [|s sites]; [rewrite Hempty in Hrun by auto; discriminate|].
    split; [discriminate|]. split; [discriminate|].
    destruct (Enhanced.chrome w) as [e'|[]] eqn:Hchrome; [eauto|].
    destruct (run_scraper_with_progress_spec w (t :: terms) (s :: sites) limit st Hchrome)
      as (r & st'' & Hr & _).
    rewrite Hr in Hrun. discriminate.
  - intros (Ht & Hs & e & Hchrome). exists e, st. now apply Hfail.
Qed.

Lemma run_raises_only_without_browser_witness :
  ["health"] <> [] /\ ["unjobs"] <> [] /\
  Enhanced.run_scraper_with_progress
    (Enhanced.mk_World (inl WebDriverException) (fun _ => inl Timeout) clock_5_jan_2025)
    ["health"] ["unjobs"] 20 initial = (inl WebDriverException, initial).
Proof.
  assert (["health"] <> []) as Ht by discriminate.
  assert (["unjobs"] <> []) as Hs by discriminate.
  split; [exact Ht|]. split; [exact Hs|].
  exact (proj1 (proj2 (run_raises_only_without_browser
                         (Enhanced.mk_World (inl WebDriverException)
                            (fun _ => inl Timeout) clock_5_jan_2025)
                         ["health"] ["unjobs"] 20 initial))
           WebDriverException Ht Hs eq_refl).
Defined.

(** ** The sidebar *)

Lemma checked_terms_sublist checked i terms :
  sublist (UI.checked_terms checked i terms) terms.
Proof.
  revert i. induction terms as [|term rest IH]; intros i; simpl; [constructor|].
  destruct (checked i); [apply sublist_skip | apply sublist_cons]; apply IH.
Qed.

Lemma default_terms_NoDup : NoDup UI.default_terms.
Proof. apply (bool_decide_unpack _). vm_compute. exact I. Qed.

(** X23. The search terms taken from the sidebar are distinct, whatever
    is checked and typed: the checked default terms in their order, then
    the custom term if it is not empty and not among them; so there are at
    most six, and no term is searched twice. *)
Theorem search_terms_distinct (ui : UI.sidebar) :
  NoDup (UI.search_terms ui) /\
  length (UI.search_terms ui) <= 6 /\
  sublist (UI.checked_terms (UI.term_checked ui) 0 UI.default_terms) UI.default_terms /\
  (forall term, In term (UI.search_terms ui) <->
     In term (UI.checked_terms (UI.term_checked ui) 0 UI.default_terms) \/
     (term = UI.custom_term ui /\ term <> "")).
Proof.
  pose proof (checked_terms_sublist (UI.term_checked ui) 0 UI.default_terms) as Hsub.
  assert (NoDup (UI.checked_terms (UI.term_checked ui) 0 UI.default_terms)) as Hnd
    by (eapply sublist_NoDup; [exact default_terms_NoDup | exact Hsub]).
  pose proof (sublist_length _ _ Hsub) as Hlen. change (length UI.default_terms) with 5 in Hlen.
  unfold UI.search_terms.
  destruct (String.eqb_spec (UI.custom_term ui) "") as [Hempty|Hne]; cbn [negb andb].
  - split; [exact Hnd|]. split; [lia|]. split; [exact Hsub|].
    intros term. split; [auto|].
    intros [H | [Heq H]]; [exact H | congruence].
  - destruct (bool_decide_reflect
                (UI.custom_term ui ∈ UI.checked_terms (UI.term_checked ui) 0 UI.default_terms))
      as [Hin|Hnin]; cbn [negb].
    + split; [exact Hnd|]. split; [lia|]. split; [exact Hsub|].
      intros term. split; [auto|].
      intros [H | [Heq _]]; [exact H | rewrite Heq; now apply list_elem_of_In].
    + split; [|split; [|split; [exact Hsub|]]].
      * apply NoDup_app. split; [exact Hnd|]. split; [|apply NoDup_singleton].
        intros x Hx Hx'. apply list_elem_of_In in Hx'. destruct Hx' as [<-|[]].
        contradiction.
      * rewrite length_app. change (length [UI.custom_term ui]) with 1. lia.
      * intros term. rewrite in_app_iff. simpl. split.
        -- intros [H | [<- | []]]; auto.
        -- intros [H | [Heq _]]; auto.
Qed.

(** ** The display *)

Lemma filter_length_all {A} (f : A -> bool) (l : list A) :
  Forall (fun x => f x = true) l -> List.filter f l = l.
Proof.
  induction 1 as [|x l Hx _ IH]; simpl; [reflexivity|]. now rewrite Hx, IH.
Qed.

Lemma filter_none {A} (f : A -> bool) (l : list A) :
  Forall (fun x => f x = false) l -> List.filter f l = [].
Proof.
  induction 1 as [|x l Hx _ IH]; simpl; [reflexivity|]. now rewrite Hx, IH.
Qed.

Lemma filter_recent_recent (jobs : list job) :
  Forall (fun j => UI.recent j = true) (List.filter UI.recent jobs).
Proof.
  apply List.Forall_forall. intros j [_ H]%List.filter_In. exact H.
Qed.

Lemma has_score_column_spec (jobs : list job) :
  if UI.has_score_column jobs
  then Exists (fun j => relevance_score j <> None) jobs
  else Forall (fun j => relevance_score j = None) jobs.
Proof.
  unfold UI.has_score_column.
  induction jobs as [|j jobs IH]; cbn [existsb]; [constructor|].
  destruct (relevance_score j) eqn:E; cbn [orb].
  - left. congruence.
  - destruct (existsb _ jobs); [right; exact IH | constructor; [exact E | exact IH]].
Qed.

(** X24. What [display_results] does, in its three copies.  It warns
    exactly when there is no posting, or when the recency filter is on and
    no posting is flagged recent.  It raises [KeyError] exactly when there
    are rows to show and none of them carries a score.  Otherwise the rows
    are the postings, or with the filter on the recent ones, in the order of
    the result; "Total Jobs" counts the rows, "Recent Jobs" and "High
    Matches" never exceed it, "Sources" holds the sites of the rows, with
    the filter on "Recent Jobs" equals "Total Jobs" and no card is added,
    and with the filter off only JOB.py adds the cards of the recent
    postings. *)
Theorem display_results_summary (v : UI.variant) (jobs : list job)
    (only_recent : bool) :
  match UI.display_results v jobs only_recent with
  | inr (UI.Warning message) =>
      (jobs = [] /\
       message =
         "No jobs found matching your criteria. Try adjusting your search terms.") \/
      (jobs <> [] /\ only_recent = true /\
       Forall (fun j => UI.recent j = false) jobs /\
       message = UI.recent_warning v)
  | inl e =>
      e = KeyError /\
      working_view only_recent jobs <> [] /\
      Forall (fun j => relevance_score j = None) (working_view only_recent jobs)
  | inr (UI.Results s) =>
      UI.rows s = working_view only_recent jobs /\
      UI.rows s <> [] /\
      Exists (fun j => relevance_score j <> None) (UI.rows s) /\
      sublist (UI.rows s) jobs /\
      UI.total_jobs s = length (UI.rows s) /\
      UI.recent_jobs s <= UI.total_jobs s /\
      UI.high_matches s <= UI.total_jobs s /\
      (forall site, site ∈ UI.sources s <-> exists j, In j (UI.rows s) /\ source j = site) /\
      (only_recent = true ->
       UI.recent_jobs s = UI.total_jobs s /\ UI.cards s = [] /\
       Forall (fun j => is_recent j = Some true) (UI.rows s)) /\
      (only_recent = false ->
       UI.cards s = if UI.with_cards v then List.filter UI.recent jobs else [])
  end.
Proof.
  assert (forall l : list job, forall site,
            site ∈ (list_to_set (map source l) : gset string) <->
            exists j, In j l /\ source j = site) as Hsources.
  { intros l site. rewrite elem_of_list_to_set, list_elem_of_In, List.in_map_iff.
    split; intros (j & H1 & H2); eauto. }
  unfold UI.display_results. destruct jobs as [|j0 jobs0]; [now left|].
  set (jobs := j0 :: jobs0).
  destruct only_recent.
  - unfold working_view. fold UI.recent.
    destruct (List.filter UI.recent jobs) as [|r rows] eqn:E.
    + right. split; [discriminate|]. split; [reflexivity|].
      split; [|reflexivity]. apply List.Forall_forall. intros j Hj.
      destruct (UI.recent j) eqn:Hr; [|reflexivity].
      assert (In j (List.filter UI.recent jobs)) as Hin by (apply List.filter_In; auto).
      rewrite E in Hin. destruct Hin.
    + pose proof (has_score_column_spec (r :: rows)) as Hcol.
      destruct (UI.has_score_column (r :: rows));
        [|split; [reflexivity|]; split; [discriminate | exact Hcol]].
      cbn [UI.rows UI.total_jobs UI.recent_jobs UI.high_matches UI.sources UI.cards].
      pose proof (filter_recent_recent jobs) as Hall. rewrite E in Hall.
      split; [reflexivity|]. split; [discriminate|]. split; [exact Hcol|].
      split; [rewrite <- E; apply sublist_list_filter|].
      split; [reflexivity|].
      split; [apply List.filter_length_le|]. split; [apply List.filter_length_le|].
      split; [apply Hsources|]. split; [|discriminate]. intros _.
      rewrite andb_false_r. split; [now rewrite filter_length_all|]. split; [reflexivity|].
      eapply List.Forall_impl; [|exact Hall]. intros j. unfold UI.recent.
      destruct (is_recent j) as [[]|]; simpl; congruence.
  - unfold working_view.
    pose proof (has_score_column_spec jobs) as Hcol.
    destruct (UI.has_score_column jobs);
      [|split; [reflexivity|]; split; [discriminate | exact Hcol]].
    cbn [UI.rows UI.total_jobs UI.recent_jobs UI.high_matches UI.sources UI.cards].
    split; [reflexivity|]. split; [discriminate|]. split; [exact Hcol|].
    split; [reflexivity|]. split; [reflexivity|].
    split; [apply List.filter_length_le|]. split; [apply List.filter_length_le|].
    split; [apply Hsources|]. split; [discriminate|]. intros _.
    now rewrite andb_true_r.
Qed.

(** A list the scorer has not seen, and the same list after the scorer:
    the first breaks the table, the second is shown. *)
Example unscored_rows_break_the_table :
  UI.display_results UI.FnPy [health_advisor; data_officer] false = inl KeyError /\
  UI.display_results UI.JobPy [health_advisor; data_officer] false = inl KeyError /\
  exists s,
    UI.display_results UI.BranchPy
      (fst (Enhanced.score_jobs [health_advisor; data_officer])) false =
      inr (UI.Results s) /\
    UI.total_jobs s = 2 /\ UI.high_matches s = 0 /\ UI.cards s = [].
Proof.
  split; [reflexivity|]. split; [reflexivity|].
  eexists. split; [vm_compute; reflexivity|]. repeat split.
Qed.

(** ** Recency by site *)

Lemma extends_with_nil (Q : job -> Prop) acc : extends_with Q acc acc.
Proof. exists []. now rewrite app_nil_r. Qed.

Lemma simple_scrape_site_by_site w term site all_jobs st :
  yields (Simple.scrape_site w term site all_jobs) st
    (fun r _ => extends_with simple_by_site all_jobs r).
Proof.
  cbv [yields Simple.scrape_site try_except bind sleep emit ret].
  destruct (String.eqb_spec site "reliefweb") as [->|_].
  - destruct (simple_scrape_reliefweb_shape w term Simple.reliefweb_max_jobs st)
      as (r & st' & -> & HQ).
    eexists _, _. split; [reflexivity|]. exists r. split; [reflexivity|].
    eapply List.Forall_impl; [|exact HQ]. intros j [(Hs & _) _]. now left.
  - destruct (String.eqb_spec site "devex") as [->|_].
    + destruct (scrape_devex_collects w term Simple.devex_max_jobs st)
        as (r & st' & -> & _ & HQ).
      eexists _, _. split; [reflexivity|]. exists r. split; [reflexivity|].
      eapply List.Forall_impl; [|exact HQ]. intros j [(Hs & _) (Hr & _)]. right. auto.
    + eexists _, _. split; [reflexivity | apply extends_with_nil].
Qed.

Lemma enhanced_scrape_site_by_site w term site all_jobs st :
  yields (Enhanced.scrape_site w term site all_jobs) st
    (fun r _ => extends_with enhanced_by_site all_jobs r).
Proof.
  cbv [yields Enhanced.scrape_site try_except bind sleep emit ret].
  destruct (String.eqb_spec site "reliefweb") as [->|_].
  - destruct (enhanced_scrape_reliefweb_spec w term Enhanced.reliefweb_max_jobs st)
      as (r & st' & -> & HQ & _).
    eexists _, _. split; [reflexivity|]. exists r. split; [reflexivity|].
    eapply List.Forall_impl; [|exact HQ]. intros j Hs. now left.
  - destruct (String.eqb_spec site "unjobs") as [->|_].
    + destruct (scrape_unjobs_spec w term Enhanced.unjobs_max_jobs st)
        as (r & st' & -> & HQ & _).
      eexists _, _. split; [reflexivity|]. exists r. split; [reflexivity|].
      eapply List.Forall_impl; [|exact HQ]. intros j (_ & Hr & Hs). right. auto.
    + eexists _, _. split; [reflexivity | apply extends_with_nil].
Qed.

Lemma Forall_scored_filter (P : job -> Prop) (keywords : list string) (threshold : Q)
    (text_of : job -> string) (f : job -> bool) (jobs : list job) :
  (forall j, P j -> P (scored keywords threshold text_of j)) ->
  Forall P jobs -> Forall P (map (scored keywords threshold text_of) (List.filter f jobs)).
Proof.
  intros Hscored Hjobs. apply Forall_map, Forall_forall.
  intros j [Hj _]%list_elem_of_In%List.filter_In.
  rewrite List.Forall_forall in Hjobs. apply Hscored. auto.
Qed.

Lemma simple_main_by_site w terms sites limit st :
  yields (Simple.main w terms sites limit) st
    (fun r _ => Forall simple_by_site (default [] r)).
Proof.
  unfold Simple.main.
  destruct terms as [|t terms]; [eexists _, _; split; [reflexivity | constructor]|].
  destruct sites as [|s sites]; [eexists _, _; split; [reflexivity | constructor]|].
  destruct (for_each_extends simple_by_site (Simple.search_one_term w (s :: sites))) with
    (l := t :: terms) (acc := @nil job) (st := st) as (r & st' & Hr & new & -> & HQ).
  - intros term acc st0. unfold yields.
    destruct (search_one_term_spec w (s :: sites) term acc st0)
      as (jobs & st1 & Hjobs & ->).
    eexists _, _. split; [reflexivity|]. eexists. split; [reflexivity|].
    rewrite simple_filter_eq. apply Forall_scored_filter; [auto|].
    unfold Simple.scrape_development_sites in Hjobs. simpl default in Hjobs.
    destruct (for_each_extends simple_by_site (Simple.scrape_site w term)
                (fun site acc0 st2 => simple_scrape_site_by_site w term site acc0 st2)
                (s :: sites) [] st0) as (r & st' & Hr & new & -> & HQ).
    rewrite Hr in Hjobs. injection Hjobs as <- _. exact HQ.
  - unfold yields, bind. rewrite Hr. eexists _, _. split; [reflexivity|].
    now apply Forall_remove_duplicates.
Qed.

Lemma enhanced_run_by_site w terms sites limit st :
  Enhanced.chrome w = inr tt ->
  yields (Enhanced.run_scraper_with_progress w terms sites limit) st
    (fun r _ => Forall enhanced_by_site r).
Proof.
  intros Hchrome. unfold Enhanced.run_scraper_with_progress.
  destruct terms as [|t terms]; [eexists _, _; split; [reflexivity | constructor]|].
  destruct sites as [|s sites]; [eexists _, _; split; [reflexivity | constructor]|].
  destruct (for_each_extends enhanced_by_site (Enhanced.search_one_term w (s :: sites)))
    with (l := t :: terms) (acc := @nil job) (st := st)
    as (r & st' & Hr & new & -> & HQ).
  - intros term acc st0. unfold yields.
    destruct (enhanced_search_one_term_spec w (s :: sites) term acc st0)
      as (jobs & st1 & Hjobs & ->).
    eexists _, _. split; [reflexivity|]. eexists. split; [reflexivity|].
    rewrite enhanced_filter_eq. apply Forall_scored_filter; [auto|].
    unfold Enhanced.scrape_development_sites in Hjobs. simpl default in Hjobs.
    destruct (for_each_extends enhanced_by_site (Enhanced.scrape_site w term)
                (fun site acc0 st2 => enhanced_scrape_site_by_site w term site acc0 st2)
                (s :: sites) [] st0) as (r & st' & Hr & new & -> & HQ).
    rewrite Hr in Hjobs. injection Hjobs as <- _. exact HQ.
  - cbv [yields bind lift]. rewrite Hchrome, Hr. eexists _, _. split; [reflexivity|].
    now apply Forall_remove_duplicates.
Qed.

(** X25. In the result of a run the recency flag goes by the site.  In
    fn.py every posting is from ReliefWeb or from Devex, and every Devex
    posting is flagged recent; in JOB.py every posting is from ReliefWeb or
    from UNjobs, and no UNjobs posting is flagged recent. *)
Theorem run_recency_by_site (w : Simple.World) (w' : Enhanced.World)
    (terms sites : list string) (limit : nat) (st : state)
    (Hchrome : Enhanced.chrome w' = inr tt) :
  yields (Simple.main w terms sites limit) st
    (fun r _ =>
       Forall (fun j => source j = "reliefweb" \/
                        (source j = "devex" /\ is_recent j = Some true))
         (default [] r)) /\
  yields (Enhanced.run_scraper_with_progress w' terms sites limit) st
    (fun r _ =>
       Forall (fun j => source j = "reliefweb" \/
                        (source j = "unjobs" /\ is_recent j = Some false)) r).
Proof.
  split; [apply simple_main_by_site | now apply enhanced_run_by_site].
Qed.

Lemma run_recency_by_site_witness :
  Enhanced.chrome unjobs_world = inr tt /\
  yields (Enhanced.run_scraper_with_progress unjobs_world ["health"] ["unjobs"] 20)
    initial
    (fun r _ =>
       Forall (fun j => source j = "reliefweb" \/
                        (source j = "unjobs" /\ is_recent j = Some false)) r).
Proof.
  split; [reflexivity|].
  apply (run_recency_by_site (api_world six_items) unjobs_world ["health"] ["unjobs"] 20
           initial).
  reflexivity.
Defined.

Lemma returned_sources (min_score : Q) (terms sites : list string) (jobs : list job) :
  ~ In "reliefweb" sites ->
  Forall (returned_posting min_score terms sites) jobs ->
  Forall (fun j => source j <> "reliefweb") jobs.
Proof.
  intros Hnot. apply List.Forall_impl. intros j (_ & Hsrc & _) Heq.
  apply Hnot. now rewrite <- Heq.
Qed.

(** X26. Without ReliefWeb among the sites the recency filter is idle or
    empties the page.  In fn.py every posting of such a run is recent, so
    the page is the same with the filter on and off; in JOB.py none is, so
    with the filter on the page is a warning. *)
Theorem recency_filter_without_reliefweb (w : Simple.World) (w' : Enhanced.World)
    (terms sites : list string) (limit : nat) (st : state)
    (Hsites : ~ In "reliefweb" sites)
    (Hchrome : Enhanced.chrome w' = inr tt) :
  yields (Simple.main w terms sites limit) st
    (fun r _ =>
       UI.display_results UI.FnPy (default [] r) true =
       UI.display_results UI.FnPy (default [] r) false) /\
  yields (Enhanced.run_scraper_with_progress w' terms sites limit) st
    (fun r _ =>
       exists message, UI.display_results UI.JobPy r true = inr (UI.Warning message)).
Proof.
  split.
  - destruct (yields_and _ _ _ _ (simple_main_by_site w terms sites limit st)
                (simple_main_returns w terms sites limit st))
      as (r & st' & Hr & Hby & Hret & _).
    exists r, st'. split; [exact Hr|].
    pose proof (returned_sources _ _ _ _ Hsites Hret) as Hsrc.
    assert (Forall (fun j => UI.recent j = true) (default [] r)) as Hall.
    { rewrite List.Forall_forall in *. intros j Hj.
      destruct (Hby j Hj) as [H | [_ H]]; [now apply Hsrc in H|].
      unfold UI.recent. now rewrite H. }
    unfold UI.display_results, working_view. fold UI.recent.
    rewrite !(filter_length_all _ _ Hall).
    destruct (default [] r); reflexivity.
  - destruct (yields_and _ _ _ _ (enhanced_run_by_site w' terms sites limit st Hchrome)
                (enhanced_run_returns w' terms sites limit st Hchrome))
      as (r & st' & Hr & Hby & Hret & _).
    exists r, st'. split; [exact Hr|].
    pose proof (returned_sources _ _ _ _ Hsites Hret) as Hsrc.
    assert (Forall (fun j => UI.recent j = false) r) as Hall.
    { rewrite List.Forall_forall in *. intros j Hj.
      destruct (Hby j Hj) as [H | [_ H]]; [now apply Hsrc in H|].
      unfold UI.recent. now rewrite H. }
    unfold UI.display_results, working_view. fold UI.recent.
    rewrite (filter_none _ _ Hall).
    destruct r; eexists; reflexivity.
Qed.

Lemma recency_filter_without_reliefweb_witness :
  ~ In "reliefweb" ["unjobs"] /\
  Enhanced.chrome unjobs_world = inr tt /\
  yields (Enhanced.run_scraper_with_progress unjobs_world ["health"] ["unjobs"] 20)
    initial
    (fun r _ =>
       exists message, UI.display_results UI.JobPy r true = inr (UI.Warning message)).
Proof.
  assert (~ In "reliefweb" ["unjobs"]) as H by (intros [H|[]]; discriminate H).
  split; [exact H|]. split; [reflexivity|].
  exact (proj2 (recency_filter_without_reliefweb (api_world six_items) unjobs_world
                  ["health"] ["unjobs"] 20 initial H eq_refl)).
Defined.

(** ** The whole page *)

Lemma sites_caps_simple (ui : UI.sidebar) :
  sum_list (map simple_site_cap (UI.sites "devex" ui)) <= 35.
Proof.
  unfold UI.sites. destruct (UI.first_site_checked ui), (UI.second_site_checked ui);
    vm_compute; lia.
Qed.

Lemma sites_caps_enhanced (ui : UI.sidebar) :
  sum_list (map enhanced_site_cap (UI.sites "unjobs" ui)) <= 35.
Proof.
  unfold UI.sites. destruct (UI.first_site_checked ui), (UI.second_site_checked ui);
    vm_compute; lia.
Qed.

Lemma search_terms_at_most_six (ui : UI.sidebar) : length (UI.search_terms ui) <= 6.
Proof.
  pose proof (checked_terms_sublist (UI.term_checked ui) 0 UI.default_terms) as Hsub.
  apply sublist_length in Hsub. change (length UI.default_terms) with 5 in Hsub.
  unfold UI.search_terms.
  destruct (negb _ && negb _); [rewrite length_app; change (length [_]) with 1|]; lia.
Qed.

Lemma display_rows_bound (v : UI.variant) (jobs : list job) (only_recent : bool)
    (n : nat) :
  length jobs <= n ->
  Forall (fun j => relevance_score j <> None) jobs ->
  exists d,
    UI.display_results v jobs only_recent = inr d /\
    match d with
    | UI.Warning _ => True
    | UI.Results s => UI.total_jobs s <= n /\ length (UI.rows s) <= n
    end.
Proof.
  intros Hlen Hscored. unfold UI.display_results.
  destruct jobs as [|j0 jobs0]; [eexists; split; [reflexivity | exact I]|].
  set (jobs := j0 :: jobs0) in *.
  assert (length (working_view only_recent jobs) <= n) as Hview.
  { etransitivity; [apply sublist_length, working_view_sublist | exact Hlen]. }
  assert (Forall (fun j => relevance_score j <> None) (working_view only_recent jobs))
    as Hrows.
  { rewrite Forall_forall in *. intros j Hj. apply Hscored.
    eapply sublist_subseteq; [apply working_view_sublist | exact Hj]. }
  assert (forall rows, rows <> [] ->
            Forall (fun j : job => relevance_score j <> None) rows ->
            UI.has_score_column rows = true) as Hcol.
  { intros [|r rows] Hne Hall; [congruence|]. apply Forall_cons_1 in Hall as [Hr _].
    unfold UI.has_score_column. cbn [existsb]. now destruct (relevance_score r). }
  destruct only_recent.
  - destruct (working_view true jobs) as [|r rows] eqn:E;
      [eexists; split; [reflexivity | exact I]|].
    rewrite Hcol by (discriminate || exact Hrows).
    eexists. split; [reflexivity|]. cbn [UI.total_jobs UI.rows]. auto.
  - assert (working_view false jobs = jobs) as E by reflexivity.
    rewrite E in *. rewrite Hcol by (discriminate || exact Hrows).
    eexists. split; [reflexivity|]. cbn [UI.total_jobs UI.rows]. auto.
Qed.

Lemma returned_posting_scored (min_score : Q) (terms sites : list string)
    (jobs : list job) :
  Forall (returned_posting min_score terms sites) jobs ->
  Forall (fun j => relevance_score j <> None) jobs.
Proof.
  apply List.Forall_impl. intros j (_ & _ & _ & _ & s & Hs & _). congruence.
Qed.

(** X27. Whatever is checked, typed or set on the slider, a page of
    fn.py shows at most 210 postings, and so does a page of JOB.py once
    the browser has started: at most six search terms, each good for at
    most 20 ReliefWeb postings and 15 of the second site. *)
Theorem page_shows_at_most_210 (w : Simple.World) (w' : Enhanced.World)
    (ui : UI.sidebar) (st : state) (Hchrome : Enhanced.chrome w' = inr tt) :
  yields (UI.fn_main w ui) st
    (fun p _ =>
       match p with
       | UI.Displayed (UI.Results s) => UI.total_jobs s <= 210 /\ length (UI.rows s) <= 210
       | _ => True
       end) /\
  yields (UI.job_main w' ui) st
    (fun p _ =>
       match p with
       | UI.Displayed (UI.Results s) => UI.total_jobs s <= 210 /\ length (UI.rows s) <= 210
       | _ => True
       end).
Proof.
  pose proof (search_terms_at_most_six ui) as Hterms.
  split.
  - unfold UI.fn_main. destruct (UI.run_scraper ui);
      [|eexists _, _; split; [reflexivity | exact I]].
    destruct (simple_main_returns w (UI.search_terms ui) (UI.sites "devex" ui)
                (UI.max_jobs_per_search ui) st) as (r & st' & Hr & Hret & Hlen).
    unfold yields, bind. rewrite Hr. destruct r as [jobs|];
      [|eexists _, _; split; [reflexivity | exact I]].
    simpl default in Hlen, Hret.
    destruct (display_rows_bound UI.FnPy jobs (UI.show_only_recent ui) 210)
      as (d & Hd & Hbound);
      [pose proof (sites_caps_simple ui); nia
      |exact (returned_posting_scored _ _ _ _ Hret)|].
    unfold lift, ret. rewrite Hd. eexists _, _. split; [reflexivity | exact Hbound].
  - unfold UI.job_main. destruct (UI.run_scraper ui);
      [|eexists _, _; split; [reflexivity | exact I]].
    destruct (enhanced_run_returns w' (UI.search_terms ui) (UI.sites "unjobs" ui)
                (UI.max_jobs_per_search ui) st Hchrome) as (r & st' & Hr & Hret & Hlen).
    unfold yields, bind. rewrite Hr.
    destruct (display_rows_bound UI.JobPy r (UI.show_only_recent ui) 210)
      as (d & Hd & Hbound);
      [pose proof (sites_caps_enhanced ui); nia
      |exact (returned_posting_scored _ _ _ _ Hret)|].
    unfold lift, ret. rewrite Hd. eexists _, _. split; [reflexivity | exact Hbound].
Qed.

Lemma page_shows_at_most_210_witness :
  Enhanced.chrome unjobs_world = inr tt /\
  yields
    (UI.job_main unjobs_world
       (UI.mk_sidebar (fun _ => true) "health" false true 50 false true)) initial
    (fun p _ =>
       match p with
       | UI.Displayed (UI.Results s) => UI.total_jobs s <= 210 /\ length (UI.rows s) <= 210
       | _ => True
       end).
Proof.
  split; [reflexivity|].
  exact (proj2 (page_shows_at_most_210 (api_world six_items) unjobs_world
                  (UI.mk_sidebar (fun _ => true) "health" false true 50 false true)
                  initial eq_refl)).
Defined.

(** The page of that witness: six terms, one UNjobs posting, found under
    the first term, shown once and not recent. *)
Example unjobs_page :
  exists d,
    UI.display_results UI.JobPy
      (result_of []
         (Enhanced.run_scraper_with_progress unjobs_world
            ["monitoring and evaluation"] ["unjobs"] 50 initial))
      false = inr d /\
    result_of UI.Idle
      (UI.job_main unjobs_world
         (UI.mk_sidebar (fun _ => true) "health" false true 50 false true) initial) =
    UI.Displayed d /\
    map (fun j => (search_term j, is_recent j, relevance_score j))
      (result_of []
         (Enhanced.run_scraper_with_progress unjobs_world
            ["monitoring and evaluation"] ["unjobs"] 50 initial)) =
    [(Some "monitoring and evaluation", Some false, Some (38 # 100))].
Proof. eexists. split; [vm_compute; reflexivity|]. vm_compute. split; reflexivity. Qed.

(** ** The organization of a Devex posting *)

Section Organization.

Implicit Types (s title : string) (c : ascii).

Lemma span_rest_chars (p : ascii -> bool) s c :
  In c (list_ascii_of_string (snd (Simple.span p s))) -> In c (list_ascii_of_string s).
Proof.
  induction s as [|a s IH]; simpl; [tauto|].
  destruct (p a).
  - destruct (Simple.span p s) as [run rest]. simpl in *. auto.
  - simpl. tauto.
Qed.

Lemma org_group_capital s group rest :
  Simple.org_group s = Some (group, rest) ->
  exists c, In c (list_ascii_of_string s) /\ Py.is_upper c = true.
Proof.
  destruct s as [|c s]; simpl; [discriminate|].
  destruct (Py.is_upper c) eqn:E; [|discriminate]. intros _. exists c. auto.
Qed.

Lemma match_at_pattern_capital s group :
  Simple.match_at_pattern s = Some group ->
  exists c, In c (list_ascii_of_string s) /\ Py.is_upper c = true.
Proof.
  unfold Simple.match_at_pattern.
  destruct s as [|a s]; [discriminate|].
  destruct a as [[] [] [] [] [] [] [] []]; try discriminate.
  destruct s as [|t s]; [discriminate|].
  destruct t as [[] [] [] [] [] [] [] []]; try discriminate.
  pose proof (span_rest_chars Py.is_space s) as Hrest.
  destruct (Simple.span Py.is_space s) as [[|w ws] rest]; [discriminate|].
  destruct (Simple.org_group rest) as [[g r]|] eqn:E; [|discriminate]. intros _.
  destruct (org_group_capital _ _ _ E) as (c & Hc & Hup).
  exists c. split; [|exact Hup]. simpl. right. right. now apply Hrest.
Qed.

Lemma match_dash_pattern_capital s group :
  Simple.match_dash_pattern s = Some group ->
  exists c, In c (list_ascii_of_string s) /\ Py.is_upper c = true.
Proof.
  unfold Simple.match_dash_pattern.
  destruct s as [|d s]; [discriminate|].
  destruct d as [[] [] [] [] [] [] [] []]; try discriminate.
  pose proof (span_rest_chars Py.is_space s) as Hrest.
  destruct (Simple.org_group (snd (Simple.span Py.is_space s))) as [[g r]|] eqn:E;
    [|discriminate].
  intros _. destruct (org_group_capital _ _ _ E) as (c & Hc & Hup).
  exists c. split; [|exact Hup]. simpl. right. now apply Hrest.
Qed.

Lemma re_search_capital (anchored : string -> option string) s group :
  (forall s' g, anchored s' = Some g ->
                exists c, In c (list_ascii_of_string s') /\ Py.is_upper c = true) ->
  Simple.re_search anchored s = Some group ->
  exists c, In c (list_ascii_of_string s) /\ Py.is_upper c = true.
Proof.
  intros Hanch. induction s as [|a s IH]; simpl.
  - destruct (anchored "") eqn:E; [|discriminate]. intros _. exact (Hanch _ _ E).
  - destruct (anchored (String a s)) eqn:E; [intros _; exact (Hanch _ _ E)|].
    intros H. destruct (IH H) as (c & Hc & Hup). exists c. simpl. auto.
Qed.

End Organization.

(** X28. The organization of a Devex posting is read off its title by
    two patterns that both need a capital letter: a title without one
    leaves the default "Development Organization" (in general, the
    default handed in). *)
Theorem organization_needs_capital (title fallback : string)
    (Hlower : forall c, In c (list_ascii_of_string title) -> Py.is_upper c = false) :
  Simple.find_organization Simple.org_patterns title fallback = fallback.
Proof.
  unfold Simple.org_patterns. cbn [Simple.find_organization].
  destruct (Simple.re_search Simple.match_at_pattern title) eqn:E1.
  { destruct (re_search_capital _ _ _ match_at_pattern_capital E1) as (c & Hc & Hup).
    rewrite (Hlower c Hc) in Hup. discriminate. }
  destruct (Simple.re_search Simple.match_dash_pattern title) eqn:E2.
  { destruct (re_search_capital _ _ _ match_dash_pattern_capital E2) as (c & Hc & Hup).
    rewrite (Hlower c Hc) in Hup. discriminate. }
  reflexivity.
Qed.

Lemma organization_needs_capital_witness :
  (forall c, In c (list_ascii_of_string "health officer at who - kenya") ->
             Py.is_upper c = false) /\
  Simple.find_organization Simple.org_patterns "health officer at who - kenya"
    "Development Organization" = "Development Organization".
Proof.
  assert (forall c, In c (list_ascii_of_string "health officer at who - kenya") ->
                    Py.is_upper c = false) as H.
  { intros c Hc. simpl in Hc.
    repeat (destruct Hc as [<-|Hc]; [reflexivity|]). destruct Hc. }
  split; [exact H|].
  exact (organization_needs_capital "health officer at who - kenya"
           "Development Organization" H).
Defined.

(** With capitals the two patterns apply in turn. *)
Example organizations_found :
  map (fun title => Simple.find_organization Simple.org_patterns title
                      "Development Organization")
    ["Program Manager at World Health Organization"; "M&E Officer - UNICEF";
     "Senior Format Designer"; "Evaluation Specialist"] =
  ["World Health Organization"; "UNICEF"; "Designer"; "Development Organization"].
Proof. vm_compute. reflexivity. Qed.
